(* ===== verification/_CoqProject ===== *)
-Q . S2P
Prelude.v
JsNumber.v
Types.v
Translations.v
Engine.v
Scoring.v
Collection.v
MockData.v
Gemini.v
Presentation.v
CardFetch.v
PendleApi.v
AppState.v
