(* ===== verification/Prelude.v ===== *)
(** * Pendle YT Analyzer: a verification development

    The repository is a React dashboard that ranks Pendle yield-token (YT)
    markets by a heuristic investment score.  Its parts, leaf first:

    - [src/types.ts]: the data ([MarketData], [ScoringResult],
      [AnalysisResult], [Language]).
    - [src/services/translations.ts]: the localised strings, of which the
      scoring engine reads the [logic] and [tiers] sections.
    - [src/services/scoringLogic.ts]: [calculateInvestmentScore], the
      algorithmic core: APY spread, trend and maturity factors added to a
      base of 50, rounded and clamped to [0,100], then a tier, a colour tag
      and an analysis string.
    - [src/App.tsx] ([processedMarkets]): scores every market, filters by
      tier and sorts by score with [Array.prototype.sort].
    - [src/services/mockData.ts]: the five demonstration markets.
    - [src/services/geminiService.ts]: [getMarketAnalysis], the narrative
      generator, which asks a generative model for a description and a
      verdict and falls back to a local template on every failure.
    - [src/components/MarketCard.tsx], [src/components/ScoreBadge.tsx]:
      the card of one market and its score ring; the card fetches its
      narrative asynchronously in an effect.
    - [src/services/pendleApi.ts]: the market data provider (not used by
      [App.tsx], which always shows the mock markets).

    Files of this development (in dependency order):

    - [Prelude] (this file): the JavaScript number semantics the code relies
      on ([Math.round], [Math.ceil], [<] and [>=] on numbers,
      [Number.prototype.toFixed], number to string, [Date] values with
      the invalid date), the [yt_scope] notations, the tactic [js_cases],
      the hint database [yt] and the generic lemmas shared by every file.
    - [JsNumber]: [parseFloat] on the text [toFixed] writes, the text
      [String(x)] writes for a decimal number, and the round trips.
    - [Types]: [types.ts] as Rocq records and inductive types, with
      decidable equality on the enumerations.
    - [Translations]: every section of [translations.ts] in both
      languages (scoring texts, tiers, header, controls, card labels).
    - [Engine]: the tier thresholds of [scoringLogic.ts] and the
      interface [ScoringEngine] (a class of operations with laws) that the
      collection processor relies on.
    - [Scoring]: [calculateInvestmentScore], step by step as the code
      mutates its local [score] and [breakdown]; the instance of
      [ScoringEngine].
    - [Collection]: the [useMemo] body of [App.tsx]: score, filter,
      stable sort; proved against the [ScoringEngine] interface.
    - [MockData]: [MOCK_MARKETS] and the scenarios of the specification.
    - [Gemini]: the prompt text, [getMarketAnalysis] and
      [getDefaultAnalysis] in ExtLib's error monad ([raise] for [throw],
      [catch] for the catch clause); the model's answer is an argument and
      [JSON.parse] a section variable.
    - [Presentation]: what [ScoreBadge] and [MarketCard] render from
      their props ([scoreBadge], [cardView]: ring offset and colour, day
      count, APY and spread texts, badges, highlights, chart data).
    - [CardFetch]: the [aiData]/[loadingAi] state of [MarketCard] and its
      effect as a step function over interleaved calls, with the
      reachable states as an inductive relation, and the description and
      verdict lines the card shows in each state.
    - [PendleApi]: [fetchPendleMarkets]: the per-chain requests with their
      inner [try]/[catch] in the error monad, the mapping of an API record
      (leverage estimate and clamp, synthetic history, field fallbacks),
      [Promise.all], the validity filter and the mock fallback.  The
      network outcome of each chain, [Date.now()] and [Math.random()] are
      arguments.
    - [AppState]: the selections of [App] as a state machine: React
      skipping a render on an unchanged value, the [useMemo]
      recomputation with fresh objects, and the card effects each render
      starts; the reachable states as an inductive relation; the page
      [App] renders in a state ([appView]: texts, filter buttons, score
      guide, grid or empty state).

    Modelling choices.  JavaScript numbers are modelled by exact rationals
    [Q]: the APYs of the code are decimal literals or API values, and the
    score only takes sums, products by 4 and comparisons of them.  Binary
    floating-point rounding (for instance [18.2 - 12.5] being
    [5.699999999999999] in IEEE double) is not modelled; a comparison with
    the threshold 3 can differ from the rational one when the exact
    difference is 3.  A [Date] is its time value in milliseconds ([Z]) or
    the invalid date, whose time value is [NaN]; arithmetic on [NaN] gives
    [NaN] and every comparison with it is false, which the model keeps
    ([option Z] for the day count).  [toFixed] is modelled for arguments
    below [10^21] (the exponent form of larger numbers is not).  The clock
    ([new Date()]) is an explicit argument: [calculateInvestmentScore]
    reads it once, and the collection processor receives one reading per
    call ([clock : nat -> Z]).

    The main theorems.
    - Scoring: the score is in [0,100]; the tier is the function of the
      score of the table [80/60/40]; the breakdown sums with the base 50
      to the score before rounding (an invariant of every mutation step);
      the spread factor lies in [-40,50] and the score is monotone in the
      spread; the trend and maturity factors take only their documented
      values; nothing numeric depends on the language.
    - Collection: the output holds exactly the markets of the selected
      tier, is sorted by score in the chosen direction, keeps equal scores
      in input order, and is the only permutation of the filtered input
      with these properties, so any stable sort of the runtime gives this
      list.
    - Scenarios: the mock markets and the scenarios A to D of the
      specification, and the order in which the dashboard lists them.
    - Narrative: [getMarketAnalysis] never rejects and falls back to the
      template on every thrown error; a well-formed model answer is passed
      through unchanged; a missing verdict falls back to English text even
      for Korean; the template states the score in decimal.
    - Presentation: the ring colour partitions scores as the tiers do, the
      ring offset is bounded and decreasing in the score, the card's
      badges and colours agree with the scoring result; the card's own day
      count, read from a later clock reading, is one less than the one the
      score used exactly when a day boundary of the countdown falls
      between the two readings.
    - Card fetch: when no call rejects the skeleton is shown only while a
      call is in flight (by induction on the reachable states); calls
      resolving in order leave the latest result shown; otherwise a stale
      result can be left on screen.
    - Provider: the result is never empty and every market in it has
      non-negative APYs; with no API record the mock list is returned; a
      valid expiry gives the leverage [365 / max(1, days)] clamped to
      [[1,50]] and rounded half up to one decimal; an
      unparsable expiry survives the filter with a [NaN] leverage; the
      synthetic trend is decided by two random draws.
    - Numbers (lemmas the provider's theorems use):
      [parseFloat(x.toFixed(f))] is [x] rounded half away from zero to [f]
      decimals; the text [String(x)] reads back as [x].
    - App: in every reachable state the memo is [processedMarkets] for
      the current selections, by induction on the reachable states: React
      keeps the memo when the values of its dependency list are unchanged,
      and the list [[sortOrder, filterTier, language]] names every
      selection the memo reads; changing only the sort order restarts the
      narrative call of every card on screen; the event the empty state's
      clear-filters button sends brings back all five markets; a click on
      a filter button highlights exactly that button and shows only cards
      of its tier.

    No fuel is used: every function of the code is structurally recursive
    or a fold over its input list.

    Not modelled: the CSS class names and SVG paths of the JSX, the
    drawing of the chart (its data is modelled), [toLocaleDateString]
    (locale-dependent), the exponent form of [String(x)] for very large
    or very small numbers, the HTTP transport and the model call of the
    generative-AI SDK, which are I/O. *)

From Stdlib Require Import QArith Qround Qminmax Lqa ZArith Lia List String Bool.
From Stdlib Require Import Ascii DecimalString DecimalZ Morphisms Psatz.
Import ListNotations.

Declare Scope yt_scope.
Delimit Scope yt_scope with yt.

(** ** Comparisons on numbers, as JavaScript evaluates them *)

(** [x < y] on two (non-NaN) numbers. *)
Definition qltb (x y : Q) : bool := negb (Qle_bool y x).

(** [x <= y] and [x >= y] on two (non-NaN) numbers. *)
Definition qleb (x y : Q) : bool := Qle_bool x y.

Notation "x <? y" := (qltb x y) : yt_scope.
Notation "x <=? y" := (qleb x y) : yt_scope.
Notation "x >? y" := (qltb y x) (at level 70, no associativity) : yt_scope.
Notation "x >=? y" := (qleb y x) (at level 70, no associativity) : yt_scope.

(** ** [Math] functions *)

(** [Math.round]: the nearest integer, halves rounded towards +infinity. *)
Definition jsRound (x : Q) : Z := Qfloor (x + (1 # 2)).

(** [Math.ceil] of a quotient of two integers. *)
Definition jsCeilDiv (a b : Z) : Z := Qceiling (inject_Z a / inject_Z b).

(** ** [Date] values *)

(** A JavaScript [Date]: a time value in milliseconds, or the invalid
    date ([new Date(undefined)]) whose [getTime()] is [NaN]. *)
Inductive JsDate : Type :=
| ValidDate (t : Z)
| InvalidDate.

(** [date.getTime()], with [None] standing for [NaN]. *)
Definition getTime (d : JsDate) : option Z :=
  match d with
  | ValidDate t => Some t
  | InvalidDate => None
  end.

(** [1000 * 60 * 60 * 24]. *)
Definition MS_PER_DAY : Z := 1000 * 60 * 60 * 24.

(** ** Numbers to strings *)

(** [String(n)] of an integer-valued number. *)
Definition decimalOfZ (z : Z) : string := NilZero.string_of_int (Z.to_int z).

(** [String(n)] of an integer-valued number that may be [NaN]. *)
Definition jsNumToString (n : option Z) : string :=
  match n with
  | Some z => decimalOfZ z
  | None => "NaN"
  end.

Fixpoint zeros (n : nat) : string :=
  match n with
  | O => ""
  | S n' => String "0"%char (zeros n')
  end.

(** The digits [toFixed] writes for the rounded integer [n >= 0]: its
    decimal text, padded with zeros and split by a point [f] digits from
    the right. *)
Definition fixedDigits (n : Z) (f : nat) : string :=
  let m := if Z.eqb n 0 then "0"%string else decimalOfZ n in
  if Nat.eqb f 0%nat then m
  else
    let k := String.length m in
    let '(m, k) :=
      if Nat.leb k f then ((zeros (f + 1 - k) ++ m)%string, (f + 1)%nat) else (m, k) in
    (substring 0 (k - f) m ++ "." ++ substring (k - f) f m)%string.

(** [Number.prototype.toFixed(f)] (ECMA-262, 21.1.3.3) for [|x| < 10^21]:
    [n] is the integer for which [n / 10^f - |x|] is closest to zero, the
    larger on a tie; its digits are padded with zeros and split by a point
    [f] digits from the right; the sign is kept even when [n] is 0. *)
Definition jsToFixed (x : Q) (f : nat) : string :=
  let s := if qltb x 0 then "-"%string else ""%string in
  let x := if qltb x 0 then - x else x in
  let n := Qfloor (x * inject_Z (10 ^ Z.of_nat f)%Z + (1 # 2)) in
  (s ++ fixedDigits n f)%string.

(** ** Generic lemmas *)

Lemma qltb_spec (x y : Q) : BoolSpec (x < y) (y <= x) (qltb x y).
Proof.
  unfold qltb. destruct (Qle_bool y x) eqn:E; constructor.
  - now apply Qle_bool_iff.
  - apply Qnot_le_lt. intros H. apply Qle_bool_iff in H. congruence.
Qed.

Lemma qleb_spec (x y : Q) : BoolSpec (x <= y) (y < x) (qleb x y).
Proof.
  unfold qleb. destruct (Qle_bool x y) eqn:E; constructor.
  - now apply Qle_bool_iff.
  - apply Qnot_le_lt. intros H. apply Qle_bool_iff in H. congruence.
Qed.

#[export] Instance qltb_Proper : Proper (Qeq ==> Qeq ==> eq) qltb.
Proof.
  intros x x' Hx y y' Hy.
  destruct (qltb_spec x y), (qltb_spec x' y'); auto; exfalso; lra.
Qed.

#[export] Instance qleb_Proper : Proper (Qeq ==> Qeq ==> eq) qleb.
Proof.
  intros x x' Hx y y' Hy.
  destruct (qleb_spec x y), (qleb_spec x' y'); auto; exfalso; lra.
Qed.

#[export] Instance jsRound_Proper : Proper (Qeq ==> eq) jsRound.
Proof. intros x y H. unfold jsRound. apply Qfloor_comp. now rewrite H. Qed.

Lemma jsRound_mono (x y : Q) : x <= y -> (jsRound x <= jsRound y)%Z.
Proof. intros H. unfold jsRound. apply Qfloor_resp_le. lra. Qed.

Lemma jsRound_inject_Z (z : Z) : jsRound (inject_Z z) = z.
Proof.
  unfold jsRound.
  pose proof (Qfloor_le (inject_Z z + (1 # 2))) as H1.
  pose proof (Qlt_floor (inject_Z z + (1 # 2))) as H2.
  set (f := Qfloor _) in *.
  rewrite inject_Z_plus in H2. change (inject_Z 1) with 1 in H2.
  assert (A : (f < z + 1)%Z).
  { rewrite Zlt_Qlt, inject_Z_plus. change (inject_Z 1) with 1. lra. }
  assert (B : (z - 1 < f)%Z).
  { rewrite Zlt_Qlt. unfold Z.sub. rewrite inject_Z_plus, inject_Z_opp. change (inject_Z 1) with 1. lra. }
  lia.
Qed.

(** The clamp [Math.max(lo, Math.min(hi, z))] lands in [[lo, hi]]. *)
Lemma clamp_bounds (lo hi z : Z) : (lo <= hi)%Z -> (lo <= Z.max lo (Z.min hi z) <= hi)%Z.
Proof. intros. lia. Qed.

Lemma clamp_mono (lo hi z z' : Z) :
  (z <= z')%Z -> (Z.max lo (Z.min hi z) <= Z.max lo (Z.min hi z'))%Z.
Proof. intros. lia. Qed.

Lemma clamp_id (lo hi z : Z) : (lo <= z <= hi)%Z -> Z.max lo (Z.min hi z) = z.
Proof. intros. lia. Qed.

(** [Math.ceil(q) <= n] exactly when [q <= n]. *)
Lemma Qceiling_le_iff (q : Q) (n : Z) : (Qceiling q <= n)%Z <-> q <= inject_Z n.
Proof.
  split; intros H.
  - apply Qle_trans with (inject_Z (Qceiling q)); [apply Qle_ceiling | now rewrite <- Zle_Qle].
  - rewrite <- (Qceiling_Z n). now apply Qceiling_resp_le.
Qed.

Lemma Qdiv_le_iff (x c d : Q) : 0 < d -> (x / d <= c <-> x <= c * d).
Proof.
  intros Hd. split; intros H.
  - assert (E : d * (x / d) == x) by (apply Qmult_div_r; intros E; rewrite E in Hd; discriminate).
    nra.
  - now apply Qle_shift_div_r.
Qed.

(** [Math.ceil(a / b) < n] exactly when [a <= (n - 1) * b], for [b > 0]. *)
Lemma jsCeilDiv_lt_iff (a b n : Z) : (0 < b)%Z -> ((jsCeilDiv a b < n)%Z <-> (a <= (n - 1) * b)%Z).
Proof.
  intros Hb. unfold jsCeilDiv.
  assert (Hb' : 0 < inject_Z b) by (change 0 with (inject_Z 0); now rewrite <- Zlt_Qlt).
  rewrite Z.lt_le_pred, Qceiling_le_iff, Qdiv_le_iff by exact Hb'.
  rewrite <- inject_Z_mult, <- Zle_Qle, <- Z.sub_1_r. reflexivity.
Qed.

(** [Math.ceil(a / b)] is the [n] with [(n - 1) * b < a <= n * b], for [b > 0]. *)
Lemma jsCeilDiv_eq (a b n : Z) : (0 < b)%Z -> ((n - 1) * b < a <= n * b)%Z -> jsCeilDiv a b = n.
Proof.
  intros Hb [H1 H2].
  assert (U : (jsCeilDiv a b < n + 1)%Z) by (apply jsCeilDiv_lt_iff; [exact Hb | now rewrite Z.add_simpl_r]).
  assert (L : ~ (jsCeilDiv a b < n)%Z) by (rewrite jsCeilDiv_lt_iff by exact Hb; lia).
  lia.
Qed.

Lemma string_app_assoc (a b c : string) : ((a ++ b) ++ c)%string = (a ++ (b ++ c))%string.
Proof. induction a as [|x a IH]; cbn; [reflexivity | now rewrite IH]. Qed.

Lemma string_app_cancel_l (a x y : string) : (a ++ x)%string = (a ++ y)%string -> x = y.
Proof. induction a as [|c a IH]; cbn; intros H; [exact H | injection H as H; exact (IH H)]. Qed.

(** Reading back the decimal text of an integer. *)
Definition readDecimal (s : string) : option Z :=
  option_map Z.of_int (NilZero.int_of_string s).

(** The decimal text of an integer reads back as that integer. *)
Lemma decimalOfZ_roundtrip (z : Z) : readDecimal (decimalOfZ z) = Some z.
Proof.
  unfold readDecimal, decimalOfZ.
  assert (Hz : forall d, Z.to_int z = d -> Z.of_int d = z)
    by (intros d <-; apply DecimalZ.of_to).
  rewrite NilZero.isi.
  - cbn. f_equal. apply DecimalZ.of_to.
  - intros H. pose proof (Hz _ H) as E. cbn in E. subst z. discriminate H.
  - intros H. pose proof (Hz _ H) as E. cbn in E. subst z. discriminate H.
Qed.

(** [a[a.length - 1]] on a non-empty array is its last element. *)
Lemma nth_last_cons {A} (d x : A) (l : list A) :
  nth (List.length (x :: l) - 1) (x :: l) d = last (x :: l) d.
Proof.
  revert x. induction l as [|y l IH]; intros x; [reflexivity|].
  specialize (IH y). cbn [List.length] in *. rewrite Nat.sub_succ, Nat.sub_0_r in *.
  change (last (x :: y :: l) d) with (last (y :: l) d). now rewrite <- IH.
Qed.

(** ** Automation *)

(** Case analysis on the boolean comparisons that the code evaluates. *)
Ltac js_cases :=
  repeat match goal with
  | |- context [qltb ?x ?y] => destruct (qltb_spec x y)
  | |- context [qleb ?x ?y] => destruct (qleb_spec x y)
  | |- context [Z.ltb ?x ?y] => destruct (Z.ltb_spec x y)
  | |- context [Z.leb ?x ?y] => destruct (Z.leb_spec x y)
  | |- context [Z.eqb ?x ?y] => destruct (Z.eqb_spec x y)
  end.

Create HintDb yt.
#[export] Hint Resolve jsRound_mono clamp_bounds clamp_mono : yt.
Create Rewrite HintDb yt_rw.
#[export] Hint Rewrite jsRound_inject_Z : yt_rw.
