(* ===== verification/JsNumber.v ===== *)
(** * JsNumber: [parseFloat] and its round trip with [toFixed]

    The market data provider stores [parseFloat(x.toFixed(1))].  This file
    models [parseFloat] on the strings [toFixed] produces (an optional
    sign, digits, an optional point and digits, the rest ignored; leading
    white space, exponents and [Infinity] are not modelled) and proves
    that reading back the text of [Prelude.jsToFixed] gives the value
    [toFixed] rounded [x] to, within half a unit of the last digit.
    [jsNumberToString] is [Number.prototype.toString] on numbers with a
    finite decimal expansion of at most 15 significant digits between
    [1e-6] and [1e21] (the shortest digits are then the exact ones), and
    [None] elsewhere; its text reads back as the number. *)

From Stdlib Require Import QArith Qabs Qround Lqa ZArith Lia List String Ascii.
From Stdlib Require Import DecimalString.
From S2P Require Import Prelude.

(** The value of a character as a decimal digit (meaningful for ['0'..'9']). *)
Definition digitValue (c : ascii) : Z := (Z.of_nat (nat_of_ascii c) - 48)%Z.

Definition isDigit (c : ascii) : bool := (0 <=? digitValue c)%Z && (digitValue c <=? 9)%Z.

(** The digits at the front of [s], read in base ten onto [acc]: their
    value, their number and the rest of the string. *)
Fixpoint readDigits (s : string) (acc : Z) (n : nat) : Z * nat * string :=
  match s with
  | String c r => if isDigit c then readDigits r (acc * 10 + digitValue c)%Z (S n) else (acc, n, s)
  | EmptyString => (acc, n, s)
  end.

(** A leading ['-'] or ['+']. *)
Definition splitSign (s : string) : bool * string :=
  match s with
  | String c r =>
      if Ascii.eqb c "-"%char then (true, r)
      else if Ascii.eqb c "+"%char then (false, r) else (false, s)
  | EmptyString => (false, s)
  end.

(** Digits, an optional point and digits; [None] ([NaN]) without any digit. *)
Definition parseUnsigned (s : string) : option Q :=
  let '(ip, ni, r) := readDigits s 0 0 in
  let '(fp, nf) := match r with
                   | String c r' =>
                       if Ascii.eqb c "."%char then let '(fp, nf, _) := readDigits r' 0 0 in (fp, nf)
                       else (0%Z, 0%nat)
                   | EmptyString => (0%Z, 0%nat)
                   end in
  if Nat.eqb (ni + nf) 0 then None
  else Some (inject_Z ip + inject_Z fp / inject_Z (10 ^ Z.of_nat nf)).

(** [parseFloat(s)] *)
Definition parseFloat (s : string) : option Q :=
  let '(neg, s1) := splitSign s in
  option_map (fun v => if neg then - v else v) (parseUnsigned s1).

(** [q] is an integer: its numerator is a multiple of its denominator. *)
Definition isIntegral (q : Q) : bool := Z.eqb (Z.modulo (Qnum q) (Z.pos (Qden q))) 0.

(** [Number::toString(x)] (ECMA-262, 6.1.6.1.20) for a number that is a
    decimal with at most 15 significant digits and [1e-6 <= |x| < 1e21]
    (the double nearest to such a decimal prints as that decimal): the
    digits of [|x| * 10^d] for the least number [d] of decimals, split by
    a point [d] digits from the right.  Other numbers (exponent form,
    binary fractions) are [None]. *)
Definition jsNumberToString (x : Q) : option string :=
  if Qeq_bool x 0 then Some "0"%string
  else
    match List.find (fun d => isIntegral (Qabs x * inject_Z (10 ^ Z.of_nat d))) (List.seq 0 21) with
    | None => None
    | Some d =>
        let m := Qfloor (Qabs x * inject_Z (10 ^ Z.of_nat d)) in
        if (m <? 10 ^ 15)%Z && qleb (1 # 1000000) (Qabs x) && qltb (Qabs x) (inject_Z (10 ^ 21))
        then Some ((if qltb x 0 then "-" else "") ++ fixedDigits m d)%string
        else None
    end.

(** ** Strings of digits *)

Fixpoint allDigits (s : string) : bool :=
  match s with
  | EmptyString => true
  | String c r => isDigit c && allDigits r
  end.

Fixpoint digitsValue (s : string) (acc : Z) : Z :=
  match s with
  | EmptyString => acc
  | String c r => digitsValue r (acc * 10 + digitValue c)%Z
  end.

Lemma readDigits_app (d r : string) (acc : Z) (k : nat) :
  allDigits d = true ->
  readDigits (d ++ r) acc k = readDigits r (digitsValue d acc) (k + String.length d).
Proof.
  revert acc k. induction d as [|c d IH]; intros acc k H; cbn in *.
  - now rewrite Nat.add_0_r.
  - apply andb_prop in H as [Hc Hd]. rewrite Hc, IH by exact Hd. f_equal. lia.
Qed.

Lemma allDigits_app (a b : string) : allDigits (a ++ b) = allDigits a && allDigits b.
Proof. induction a as [|c a IH]; cbn; [reflexivity|]. now rewrite IH, Bool.andb_assoc. Qed.

Lemma digitsValue_app (a b : string) (acc : Z) :
  digitsValue (a ++ b) acc = digitsValue b (digitsValue a acc).
Proof. revert acc. induction a as [|c a IH]; intros acc; cbn; auto. Qed.

Lemma digitsValue_acc (d : string) (acc : Z) :
  digitsValue d acc = (acc * 10 ^ Z.of_nat (String.length d) + digitsValue d 0)%Z.
Proof.
  revert acc. induction d as [|c d IH]; intros acc; cbn [digitsValue String.length].
  - lia.
  - rewrite IH, (IH (0 * 10 + digitValue c)%Z). rewrite Nat2Z.inj_succ, Z.pow_succ_r by lia. lia.
Qed.

Lemma zeros_digits (k : nat) :
  allDigits (zeros k) = true /\ digitsValue (zeros k) 0 = 0%Z /\ String.length (zeros k) = k.
Proof.
  induction k as [|k IH]; [auto|]. destruct IH as (A & B & C).
  cbn [zeros allDigits digitsValue String.length]. rewrite A, C.
  change (0 * 10 + digitValue "0")%Z with 0%Z. auto.
Qed.

(** Replaces [digitValue c] by its value for a concrete character. *)
Ltac digit_values :=
  repeat match goal with
  | |- context [digitValue ?c] =>
      let v := eval vm_compute in (digitValue c) in change (digitValue c) with v
  end.

Lemma uint_digits_acc (d : Decimal.uint) (p : positive) :
  allDigits (NilEmpty.string_of_uint d) = true /\
  digitsValue (NilEmpty.string_of_uint d) (Z.pos p) = Z.pos (Pos.of_uint_acc d p).
Proof.
  revert p. induction d as [|d IH|d IH|d IH|d IH|d IH|d IH|d IH|d IH|d IH|d IH]; intros p;
    [split; reflexivity|..];
    cbn [NilEmpty.string_of_uint allDigits digitsValue Pos.of_uint_acc];
    match goal with |- context [Pos.of_uint_acc d ?q] => destruct (IH q) as [A B] end;
    (split; [rewrite A; reflexivity|]);
    rewrite <- B; f_equal; digit_values; lia.
Qed.

Lemma uint_digits (d : Decimal.uint) :
  allDigits (NilEmpty.string_of_uint d) = true /\
  digitsValue (NilEmpty.string_of_uint d) 0 = Z.of_N (Pos.of_uint d).
Proof.
  induction d as [|d IH|d IH|d IH|d IH|d IH|d IH|d IH|d IH|d IH|d IH];
    [split; reflexivity|..];
    cbn [NilEmpty.string_of_uint allDigits digitsValue Pos.of_uint]; digit_values.
  - exact IH.
  - exact (uint_digits_acc d 1).
  - exact (uint_digits_acc d 2).
  - exact (uint_digits_acc d 3).
  - exact (uint_digits_acc d 4).
  - exact (uint_digits_acc d 5).
  - exact (uint_digits_acc d 6).
  - exact (uint_digits_acc d 7).
  - exact (uint_digits_acc d 8).
  - exact (uint_digits_acc d 9).
Qed.

(** The decimal text of a positive integer is a non-empty string of
    digits whose value is that integer. *)
Lemma decimalOfZ_digits (n : Z) :
  (0 < n)%Z ->
  allDigits (decimalOfZ n) = true /\ digitsValue (decimalOfZ n) 0 = n /\
  String.length (decimalOfZ n) <> 0%nat.
Proof.
  intros Hn. destruct n as [|p|p]; try lia. unfold decimalOfZ. cbn [Z.to_int NilZero.string_of_int].
  pose proof (DecimalPos.Unsigned.of_to p) as E.
  destruct (Pos.to_uint p) as [|u|u|u|u|u|u|u|u|u|u]; [discriminate E|..];
    cbn [NilZero.string_of_uint];
    match goal with
    | |- context [NilEmpty.string_of_uint ?d] =>
        destruct (uint_digits d) as [A B]; rewrite E in B; cbn in B;
        split; [exact A | split; [exact B | discriminate]]
    end.
Qed.

Lemma append_empty_r (s : string) : (s ++ "")%string = s.
Proof. induction s as [|c s IH]; cbn; congruence. Qed.

Lemma string_length_app (a b : string) :
  String.length (a ++ b) = (String.length a + String.length b)%nat.
Proof. induction a as [|c a IH]; cbn; congruence. Qed.

Lemma substring_full (s : string) : substring 0 (String.length s) s = s.
Proof. induction s as [|c s IH]; cbn; congruence. Qed.

Lemma substring_split (s : string) (i : nat) :
  (i <= String.length s)%nat ->
  (substring 0 i s ++ substring i (String.length s - i) s)%string = s /\
  String.length (substring 0 i s) = i /\
  String.length (substring i (String.length s - i) s) = (String.length s - i)%nat.
Proof.
  revert i. induction s as [|c s IH]; intros i Hi; cbn in Hi.
  - assert (i = 0%nat) as -> by lia. auto.
  - destruct i as [|i].
    + cbn [substring String.length Nat.sub append]. rewrite substring_full. auto.
    + cbn [substring String.length Nat.sub]. destruct (IH i ltac:(lia)) as (A & B & C).
      cbn [append String.length]. rewrite A, B, C. auto.
Qed.

Lemma splitSign_digits (s t : string) :
  allDigits s = true -> String.length s <> 0%nat -> splitSign (s ++ t) = (false, (s ++ t)%string).
Proof.
  destruct s as [|c s]; intros H Hl; [cbn in Hl; lia|]. cbn in H. apply andb_prop in H as [Hc _].
  cbn [append splitSign].
  destruct (Ascii.eqb_spec c "-"%char) as [->|_]; [discriminate Hc|].
  destruct (Ascii.eqb_spec c "+"%char) as [->|_]; [discriminate Hc|]. reflexivity.
Qed.

Lemma Q_digits_split (va vb P : Z) :
  (0 < P)%Z ->
  inject_Z va + inject_Z vb / inject_Z P == inject_Z (va * P + vb) / inject_Z P.
Proof.
  intros HP. assert (~ inject_Z P == 0) as HP'.
  { change 0 with (inject_Z 0). rewrite inject_Z_injective. lia. }
  rewrite inject_Z_plus, inject_Z_mult. field. exact HP'.
Qed.

Lemma parseUnsigned_int (m : string) :
  allDigits m = true -> String.length m <> 0%nat ->
  exists v, parseUnsigned m = Some v /\ v == inject_Z (digitsValue m 0).
Proof.
  intros H Hl. unfold parseUnsigned.
  replace (readDigits m 0 0) with (readDigits (m ++ "") 0 0) by now rewrite append_empty_r.
  rewrite readDigits_app by exact H. cbn [readDigits].
  destruct (Nat.eqb_spec (0 + String.length m + 0) 0) as [E|_]; [lia|].
  eexists; split; [reflexivity|]. change (inject_Z (10 ^ Z.of_nat 0)) with 1.
  change (inject_Z 0) with 0. unfold Qdiv. ring.
Qed.

Lemma parseUnsigned_split (m : string) (f : nat) :
  allDigits m = true -> (f < String.length m)%nat ->
  exists v,
    parseUnsigned (substring 0 (String.length m - f) m ++ "." ++
                   substring (String.length m - f) f m) = Some v /\
    v == inject_Z (digitsValue m 0) / inject_Z (10 ^ Z.of_nat f).
Proof.
  intros H Hf. destruct (substring_split m (String.length m - f)) as (A & B & C); [lia|].
  replace (String.length m - (String.length m - f))%nat with f in * by lia.
  set (a := substring 0 (String.length m - f) m) in *.
  set (b := substring (String.length m - f) f m) in *.
  assert (Hab : allDigits a = true /\ allDigits b = true).
  { apply andb_prop. rewrite <- allDigits_app, A. exact H. }
  destruct Hab as [Ha Hb]. unfold parseUnsigned.
  rewrite readDigits_app by exact Ha. cbn [append readDigits]. change (isDigit ".") with false.
  cbn iota beta. change (Ascii.eqb "." ".") with true. cbn iota beta.
  replace (readDigits b 0 0) with (readDigits (b ++ "") 0 0) by now rewrite append_empty_r.
  rewrite readDigits_app by exact Hb. cbn [readDigits].
  destruct (Nat.eqb_spec (0 + String.length a + (0 + String.length b)) 0) as [E|_]; [lia|].
  eexists; split; [reflexivity|]. rewrite <- A, digitsValue_app, (digitsValue_acc b (digitsValue a 0)), C.
  replace (0 + f)%nat with f by lia. apply Q_digits_split. apply Z.pow_pos_nonneg; lia.
Qed.

(** The split text of [toFixed] starts with a digit and reads back as its
    digits over [10^f]. *)
Lemma split_text_parse (m : string) (f : nat) :
  allDigits m = true -> (f < String.length m)%nat ->
  let s := (substring 0 (String.length m - f) m ++ "." ++ substring (String.length m - f) f m)%string in
  splitSign s = (false, s) /\
  exists v, parseUnsigned s = Some v /\ v == inject_Z (digitsValue m 0) / inject_Z (10 ^ Z.of_nat f).
Proof.
  intros H Hf s. split; [|apply parseUnsigned_split; assumption].
  destruct (substring_split m (String.length m - f)) as (A & B & _); [lia|].
  apply splitSign_digits; [|lia].
  refine (proj1 (andb_prop _ _ _)). rewrite <- allDigits_app, A. exact H.
Qed.

(** The digits of the rounded integer [n]: ["0"] or its decimal text. *)
Lemma intText_digits (n : Z) :
  (0 <= n)%Z ->
  let m := if Z.eqb n 0 then "0"%string else decimalOfZ n in
  allDigits m = true /\ digitsValue m 0 = n /\ String.length m <> 0%nat.
Proof.
  intros Hn m. subst m. destruct (Z.eqb_spec n 0) as [->|Hne].
  - repeat split. discriminate.
  - apply decimalOfZ_digits. lia.
Qed.

(** The text [toFixed] writes for [n >= 0] reads back as [n / 10^f]. *)
Lemma fixedDigits_parse (n : Z) (f : nat) :
  (0 <= n)%Z ->
  splitSign (fixedDigits n f) = (false, fixedDigits n f) /\
  exists v, parseUnsigned (fixedDigits n f) = Some v /\ v == inject_Z n / inject_Z (10 ^ Z.of_nat f).
Proof.
  intros Hn. destruct (intText_digits n Hn) as (A & B & C). unfold fixedDigits.
  set (m := if Z.eqb n 0 then "0"%string else decimalOfZ n) in *.
  destruct (Nat.eqb_spec f 0) as [->|Hf].
  - split.
    + pose proof (splitSign_digits m "" A C) as S. now rewrite append_empty_r in S.
    + destruct (parseUnsigned_int m A C) as (v & Hv & Ev). exists v. split; [exact Hv|].
      rewrite Ev, B. change (inject_Z (10 ^ Z.of_nat 0)) with 1. field.
  - destruct (Nat.leb_spec (String.length m) f) as [Hk|Hk].
    + set (m' := (zeros (f + 1 - String.length m) ++ m)%string).
      destruct (zeros_digits (f + 1 - String.length m)) as (Z1 & Z2 & Z3).
      assert (Lm : String.length m' = (f + 1)%nat) by (unfold m'; rewrite string_length_app, Z3; lia).
      assert (Am : allDigits m' = true) by (unfold m'; rewrite allDigits_app, Z1, A; reflexivity).
      assert (Vm : digitsValue m' 0 = n) by (unfold m'; rewrite digitsValue_app, Z2; exact B).
      destruct (split_text_parse m' f Am ltac:(lia)) as [S P]. rewrite Lm, Vm in *. exact (conj S P).
    + destruct (split_text_parse m f A Hk) as [S P]. rewrite B in P. exact (conj S P).
Qed.

Lemma rounded_nonneg (y P : Q) : 0 <= y -> 0 <= P -> (0 <= Qfloor (y * P + (1 # 2)))%Z.
Proof.
  intros Hy HP. change 0%Z with (Qfloor 0). apply Qfloor_resp_le.
  assert (0 <= y * P) by (apply Qmult_le_0_compat; assumption). lra.
Qed.

(** Rounding half up to [f] digits is within half a unit of the last digit. *)
Lemma rounded_error (y P : Q) :
  0 < P -> Qabs (inject_Z (Qfloor (y * P + (1 # 2))) / P - y) <= (1 # 2) / P.
Proof.
  intros HP. set (n := Qfloor (y * P + (1 # 2))).
  pose proof (Qfloor_le (y * P + (1 # 2))) as L. pose proof (Qlt_floor (y * P + (1 # 2))) as U.
  fold n in L, U. rewrite inject_Z_plus in U. change (inject_Z 1) with 1 in U.
  assert (E1 : (inject_Z n / P - y) * P == inject_Z n - y * P) by (field; lra).
  assert (E2 : (y - inject_Z n / P) * P == y * P - inject_Z n) by (field; lra).
  assert (A1 : inject_Z n / P - y <= (1 # 2) / P) by (apply Qle_shift_div_l; [exact HP | rewrite E1; lra]).
  assert (A2 : y - inject_Z n / P <= (1 # 2) / P) by (apply Qle_shift_div_l; [exact HP | rewrite E2; lra]).
  apply Qabs_Qle_condition. split; lra.
Qed.

Lemma pow10_pos (f : nat) : 0 < inject_Z (10 ^ Z.of_nat f).
Proof. change 0 with (inject_Z 0). rewrite <- Zlt_Qlt. apply Z.pow_pos_nonneg; lia. Qed.

(** The value [parseFloat] reads back from [x.toFixed(f)]: the sign of
    [x] times [|x|] rounded half up to [f] digits. *)
(** A sign and the text [toFixed] writes for [n >= 0] read back as the
    signed [n / 10^f]. *)
Lemma signed_fixed_parse (neg : bool) (n : Z) (f : nat) :
  (0 <= n)%Z ->
  exists v, parseFloat ((if neg then "-" else "") ++ fixedDigits n f)%string = Some v /\
    v == (if neg then - 1 else 1) * (inject_Z n / inject_Z (10 ^ Z.of_nat f)).
Proof.
  intros Hn. destruct (fixedDigits_parse n f Hn) as [S (v & Hv & Ev)]. destruct neg.
  - exists (- v). split.
    + unfold parseFloat. cbn [append splitSign]. change (Ascii.eqb "-" "-") with true.
      cbn iota beta. rewrite Hv. reflexivity.
    + rewrite Ev. ring.
  - exists v. split.
    + unfold parseFloat. cbn [append]. rewrite S. cbn iota beta. rewrite Hv. reflexivity.
    + rewrite Ev. ring.
Qed.

(** The value [parseFloat] reads back from [x.toFixed(f)]: the sign of
    [x] times [|x|] rounded half up to [f] digits. *)
Lemma jsToFixed_parse_value (x : Q) (f : nat) :
  exists v, parseFloat (jsToFixed x f) = Some v /\
    v == (if qltb x 0 then - 1 else 1) *
         (inject_Z (Qfloor (Qabs x * inject_Z (10 ^ Z.of_nat f) + (1 # 2))) / inject_Z (10 ^ Z.of_nat f)).
Proof.
  set (P := inject_Z (10 ^ Z.of_nat f)).
  assert (Ha : (if qltb x 0 then - x else x) == Qabs x).
  { destruct (qltb_spec x 0); [rewrite Qabs_neg | rewrite Qabs_pos]; try reflexivity; lra. }
  assert (Hn : (0 <= Qfloor ((if qltb x 0 then - x else x) * P + (1 # 2)))%Z).
  { apply rounded_nonneg; [rewrite Ha; apply Qabs_nonneg | apply Qlt_le_weak, pow10_pos]. }
  unfold jsToFixed. fold P.
  replace (if qltb x 0 then "-"%string else ""%string) with (if qltb x 0 then "-" else "")%string
    by now destruct (qltb x 0).
  destruct (signed_fixed_parse (qltb x 0) _ f Hn) as (v & Hv & Ev).
  exists v. split; [exact Hv|]. rewrite Ev.
  rewrite (Qfloor_comp _ _ (Qplus_comp _ _ (Qmult_comp _ _ Ha _ _ (Qeq_refl P)) _ _ (Qeq_refl _))).
  reflexivity.
Qed.

(** An integral [q] is its own integer part. *)
Lemma isIntegral_floor (q : Q) : isIntegral q = true -> inject_Z (Qfloor q) == q.
Proof.
  destruct q as [n d]. unfold isIntegral. cbn [Qnum Qden]. intros H. apply Z.eqb_eq in H.
  unfold Qfloor, Qeq. cbn. pose proof (Z.div_mod n (Z.pos d) ltac:(lia)) as E.
  rewrite H, Z.add_0_r in E. rewrite Z.mul_1_r, Z.mul_comm. exact (eq_sym E).
Qed.


(** ** Theorems *)

(** For every number [x] and digit
    count [f], [parseFloat(x.toFixed(f))] is a number (never [NaN]): [x]
    rounded half away from zero to [f] decimals, within half a unit of
    the last digit of [x]. *)
Theorem toFixed_parseFloat_roundtrip (x : Q) (f : nat) :
  exists v, parseFloat (jsToFixed x f) = Some v /\
    v == (if qltb x 0 then - 1 else 1) *
         (inject_Z (Qfloor (Qabs x * inject_Z (10 ^ Z.of_nat f) + (1 # 2))) / inject_Z (10 ^ Z.of_nat f)) /\
    Qabs (v - x) <= (1 # 2) / inject_Z (10 ^ Z.of_nat f).
Proof.
  destruct (jsToFixed_parse_value x f) as (v & Hv & Ev). exists v. split; [exact Hv|]. split; [exact Ev|].
  pose proof (rounded_error (Qabs x) _ (pow10_pos f)) as R.
  set (q := inject_Z (Qfloor (Qabs x * inject_Z (10 ^ Z.of_nat f) + (1 # 2))) / inject_Z (10 ^ Z.of_nat f)) in *.
  destruct (qltb_spec x 0) as [Hx|Hx].
  - assert (Hq : v - x == - (q - Qabs x)) by (rewrite Ev, (Qabs_neg x) by lra; ring).
    rewrite Hq, Qabs_opp. exact R.
  - assert (Hq : v - x == q - Qabs x) by (rewrite Ev, (Qabs_pos x) by lra; ring).
    rewrite Hq. exact R.
Qed.

(** Whenever [String(x)] is
    modelled (a decimal with at most 15 significant digits between
    [1e-6] and [1e21], or zero), [parseFloat] reads the text back as [x]. *)
Theorem jsNumberToString_roundtrip (x : Q) (s : string) :
  jsNumberToString x = Some s -> exists v, parseFloat s = Some v /\ v == x.
Proof.
  unfold jsNumberToString. destruct (Qeq_bool x 0) eqn:E0.
  - intros H. injection H as <-. apply Qeq_bool_eq in E0. eexists; split; [reflexivity|].
    rewrite E0. reflexivity.
  - destruct (List.find _ _) as [d|] eqn:F; [|discriminate].
    apply List.find_some in F as [_ Hint]. apply isIntegral_floor in Hint.
    destruct (_ && _ && _); [|discriminate]. intros H. injection H as <-.
    pose proof (pow10_pos d) as HP.
    assert (Hm : (0 <= Qfloor (Qabs x * inject_Z (10 ^ Z.of_nat d)))%Z).
    { change 0%Z with (Qfloor 0). apply Qfloor_resp_le.
      apply Qmult_le_0_compat; [apply Qabs_nonneg | lra]. }
    destruct (signed_fixed_parse (qltb x 0) _ d Hm) as (v & Hv & Ev).
    exists v. split; [exact Hv|]. rewrite Ev, Hint.
    destruct (qltb_spec x 0); [rewrite Qabs_neg | rewrite Qabs_pos]; try lra; field; lra.
Qed.

