(* ===== verification/Types.v ===== *)
(** * Types: the data of [src/types.ts]

    [MarketData] is the normalised market record, [ScoringResult] what the
    scoring engine returns, [AnalysisResult] what the narrative generator
    returns.  The string unions of the source ([Language], the tier of a
    [ScoringResult]) are inductive types with decidable equality.  A
    [number] field is a rational [Q] (see the header of [Prelude]); the
    score, an integer after [Math.round], is a [Z]. *)

From Stdlib Require Import QArith ZArith String List.
From Stdlib Require Import EquivDec.
From S2P Require Import Prelude.

(** [type Language = 'en' | 'ko'] *)
Inductive Language : Type := en | ko.

(** [ScoringResult['tier']]: ['Strong Buy' | 'Buy' | 'Hold' | 'Avoid'] *)
Inductive Tier : Type := StrongBuy | Buy | Hold | Avoid.

Definition language_eq_dec (x y : Language) : {x = y} + {x <> y}.
Proof. decide equality. Defined.

Definition tier_eq_dec (x y : Tier) : {x = y} + {x <> y}.
Proof. decide equality. Defined.

#[export] Instance language_eqdec : EqDec Language eq := language_eq_dec.
#[export] Instance tier_eqdec : EqDec Tier eq := tier_eq_dec.

(** [item.scoring.tier === filterTier] on two tiers. *)
Definition tier_eqb (x y : Tier) : bool := if tier_eq_dec x y then true else false.

Lemma tier_eqb_spec (x y : Tier) : reflect (x = y) (tier_eqb x y).
Proof. unfold tier_eqb. destruct (tier_eq_dec x y); constructor; assumption. Qed.

(** [interface MarketData] *)
Record MarketData : Type := mkMarketData {
  id : string;
  name : string;
  protocol : string;
  symbol : string;
  expiry : JsDate;
  impliedAPY : Q;
  underlyingAPY : Q;
  historicalUnderlyingAPY : list Q;
  imageUrl : string;
  marketUrl : string;
  leverage : option Q   (** [None] is [NaN] *)
}.

(** [ScoringResult['breakdown']] *)
Record Breakdown : Type := mkBreakdown {
  spreadFactor : Q;
  maturityFactor : Q;
  trendFactor : Q
}.

(** [interface ScoringResult] *)
Record ScoringResult : Type := mkScoringResult {
  score : Z;
  tier : Tier;
  color : string;
  breakdown : Breakdown;
  analysis : string
}.

(** [interface AnalysisResult] *)
Record AnalysisResult : Type := mkAnalysisResult {
  description : string;
  aiVerdict : string
}.

