(* ===== verification/Engine.v ===== *)
(** * Engine: tier thresholds and the scoring-engine interface

    The tier and the colour tag of a score ([src/services/scoringLogic.ts],
    the block under [// Determine Tier]) and [ScoringEngine], the contract
    the collection processor of [App.tsx] relies on: a function from a
    market, a language and the current time to a [ScoringResult] whose
    tier is the tier of its score, whose score lies in [0,100], and whose
    score and tier do not depend on the language.  [Scoring] implements
    it with [calculateInvestmentScore]; [Collection] is proved against it,
    in the style of a record of operations with its laws. *)

From Stdlib Require Import ZArith String Lia.
From S2P Require Import Prelude Types.

Local Open Scope Z_scope.

(** [let tier = 'Avoid'; let color = ...; if (score >= 80) {...} else if
    (score >= 60) {...} else if (score >= 40) {...}] *)
Definition determineTier (score : Z) : Tier * string :=
  if 80 <=? score then (StrongBuy, "text-emerald-400 border-emerald-400 bg-emerald-400/10"%string)
  else if 60 <=? score then (Buy, "text-blue-400 border-blue-400 bg-blue-400/10"%string)
  else if 40 <=? score then (Hold, "text-yellow-400 border-yellow-400 bg-yellow-400/10"%string)
  else (Avoid, "text-red-500 border-red-500 bg-red-500/10"%string).

(** The tier of a score. *)
Definition tierOf (score : Z) : Tier := fst (determineTier score).

(** The score range of each tier, as the table of the specification
    states it. *)
Definition inTierRange (t : Tier) (s : Z) : Prop :=
  match t with
  | StrongBuy => 80 <= s
  | Buy => 60 <= s < 80
  | Hold => 40 <= s < 60
  | Avoid => s < 40
  end.

(** The order of the tiers, from [Avoid] to [StrongBuy]. *)
Definition tierRank (t : Tier) : Z :=
  match t with
  | StrongBuy => 3
  | Buy => 2
  | Hold => 1
  | Avoid => 0
  end.

(** What the scoring engine promises its clients. *)
Class ScoringEngine : Type := {
  scoreMarket : MarketData -> Language -> Z -> ScoringResult;
  scoreMarket_tier : forall m l now,
    tier (scoreMarket m l now) = tierOf (score (scoreMarket m l now));
  scoreMarket_bounds : forall m l now,
    0 <= score (scoreMarket m l now) <= 100;
  scoreMarket_locale : forall m l l' now,
    score (scoreMarket m l now) = score (scoreMarket m l' now)
}.

(** ** Lemmas *)

Lemma tierOf_inTierRange (s : Z) : inTierRange (tierOf s) s.
Proof. unfold tierOf, determineTier. js_cases; cbn; lia. Qed.

Lemma inTierRange_unique (t t' : Tier) (s : Z) :
  inTierRange t s -> inTierRange t' s -> t = t'.
Proof. destruct t, t'; cbn; intros; first [reflexivity | lia]. Qed.

(** C9 (tier table).  The tier of a score is the one whose range in the
    table [[80,100] Strong Buy, [60,79] Buy, [40,59] Hold, [0,39] Avoid]
    contains it, and no other tier's range does: the four ranges partition
    the scores with no gap or overlap. *)
Theorem tierOf_table (s : Z) (t : Tier) : tierOf s = t <-> inTierRange t s.
Proof.
  split.
  - intros <-. apply tierOf_inTierRange.
  - intros H. eapply inTierRange_unique; [apply tierOf_inTierRange | exact H].
Qed.

(** A higher score never gets a lower tier. *)
Theorem tierOf_monotone (s s' : Z) : s <= s' -> tierRank (tierOf s) <= tierRank (tierOf s').
Proof. intros H. unfold tierOf, determineTier. js_cases; cbn; lia. Qed.

Lemma tierOf_monotone_witness : (55 <= 85) /\ tierRank (tierOf 55) <= tierRank (tierOf 85).
Proof. split; [lia | apply tierOf_monotone; lia]. Defined.
