(* ===== verification/Scoring.v ===== *)
(** * Scoring: [calculateInvestmentScore] of [src/services/scoringLogic.ts]

    The function keeps two local mutable variables, [score] (starting at
    the base 50) and [breakdown] (three factors starting at 0), and every
    rule of the algorithm executes the pair of statements
    [breakdown.<factor> += d; score += d;].  The model makes this state
    explicit ([ScoreState]) and writes each block of the function as a
    transformer of it: [spreadLogic] (APY spread), [trendLogic] (first
    against last historical APY; also returns [isRising]), [maturityLogic]
    (days to maturity against 30), then [clampScore] (round and clamp),
    [determineTier] (from [Engine]) and [analysisString].  The time [now]
    is read once and passed in; the days to maturity are [NaN] ([None])
    when the expiry date is invalid.

    Theorems: the score bounds, the tier table, the breakdown invariant
    (each step keeps [score = 50 + the three factors]) and the equivalence
    with the additive formula of the specification, the ranges of each
    factor, monotonicity in the spread, the reading of only the first and
    last historical values, the independence from the language, the
    [> 3%] label of a bonus given at [>= 3], and the [ScoringEngine]
    instance. *)

From Stdlib Require Import QArith Qminmax Lqa ZArith Lia List String.
From S2P Require Import Prelude Types Translations Engine.
Import ListNotations.

Local Open Scope Q_scope.

(** ** The model *)

(** The local variables [score] and [breakdown] of the function body. *)
Record ScoreState : Type := mkScoreState {
  acc : Q;
  bd : Breakdown
}.

(** The three fields of [breakdown]. *)
Inductive Factor : Type := SpreadF | MaturityF | TrendF.

(** [breakdown.<k> += d; score += d;] (and [-=] for a negative [d]). *)
Definition credit (k : Factor) (d : Q) (st : ScoreState) : ScoreState :=
  let b := bd st in
  {| acc := acc st + d;
     bd := match k with
           | SpreadF => mkBreakdown (spreadFactor b + d) (maturityFactor b) (trendFactor b)
           | MaturityF => mkBreakdown (spreadFactor b) (maturityFactor b + d) (trendFactor b)
           | TrendF => mkBreakdown (spreadFactor b) (maturityFactor b) (trendFactor b + d)
           end |}.

(** [let score = 50; const breakdown = { spreadFactor: 0, maturityFactor: 0, trendFactor: 0 };] *)
Definition initialState : ScoreState := {| acc := 50; bd := mkBreakdown 0 0 0 |}.

(** [// 1. APY Spread Logic] *)
Definition spreadLogic (apyDiff : Q) (st : ScoreState) : ScoreState :=
  if (apyDiff >? 0)%yt then
    let spreadBonus := Qmin (apyDiff * 4) 30 in
    let st := credit SpreadF spreadBonus st in
    if (apyDiff >=? 3)%yt then credit SpreadF 20 st else st
  else
    let spreadPenalty := Qmax (apyDiff * 4) (-40) in
    credit SpreadF spreadPenalty st.

(** [// 2. Trend Logic]; the boolean is [isRising]. *)
Definition trendLogic (history : list Q) (st : ScoreState) : ScoreState * bool :=
  if (2 <=? List.length history)%nat then
    let start := nth 0 history 0 in
    let end_ := nth (List.length history - 1) history 0 in
    if (end_ >? start)%yt then (credit TrendF 20 st, true)
    else if (end_ <? start)%yt then (credit TrendF (-10) st, false)
    else (st, false)
  else (st, false).

(** [Math.ceil((market.expiry.getTime() - now.getTime()) / (1000 * 60 * 60 * 24))]. *)
Definition daysToMaturityOf (expiry : JsDate) (now : Z) : option Z :=
  match getTime expiry with
  | Some t => Some (jsCeilDiv (t - now) MS_PER_DAY)
  | None => None
  end.

(** [daysToMaturity < bound]: false when [daysToMaturity] is [NaN]. *)
Definition daysBelow (daysToMaturity : option Z) (bound : Z) : bool :=
  match daysToMaturity with
  | Some d => (d <? bound)%Z
  | None => false
  end.

(** [// 3. Maturity Logic] *)
Definition maturityLogic (daysToMaturity : option Z) (st : ScoreState) : ScoreState :=
  if daysBelow daysToMaturity 30 then credit MaturityF (-35) st
  else credit MaturityF 5 st.

(** [score = Math.max(0, Math.min(100, Math.round(score)));] *)
Definition clampScore (score : Q) : Z := Z.max 0 (Z.min 100 (jsRound score)).

(** [// Generate analysis string] *)
Definition analysisString (language : Language) (apyDiff : Q) (isRising : bool)
    (daysToMaturity : option Z) : string :=
  let t := logic language in
  let trendStr := if isRising then rising t else falling t in
  let spreadNote := if (apyDiff >=? 3)%yt then spreadIdeal t else ""%string in
  (spread t ++ ": " ++ jsToFixed apyDiff 2 ++ "% " ++ spreadNote ++ ". " ++
   trend t ++ ": " ++ trendStr ++ ". " ++
   maturity t ++ ": " ++ jsNumToString daysToMaturity ++ "d.")%string.

(** [calculateInvestmentScore(market, language)], with [now] the value of
    [new Date().getTime()] read at the start of the call. *)
Definition calculateInvestmentScore (market : MarketData) (language : Language) (now : Z)
    : ScoringResult :=
  let daysToMaturity := daysToMaturityOf (expiry market) now in
  let apyDiff := underlyingAPY market - impliedAPY market in
  let st := spreadLogic apyDiff initialState in
  let '(st, isRising) := trendLogic (historicalUnderlyingAPY market) st in
  let st := maturityLogic daysToMaturity st in
  let score := clampScore (acc st) in
  let '(tier, color) := determineTier score in
  {| score := score; tier := tier; color := color; breakdown := bd st;
     analysis := analysisString language apyDiff isRising daysToMaturity |}.

(** ** The additive formula of the specification

    Section 4.1 of the specification states the score as a base of 50 plus
    three contributions, each a function of one input; the refinement
    theorem below shows that the mutation sequence of the code computes
    exactly this sum and that each [breakdown] field is its contribution. *)
Module Spec.

(** Step 1: [min(diff*4, 30)] plus [20] when [diff >= 3], for a positive
    [diff]; otherwise [max(diff*4, -40)]. *)
Definition spreadContribution (diff : Q) : Q :=
  if (diff >? 0)%yt then Qmin (diff * 4) 30 + (if (diff >=? 3)%yt then 20 else 0)
  else Qmax (diff * 4) (-40).

(** Step 2: [+20] when the last value exceeds the first, [-10] when it is
    below, [0] when they are equal or there are fewer than two values. *)
Definition trendContribution (history : list Q) : Q :=
  match history with
  | x :: _ :: _ =>
      let l := last history 0 in
      if (x <? l)%yt then 20 else if (l <? x)%yt then -10 else 0
  | _ => 0
  end.

(** Step 3: [-35] under 30 days, [+5] otherwise. *)
Definition maturityContribution (daysToMaturity : option Z) : Q :=
  if daysBelow daysToMaturity 30 then -35 else 5.

(** The score before clamping. *)
Definition preScore (market : MarketData) (now : Z) : Q :=
  50 + spreadContribution (underlyingAPY market - impliedAPY market)
     + trendContribution (historicalUnderlyingAPY market)
     + maturityContribution (daysToMaturityOf (expiry market) now).

End Spec.

(** The market with its historical series replaced. *)
Definition withHistory (market : MarketData) (history : list Q) : MarketData :=
  {| id := id market; name := name market; protocol := protocol market;
     symbol := symbol market; expiry := expiry market; impliedAPY := impliedAPY market;
     underlyingAPY := underlyingAPY market; historicalUnderlyingAPY := history;
     imageUrl := imageUrl market; marketUrl := marketUrl market; leverage := leverage market |}.

(** The market with its two APYs replaced. *)
Definition withAPYs (market : MarketData) (implied underlying : Q) : MarketData :=
  {| id := id market; name := name market; protocol := protocol market;
     symbol := symbol market; expiry := expiry market; impliedAPY := implied;
     underlyingAPY := underlying; historicalUnderlyingAPY := historicalUnderlyingAPY market;
     imageUrl := imageUrl market; marketUrl := marketUrl market; leverage := leverage market |}.

(** Two breakdowns with equal numbers in each field. *)
Definition bd_eqv (b b' : Breakdown) : Prop :=
  spreadFactor b == spreadFactor b' /\ maturityFactor b == maturityFactor b' /\
  trendFactor b == trendFactor b'.

(** Two local states with equal numbers: [Qeq] field by field. *)
Definition state_eqv (st st' : ScoreState) : Prop :=
  acc st == acc st' /\ bd_eqv (bd st) (bd st').

(** The invariant of the function's local state: the score is the base
    plus the three factors of the breakdown. *)
Definition balanced (st : ScoreState) : Prop :=
  acc st == 50 + spreadFactor (bd st) + maturityFactor (bd st) + trendFactor (bd st).

(** ** Lemmas on the steps *)

(** [calculateInvestmentScore] field by field. *)
Lemma calculateInvestmentScore_unfold (m : MarketData) (l : Language) (now : Z) :
  let days := daysToMaturityOf (expiry m) now in
  let d := underlyingAPY m - impliedAPY m in
  let p := trendLogic (historicalUnderlyingAPY m) (spreadLogic d initialState) in
  let st := maturityLogic days (fst p) in
  calculateInvestmentScore m l now =
  {| score := clampScore (acc st); tier := tierOf (clampScore (acc st));
     color := snd (determineTier (clampScore (acc st))); breakdown := bd st;
     analysis := analysisString l d (snd p) days |}.
Proof.
  cbv zeta. unfold calculateInvestmentScore, tierOf.
  destruct (trendLogic _ _) as [st' r]. cbn [fst snd].
  destruct (determineTier _) as [t c]. reflexivity.
Qed.

(** The result depends on the market only through its two APYs, its
    series and its day count. *)
Lemma calculateInvestmentScore_inputs (m m' : MarketData) (l : Language) (now now' : Z) :
  underlyingAPY m = underlyingAPY m' -> impliedAPY m = impliedAPY m' ->
  historicalUnderlyingAPY m = historicalUnderlyingAPY m' ->
  daysToMaturityOf (expiry m) now = daysToMaturityOf (expiry m') now' ->
  calculateInvestmentScore m l now = calculateInvestmentScore m' l now'.
Proof. intros Hu Hi Hh Hd. rewrite !calculateInvestmentScore_unfold. now rewrite Hu, Hi, Hh, Hd. Qed.

Lemma credit_balanced (k : Factor) (d : Q) (st : ScoreState) :
  balanced st -> balanced (credit k d st).
Proof. unfold balanced, credit. destruct k; cbn; lra. Qed.

#[export] Hint Resolve credit_balanced : yt.

Lemma spreadLogic_balanced (d : Q) (st : ScoreState) : balanced st -> balanced (spreadLogic d st).
Proof. intros H. unfold spreadLogic. js_cases; auto with yt. Qed.

Lemma trendLogic_balanced (h : list Q) (st : ScoreState) :
  balanced st -> balanced (fst (trendLogic h st)).
Proof. intros H. unfold trendLogic. destruct (2 <=? _)%nat; js_cases; cbn; auto with yt. Qed.

Lemma maturityLogic_balanced (days : option Z) (st : ScoreState) :
  balanced st -> balanced (maturityLogic days st).
Proof. intros H. unfold maturityLogic. destruct (daysBelow _ _); auto with yt. Qed.

#[export] Hint Resolve spreadLogic_balanced trendLogic_balanced maturityLogic_balanced : yt.

(** ** The setoid of local states *)

Ltac state_eqv_solve :=
  unfold state_eqv, bd_eqv, credit in *; cbn in *; repeat split; lra.

#[export] Instance state_eqv_Equivalence : Equivalence state_eqv.
Proof. split; red; intros; state_eqv_solve. Qed.

#[export] Instance credit_Proper (k : Factor) : Proper (Qeq ==> state_eqv ==> state_eqv) (credit k).
Proof. intros d d' Hd st st' Hst. destruct k; state_eqv_solve. Qed.

#[export] Instance acc_Proper : Proper (state_eqv ==> Qeq) acc.
Proof. intros st st' [H _]. exact H. Qed.

#[export] Instance clampScore_Proper : Proper (Qeq ==> eq) clampScore.
Proof. intros x y H. unfold clampScore. now rewrite H. Qed.

Lemma credit_credit (k : Factor) (a b : Q) (st : ScoreState) :
  state_eqv (credit k a (credit k b st)) (credit k (b + a) st).
Proof. destruct k; state_eqv_solve. Qed.

Lemma credit_0 (k : Factor) (st : ScoreState) : state_eqv st (credit k 0 st).
Proof. destruct k; state_eqv_solve. Qed.

(** Each block of the function credits its factor with the contribution
    the specification gives it. *)
Lemma spreadLogic_credit (d : Q) (st : ScoreState) :
  state_eqv (spreadLogic d st) (credit SpreadF (Spec.spreadContribution d) st).
Proof.
  unfold spreadLogic, Spec.spreadContribution. js_cases.
  - rewrite credit_credit. reflexivity.
  - rewrite <- Qplus_0_r at 1. reflexivity.
  - reflexivity.
Qed.

Lemma trendLogic_credit (h : list Q) (st : ScoreState) :
  state_eqv (fst (trendLogic h st)) (credit TrendF (Spec.trendContribution h) st).
Proof.
  unfold trendLogic, Spec.trendContribution.
  destruct h as [|x [|y r]]; [apply credit_0 | apply credit_0 |].
  cbv zeta. rewrite (nth_last_cons 0 x (y :: r)).
  change (nth 0 (x :: y :: r) 0) with x.
  change ((2 <=? List.length (x :: y :: r))%nat) with true. cbv iota.
  js_cases; cbn [fst]; try reflexivity; try apply credit_0; exfalso; lra.
Qed.

Lemma maturityLogic_credit (days : option Z) (st : ScoreState) :
  maturityLogic days st = credit MaturityF (Spec.maturityContribution days) st.
Proof. unfold maturityLogic, Spec.maturityContribution. now destruct (daysBelow _ _). Qed.

(** The local state at the end of the function is the initial one
    credited with the three contributions of the specification. *)
Lemma final_state_eqv (m : MarketData) (now : Z) :
  state_eqv
    (maturityLogic (daysToMaturityOf (expiry m) now)
       (fst (trendLogic (historicalUnderlyingAPY m)
               (spreadLogic (underlyingAPY m - impliedAPY m) initialState))))
    (credit MaturityF (Spec.maturityContribution (daysToMaturityOf (expiry m) now))
       (credit TrendF (Spec.trendContribution (historicalUnderlyingAPY m))
          (credit SpreadF (Spec.spreadContribution (underlyingAPY m - impliedAPY m))
             initialState))).
Proof.
  rewrite maturityLogic_credit, trendLogic_credit, spreadLogic_credit. reflexivity.
Qed.

Lemma spreadContribution_bounds (d : Q) : -40 <= Spec.spreadContribution d <= 50.
Proof.
  unfold Spec.spreadContribution.
  destruct (Q.min_spec_le (d * 4) 30) as [[? ?]|[? ?]];
  destruct (Q.max_spec_le (d * 4) (-40)) as [[? ?]|[? ?]];
  js_cases; lra.
Qed.

Lemma spreadContribution_mono (d d' : Q) :
  d <= d' -> Spec.spreadContribution d <= Spec.spreadContribution d'.
Proof.
  intros H. unfold Spec.spreadContribution.
  destruct (Q.min_spec_le (d * 4) 30) as [[? ?]|[? ?]];
  destruct (Q.max_spec_le (d * 4) (-40)) as [[? ?]|[? ?]];
  destruct (Q.min_spec_le (d' * 4) 30) as [[? ?]|[? ?]];
  destruct (Q.max_spec_le (d' * 4) (-40)) as [[? ?]|[? ?]];
  js_cases; lra.
Qed.

Lemma clampScore_mono (x y : Q) : x <= y -> (clampScore x <= clampScore y)%Z.
Proof. intros H. unfold clampScore. pose proof (jsRound_mono x y H). lia. Qed.

#[export] Hint Resolve spreadContribution_bounds spreadContribution_mono clampScore_mono : yt.

(** The score and the three factors of a result, by the formula of the
    specification. *)
Lemma result_factors (m : MarketData) (l : Language) (now : Z) :
  let r := calculateInvestmentScore m l now in
  score r = clampScore (Spec.preScore m now) /\
  spreadFactor (breakdown r) == Spec.spreadContribution (underlyingAPY m - impliedAPY m) /\
  trendFactor (breakdown r) == Spec.trendContribution (historicalUnderlyingAPY m) /\
  maturityFactor (breakdown r) == Spec.maturityContribution (daysToMaturityOf (expiry m) now).
Proof.
  cbv zeta. rewrite calculateInvestmentScore_unfold. cbv zeta. cbn [score breakdown].
  pose proof (final_state_eqv m now) as E. unfold Spec.preScore.
  set (st := maturityLogic _ _) in *.
  destruct E as [Ea [Es [Em Et]]]. unfold credit in *. cbn in Ea, Es, Em, Et.
  repeat split; try lra. apply clampScore_Proper. lra.
Qed.

(** ** Theorems *)

(** C3 (refinement of the additive formula).  The sequence of mutations
    of [calculateInvestmentScore] computes the formula of the
    specification: the score is [50 + spread + trend + maturity]
    contributions, rounded and clamped, the tier is the tier of that score,
    and each field of [breakdown] is its step's contribution, on every
    branch of the three steps. *)
Theorem calculateInvestmentScore_refines_spec (m : MarketData) (l : Language) (now : Z) :
  let r := calculateInvestmentScore m l now in
  score r = clampScore (Spec.preScore m now) /\
  tier r = tierOf (clampScore (Spec.preScore m now)) /\
  spreadFactor (breakdown r) == Spec.spreadContribution (underlyingAPY m - impliedAPY m) /\
  trendFactor (breakdown r) == Spec.trendContribution (historicalUnderlyingAPY m) /\
  maturityFactor (breakdown r) == Spec.maturityContribution (daysToMaturityOf (expiry m) now).
Proof.
  cbv zeta. destruct (result_factors m l now) as [Hs Hf].
  rewrite <- Hs. split; [reflexivity | split; [|exact Hf]].
  rewrite calculateInvestmentScore_unfold. reflexivity.
Qed.

(** C1 (score bounds).  For every market, language and time, the score
    is an integer in [[0, 100]]. *)
Theorem score_bounds (m : MarketData) (l : Language) (now : Z) :
  (0 <= score (calculateInvestmentScore m l now) <= 100)%Z.
Proof.
  rewrite calculateInvestmentScore_unfold. cbn [score]. unfold clampScore.
  apply clamp_bounds. lia.
Qed.

(** C2 (tier of the result).  The tier of a result is the tier of its
    score in the table [80/60/40], and its colour tag is the one fixed for
    that tier. *)
Theorem tier_matches_score (m : MarketData) (l : Language) (now : Z) :
  let r := calculateInvestmentScore m l now in
  inTierRange (tier r) (score r) /\ determineTier (score r) = (tier r, color r).
Proof.
  cbv zeta. rewrite calculateInvestmentScore_unfold. cbn [score tier color].
  split; [apply tierOf_inTierRange |].
  unfold tierOf. now destruct (determineTier _).
Qed.

(** C4 (breakdown invariant).  Every mutation step keeps the local score
    equal to the base 50 plus the three breakdown factors, so the returned
    score is the rounded, clamped sum of the base and the returned
    breakdown. *)
Theorem breakdown_sums_to_score (m : MarketData) (l : Language) (now : Z) :
  let r := calculateInvestmentScore m l now in
  score r = clampScore (50 + spreadFactor (breakdown r) + maturityFactor (breakdown r)
                           + trendFactor (breakdown r)).
Proof.
  cbv zeta. rewrite calculateInvestmentScore_unfold. cbv zeta. cbn [score breakdown].
  apply clampScore_Proper.
  apply maturityLogic_balanced, trendLogic_balanced, spreadLogic_balanced.
  unfold balanced. cbn. lra.
Qed.

(** The spread factor of every result lies in
    [[-40, 50]]: at most [+30] from the linear bonus and [+20] from the
    ideal-spread bonus, at least the [-40] floor. *)
Theorem spreadFactor_bounds (m : MarketData) (l : Language) (now : Z) :
  -40 <= spreadFactor (breakdown (calculateInvestmentScore m l now)) <= 50.
Proof.
  destruct (result_factors m l now) as [_ [Hs _]].
  pose proof (spreadContribution_bounds (underlyingAPY m - impliedAPY m)). lra.
Qed.

(** C10 (monotonicity in the spread).  With every other field of the
    market fixed, raising [underlyingAPY - impliedAPY] never lowers the
    score. *)
Theorem score_monotone_in_spread (m : MarketData) (l : Language) (now : Z) (implied underlying : Q) :
  underlyingAPY m - impliedAPY m <= underlying - implied ->
  (score (calculateInvestmentScore m l now)
   <= score (calculateInvestmentScore (withAPYs m implied underlying) l now))%Z.
Proof.
  intros H.
  rewrite (proj1 (result_factors m l now)).
  rewrite (proj1 (result_factors (withAPYs m implied underlying) l now)).
  apply clampScore_mono. unfold Spec.preScore. cbn.
  pose proof (spreadContribution_mono _ _ H). lra.
Qed.

Lemma spreadLogic_trendFactor (d : Q) (st : ScoreState) :
  trendFactor (bd (spreadLogic d st)) = trendFactor (bd st).
Proof. unfold spreadLogic. js_cases; reflexivity. Qed.

Lemma maturityLogic_trendFactor (days : option Z) (st : ScoreState) :
  trendFactor (bd (maturityLogic days st)) = trendFactor (bd st).
Proof. unfold maturityLogic. now destruct (daysBelow _ _). Qed.

(** [isRising] is set exactly when the trend factor becomes positive. *)
Lemma trendLogic_rising (h : list Q) (st : ScoreState) :
  trendFactor (bd st) == 0 ->
  snd (trendLogic h st) = qltb 0 (trendFactor (bd (fst (trendLogic h st)))).
Proof.
  intros H0. unfold trendLogic.
  destruct (2 <=? _)%nat; js_cases; cbn [fst snd]; js_cases; try reflexivity;
  exfalso; unfold credit in *; cbn [fst bd trendFactor] in *; lra.
Qed.

(** Two series of at least two values with the same first and last
    values give the same trend. *)
Lemma trendLogic_ends (h h' : list Q) (st : ScoreState) :
  (2 <= List.length h)%nat -> (2 <= List.length h')%nat ->
  nth 0 h 0 = nth 0 h' 0 -> last h 0 = last h' 0 ->
  trendLogic h st = trendLogic h' st.
Proof.
  intros Hl Hl' Hf Hlast. unfold trendLogic.
  rewrite (proj2 (Nat.leb_le _ _) Hl), (proj2 (Nat.leb_le _ _) Hl').
  destruct h as [|x h]; [cbn in Hl; lia|]. destruct h' as [|x' h']; [cbn in Hl'; lia|].
  rewrite !nth_last_cons, Hf, Hlast. reflexivity.
Qed.

Lemma daysBelow_30_iff (e : JsDate) (now : Z) :
  daysBelow (daysToMaturityOf e now) 30 = true <->
  exists t, e = ValidDate t /\ (t - now <= 29 * MS_PER_DAY)%Z.
Proof.
  destruct e as [t|]; cbn.
  - rewrite Z.ltb_lt, jsCeilDiv_lt_iff by (unfold MS_PER_DAY; lia). split.
    + intros H. exists t. split; [reflexivity | lia].
    + intros [t' [[= <-] H]]. lia.
  - split; [discriminate | intros [t [H _]]; discriminate].
Qed.

(** The analysis string of a result, with its trend word chosen by the
    sign of the trend factor. *)
Lemma result_analysis (m : MarketData) (l : Language) (now : Z) :
  let r := calculateInvestmentScore m l now in
  analysis r = analysisString l (underlyingAPY m - impliedAPY m)
                 (qltb 0 (trendFactor (breakdown r))) (daysToMaturityOf (expiry m) now).
Proof.
  cbv zeta. rewrite calculateInvestmentScore_unfold. cbv zeta. cbn [analysis breakdown].
  rewrite maturityLogic_trendFactor, <- trendLogic_rising; [reflexivity|].
  rewrite spreadLogic_trendFactor. reflexivity.
Qed.

(** The analysis string calls the trend rising exactly
    when the trend factor of the breakdown is positive (the test the market
    card uses for its "Rising Trend" badge), and that happens exactly when
    the series has two or more values and the last exceeds the first. *)
Theorem analysis_rising_iff_trendFactor_pos (m : MarketData) (l : Language) (now : Z) :
  let r := calculateInvestmentScore m l now in
  analysis r = analysisString l (underlyingAPY m - impliedAPY m)
                 (qltb 0 (trendFactor (breakdown r))) (daysToMaturityOf (expiry m) now) /\
  (0 < trendFactor (breakdown r) <->
   (2 <= List.length (historicalUnderlyingAPY m))%nat /\
   nth 0 (historicalUnderlyingAPY m) 0 < last (historicalUnderlyingAPY m) 0).
Proof.
  cbv zeta. split; [apply result_analysis|].
  destruct (result_factors m l now) as [_ [_ [Ht _]]]. rewrite Ht.
  unfold Spec.trendContribution.
  destruct (historicalUnderlyingAPY m) as [|x [|y r]]; cbn [List.length nth];
    [split; [intros H; discriminate H | intros [H _]; lia] .. |].
  js_cases; split; intros Hp; try lra; try (split; [lia | lra]); destruct Hp; lra.
Qed.

(** C18 (flat trend).  When the first and last historical values are equal
    the trend adds nothing to the score, yet the analysis calls the trend
    falling (the asymmetry noted as an open question in the
    specification). *)
Theorem flat_trend_reads_falling (m : MarketData) (l : Language) (now : Z) :
  (2 <= List.length (historicalUnderlyingAPY m))%nat ->
  nth 0 (historicalUnderlyingAPY m) 0 == last (historicalUnderlyingAPY m) 0 ->
  let r := calculateInvestmentScore m l now in
  trendFactor (breakdown r) == 0 /\
  analysis r = analysisString l (underlyingAPY m - impliedAPY m) false
                 (daysToMaturityOf (expiry m) now).
Proof.
  intros Hlen Heq. cbv zeta.
  destruct (result_factors m l now) as [_ [_ [Ht _]]].
  assert (H0 : trendFactor (breakdown (calculateInvestmentScore m l now)) == 0).
  { rewrite Ht. unfold Spec.trendContribution.
    destruct (historicalUnderlyingAPY m) as [|x [|y r]]; [reflexivity | reflexivity |].
    cbn [nth] in Heq. js_cases; try reflexivity; exfalso; lra. }
  split; [exact H0|]. rewrite result_analysis.
  destruct (qltb_spec 0 (trendFactor (breakdown (calculateInvestmentScore m l now))));
    [exfalso; lra | reflexivity].
Qed.

Lemma flat_trend_reads_falling_witness :
  let m := mkMarketData "5" "Puffer pufETH" "Puffer" "pufETH" (ValidDate 0) 10 (145 # 10)
             [145 # 10; 14; 145 # 10] "" "" (Some 18) in
  ((2 <= List.length (historicalUnderlyingAPY m))%nat /\
   nth 0 (historicalUnderlyingAPY m) 0 == last (historicalUnderlyingAPY m) 0) /\
  (trendFactor (breakdown (calculateInvestmentScore m en 0)) == 0 /\
   analysis (calculateInvestmentScore m en 0) =
   analysisString en (underlyingAPY m - impliedAPY m) false (daysToMaturityOf (expiry m) 0)).
Proof.
  cbv zeta. split; [split; [cbn; lia | reflexivity] |].
  apply flat_trend_reads_falling; [cbn; lia | reflexivity].
Defined.

(** The engine reads only the first
    and the last value of a historical series of two or more values:
    replacing the series by another with the same ends leaves the whole
    result unchanged. *)
Theorem trend_reads_only_ends (m : MarketData) (h : list Q) (l : Language) (now : Z) :
  (2 <= List.length h)%nat -> (2 <= List.length (historicalUnderlyingAPY m))%nat ->
  nth 0 h 0 = nth 0 (historicalUnderlyingAPY m) 0 ->
  last h 0 = last (historicalUnderlyingAPY m) 0 ->
  calculateInvestmentScore (withHistory m h) l now = calculateInvestmentScore m l now.
Proof.
  intros Hl Hl' Hf Hlast. rewrite !calculateInvestmentScore_unfold. cbn [withHistory
    historicalUnderlyingAPY expiry underlyingAPY impliedAPY].
  now rewrite (trendLogic_ends h (historicalUnderlyingAPY m)).
Qed.

Lemma trend_reads_only_ends_witness :
  let m := mkMarketData "1" "Ether.fi eETH" "Ether.fi" "eETH" (ValidDate 0) (125 # 10) (182 # 10)
             [17; 172 # 10; 175 # 10; 182 # 10] "" "" (Some 15) in
  let h := [17; 182 # 10] in
  ((2 <= List.length h)%nat /\ (2 <= List.length (historicalUnderlyingAPY m))%nat /\
   nth 0 h 0 = nth 0 (historicalUnderlyingAPY m) 0 /\ last h 0 = last (historicalUnderlyingAPY m) 0) /\
  calculateInvestmentScore (withHistory m h) ko 7 = calculateInvestmentScore m ko 7.
Proof.
  cbv zeta. split; [repeat split; cbn; first [lia | reflexivity] |].
  apply trend_reads_only_ends; cbn; first [lia | reflexivity].
Defined.

(** The language changes only the analysis
    string: score, tier, colour tag and breakdown are the same in every
    language. *)
Theorem numbers_locale_independent (m : MarketData) (l l' : Language) (now : Z) :
  let r := calculateInvestmentScore m l now in
  let r' := calculateInvestmentScore m l' now in
  score r = score r' /\ tier r = tier r' /\ color r = color r' /\ breakdown r = breakdown r'.
Proof. cbv zeta. rewrite !calculateInvestmentScore_unfold. repeat split. Qed.

(** C11 (maturity penalty).  The maturity factor is [-35] exactly when
    the expiry is a valid date at most 29 days (in milliseconds) after
    [now], which includes every expired market; otherwise it is [+5]. *)
Theorem maturity_penalty_iff (m : MarketData) (l : Language) (now : Z) :
  let r := calculateInvestmentScore m l now in
  (maturityFactor (breakdown r) == -35 <->
   exists t, expiry m = ValidDate t /\ (t - now <= 29 * MS_PER_DAY)%Z) /\
  (maturityFactor (breakdown r) == -35 \/ maturityFactor (breakdown r) == 5).
Proof.
  cbv zeta. destruct (result_factors m l now) as [_ [_ [_ Hm]]].
  rewrite Hm. unfold Spec.maturityContribution. rewrite <- daysBelow_30_iff.
  destruct (daysBelow _ _); split; try split; try (left; reflexivity); try (right; reflexivity);
    try reflexivity; intros H; try discriminate; compute in H; discriminate.
Qed.

(** C19 (invalid expiry).  A market whose expiry is the invalid date
    ([getTime()] is [NaN]) is not penalised: [NaN < 30] is false, so it
    receives the healthy-duration bonus [+5], and its analysis ends with
    ["NaNd."]. *)
Theorem invalid_expiry_gets_bonus (m : MarketData) (l : Language) (now : Z) :
  expiry m = InvalidDate ->
  let r := calculateInvestmentScore m l now in
  maturityFactor (breakdown r) == 5 /\ exists pre, analysis r = (pre ++ "NaNd.")%string.
Proof.
  intros He. cbv zeta. split.
  - destruct (result_factors m l now) as [_ [_ [_ Hm]]].
    rewrite Hm, He. reflexivity.
  - rewrite calculateInvestmentScore_unfold. cbv zeta. cbn [analysis]. rewrite He.
    unfold analysisString. cbn [daysToMaturityOf getTime jsNumToString].
    eexists. rewrite <- !string_app_assoc, string_app_assoc. reflexivity.
Qed.

Lemma invalid_expiry_gets_bonus_witness :
  let m := mkMarketData "x" "" "" "" InvalidDate 25 15 [] "" "" (Some 1) in
  expiry m = InvalidDate /\
  (maturityFactor (breakdown (calculateInvestmentScore m en 0)) == 5 /\
   exists pre, analysis (calculateInvestmentScore m en 0) = (pre ++ "NaNd.")%string).
Proof. cbv zeta. split; [reflexivity | apply invalid_expiry_gets_bonus; reflexivity]. Defined.

Lemma score_monotone_in_spread_witness :
  let m := mkMarketData "3" "Renzo ezETH" "Renzo" "ezETH" (ValidDate 0) 14 (165 # 10)
             [16; 165 # 10] "" "" (Some 12) in
  underlyingAPY m - impliedAPY m <= 18 - 14 /\
  (score (calculateInvestmentScore m en 0) <= score (calculateInvestmentScore (withAPYs m 14 18) en 0))%Z.
Proof.
  cbv zeta. split; [apply Qle_bool_iff; reflexivity |].
  apply score_monotone_in_spread. apply Qle_bool_iff; reflexivity.
Defined.

(** [calculateInvestmentScore] meets the interface of the collection
    processor. *)
#[export] Instance calculateInvestmentScore_engine : ScoringEngine.
Proof.
  refine {| scoreMarket := calculateInvestmentScore |}; intros;
    rewrite ?calculateInvestmentScore_unfold; cbn [score tier].
  - reflexivity.
  - unfold clampScore. apply clamp_bounds. lia.
  - reflexivity.
Defined.

(** C22 (ideal-spread threshold).  A spread of exactly 3 already earns the
    ideal-spread bonus: the spread factor is [12 + 20 = 32] and the
    analysis carries the note "(>3% Ideal)" next to "3.00%", although the
    note and the score criteria text say "> 3%". *)
Theorem ideal_bonus_at_exact_threshold (m : MarketData) (l : Language) (now : Z) :
  underlyingAPY m - impliedAPY m == 3 ->
  let r := calculateInvestmentScore m l now in
  spreadFactor (breakdown r) == 32 /\
  exists pre post, analysis r = (pre ++ spreadIdeal (logic l) ++ post)%string.
Proof.
  intros H3. cbv zeta. split.
  - destruct (result_factors m l now) as [_ [Hs _]]. rewrite Hs.
    unfold Spec.spreadContribution.
    destruct (Q.min_spec_le ((underlyingAPY m - impliedAPY m) * 4) 30) as [[? ?]|[? ?]];
      js_cases; lra.
  - rewrite result_analysis. unfold analysisString.
    assert (E : qleb 3 (underlyingAPY m - impliedAPY m) = true).
    { destruct (qleb_spec 3 (underlyingAPY m - impliedAPY m)); [reflexivity | lra]. }
    rewrite E.
    exists (spread (logic l) ++ ": " ++ jsToFixed (underlyingAPY m - impliedAPY m) 2 ++ "% ")%string,
      (". " ++ trend (logic l) ++ ": " ++
       (if qltb 0 (trendFactor (breakdown (calculateInvestmentScore m l now)))
        then rising (logic l) else falling (logic l)) ++ ". " ++
       maturity (logic l) ++ ": " ++ jsNumToString (daysToMaturityOf (expiry m) now) ++ "d.")%string.
    rewrite !string_app_assoc. reflexivity.
Qed.

Lemma ideal_bonus_at_exact_threshold_witness :
  let m := mkMarketData "t" "" "" "" (ValidDate (60 * MS_PER_DAY)) 12 15 [15; 15] "" "" (Some 10) in
  underlyingAPY m - impliedAPY m == 3 /\
  (spreadFactor (breakdown (calculateInvestmentScore m en 0)) == 32 /\
   exists pre post, analysis (calculateInvestmentScore m en 0) = (pre ++ spreadIdeal (logic en) ++ post)%string).
Proof.
  cbv zeta. split; [reflexivity | apply ideal_bonus_at_exact_threshold; reflexivity].
Defined.
