(* ===== verification/Collection.v ===== *)
(** * Collection: the market list of [src/App.tsx]

    The [useMemo] body of [App] ([processedMarkets]) scores every market
    ([map] with [calculateInvestmentScore]), keeps the markets of the
    selected tier ([filter]) and sorts them by score with
    [Array.prototype.sort] and the comparator [b.score - a.score]
    ([scoreDesc]) or [a.score - b.score] ([scoreAsc]).

    The scoring engine is a parameter: the processor is written and proved
    in a section over an instance of [Engine.ScoringEngine], and applies to
    [calculateInvestmentScore] through the instance of [Scoring].  Each
    call of the engine reads the clock ([new Date()]) again; the model
    passes the reading of the [i]-th call as [clock i].

    [Array.prototype.sort] is stable (ECMA-262 since 2019) and, for a
    consistent comparator, its result is determined: the model is the
    stable insertion sort [sortBy], which places an element before the
    first later element that the comparator does not rank strictly before
    it.  [sorted_stable_unique] shows that a list sorted by the key whose
    equal-key subsequences are those of the input is unique, so the model
    agrees with any stable sort of the runtime. *)

From Stdlib Require Import QArith ZArith Lia List Sorted Permutation String.
From S2P Require Import Prelude Types Engine Scoring.
Import ListNotations.

Local Open Scope string_scope.
Local Open Scope Z_scope.

(** ** [Array.prototype.sort] *)

(** Insert [x] before the first element [y] with [cmp x y <= 0]. *)
Fixpoint insertBy {A : Type} (cmp : A -> A -> Z) (x : A) (l : list A) : list A :=
  match l with
  | [] => [x]
  | y :: ys => if cmp x y <=? 0 then x :: y :: ys else y :: insertBy cmp x ys
  end.

(** [array.sort(cmp)]: a stable sort by the comparator. *)
Fixpoint sortBy {A : Type} (cmp : A -> A -> Z) (l : list A) : list A :=
  match l with
  | [] => []
  | x :: xs => insertBy cmp x (sortBy cmp xs)
  end.

(** The comparator of a key: [key(a) - key(b)]. *)
Definition cmpKey {A : Type} (key : A -> Z) (a b : A) : Z := key a - key b.

(** [key(a) <= key(b)]. *)
Definition keyLe {A : Type} (key : A -> Z) (a b : A) : Prop := key a <= key b.

(** [key(a) === k]. *)
Definition sameKey {A : Type} (key : A -> Z) (k : Z) (a : A) : bool := key a =? k.

(** ** The processor *)

(** [type SortOption = 'scoreDesc' | 'scoreAsc'] *)
Inductive SortOption : Type := scoreDesc | scoreAsc.

(** [type FilterOption = 'All' | 'Strong Buy' | 'Buy' | 'Hold' | 'Avoid'] *)
Inductive FilterOption : Type := FilterAll | FilterTier (t : Tier).

(** [{ ...market, scoring }] *)
Record ScoredMarket : Type := mkScoredMarket {
  market : MarketData;
  scoring : ScoringResult
}.

Section Processor.
Context `{E : ScoringEngine}.

(** [markets.map(market => ({ ...market, scoring:
    calculateInvestmentScore(market, language) }))], the [i]-th call
    reading the time [clock i]. *)
Fixpoint scoreAllFrom (clock : nat -> Z) (i : nat) (language : Language)
    (markets : list MarketData) : list ScoredMarket :=
  match markets with
  | [] => []
  | m :: ms =>
      {| market := m; scoring := scoreMarket m language (clock i) |}
        :: scoreAllFrom clock (S i) language ms
  end.

Definition scoreAll (clock : nat -> Z) (language : Language) (markets : list MarketData)
    : list ScoredMarket :=
  scoreAllFrom clock 0 language markets.

(** [item => filterTier === 'All' ? true : item.scoring.tier === filterTier] *)
Definition keepItem (filterTier : FilterOption) (item : ScoredMarket) : bool :=
  match filterTier with
  | FilterAll => true
  | FilterTier t => tier_eqb (tier (scoring item)) t
  end.

(** The comparator passed to [sort]. *)
Definition compareScored (sortOrder : SortOption) (a b : ScoredMarket) : Z :=
  match sortOrder with
  | scoreDesc => score (scoring b) - score (scoring a)
  | scoreAsc => score (scoring a) - score (scoring b)
  end.

(** [processedMarkets]: score, filter, sort. *)
Definition processedMarkets (clock : nat -> Z) (sortOrder : SortOption)
    (filterTier : FilterOption) (language : Language) (markets : list MarketData)
    : list ScoredMarket :=
  let scored := scoreAll clock language markets in
  let filtered := filter (keepItem filterTier) scored in
  sortBy (compareScored sortOrder) filtered.

End Processor.

(** The score guide shown above the list: three boxes, [80 - 100]
    ([Strong Buy]), [60 - 79] ([Buy]) and [0 - 59] ([Avoid]). *)
Definition scoreGuide : list (Z * Z * Tier) :=
  [(80, 100, StrongBuy); (60, 79, Buy); (0, 59, Avoid)].

(** The tier the guide gives a score: the box whose range holds it. *)
Definition guideTier (s : Z) : option Tier :=
  match find (fun '(lo, hi, _) => (lo <=? s) && (s <=? hi)) scoreGuide with
  | Some (_, _, t) => Some t
  | None => None
  end.

(** The sort key of a direction: the score, negated for [scoreDesc]. *)
Definition sortKey (sortOrder : SortOption) (item : ScoredMarket) : Z :=
  match sortOrder with
  | scoreDesc => - score (scoring item)
  | scoreAsc => score (scoring item)
  end.

(** The order of the output for a direction. *)
Definition scoreOrdered (sortOrder : SortOption) (a b : ScoredMarket) : Prop :=
  match sortOrder with
  | scoreDesc => score (scoring b) <= score (scoring a)
  | scoreAsc => score (scoring a) <= score (scoring b)
  end.

(** ** The stable sort *)

Section StableSort.
Context {A : Type}.

Lemma insertBy_perm (cmp : A -> A -> Z) (x : A) (l : list A) :
  Permutation (insertBy cmp x l) (x :: l).
Proof.
  induction l as [|y ys IH]; cbn; [reflexivity|].
  destruct (cmp x y <=? 0); [reflexivity|].
  rewrite IH. apply perm_swap.
Qed.

Lemma sortBy_perm (cmp : A -> A -> Z) (l : list A) : Permutation (sortBy cmp l) l.
Proof.
  induction l as [|x xs IH]; cbn; [reflexivity|].
  rewrite insertBy_perm. now apply perm_skip.
Qed.

Lemma insertBy_ext (cmp cmp' : A -> A -> Z) (x : A) (l : list A) :
  (forall a b, cmp a b = cmp' a b) -> insertBy cmp x l = insertBy cmp' x l.
Proof. intros H. induction l as [|y ys IH]; cbn; [reflexivity|]. now rewrite H, IH. Qed.

Lemma sortBy_ext (cmp cmp' : A -> A -> Z) (l : list A) :
  (forall a b, cmp a b = cmp' a b) -> sortBy cmp l = sortBy cmp' l.
Proof.
  intros H. induction l as [|x xs IH]; cbn; [reflexivity|].
  rewrite IH. now apply insertBy_ext.
Qed.

Context (key : A -> Z).

Lemma insertBy_sorted (x : A) (l : list A) :
  Sorted (keyLe key) l -> Sorted (keyLe key) (insertBy (cmpKey key) x l).
Proof.
  unfold keyLe, cmpKey. induction 1 as [|y ys Hs IH Hd]; cbn; [repeat constructor|].
  destruct (Z.leb_spec (key x - key y) 0).
  - constructor; [constructor; assumption | constructor; lia].
  - constructor; [exact IH|].
    destruct ys as [|z zs]; cbn; [constructor; lia|].
    destruct (key x - key z <=? 0); constructor; [lia | now inversion Hd].
Qed.

Lemma sortBy_sorted (l : list A) : Sorted (keyLe key) (sortBy (cmpKey key) l).
Proof. induction l; cbn; [constructor | now apply insertBy_sorted]. Qed.

Lemma insertBy_stable (k : Z) (x : A) (l : list A) :
  filter (sameKey key k) (insertBy (cmpKey key) x l) = filter (sameKey key k) (x :: l).
Proof.
  unfold sameKey, cmpKey. induction l as [|y ys IH]; cbn; [reflexivity|].
  destruct (Z.leb_spec (key x - key y) 0); cbn; [reflexivity|].
  rewrite IH. cbn. destruct (Z.eqb_spec (key x) k), (Z.eqb_spec (key y) k); auto; lia.
Qed.

Lemma sortBy_stable (k : Z) (l : list A) :
  filter (sameKey key k) (sortBy (cmpKey key) l) = filter (sameKey key k) l.
Proof.
  induction l as [|x xs IH]; cbn; [reflexivity|].
  rewrite insertBy_stable. cbn. now rewrite IH.
Qed.

Lemma sameKey_refl (z : A) : sameKey key (key z) z = true.
Proof. apply Z.eqb_refl. Qed.

Lemma in_sameKey_filter (z : A) (l : list A) :
  In z l -> In z (filter (sameKey key (key z)) l).
Proof. intros H. apply filter_In. split; [exact H | apply sameKey_refl]. Qed.

(** Two lists sorted by the key with the same subsequence of each key
    are equal. *)
Lemma sorted_stable_unique (l1 l2 : list A) :
  Sorted (keyLe key) l1 -> Sorted (keyLe key) l2 ->
  (forall k, filter (sameKey key k) l1 = filter (sameKey key k) l2) -> l1 = l2.
Proof.
  revert l2. induction l1 as [|x r1 IH]; intros l2 S1 S2 F.
  - destruct l2 as [|y r2]; [reflexivity|]. exfalso.
    specialize (F (key y)). cbn [filter] in F. rewrite sameKey_refl in F. discriminate.
  - destruct l2 as [|y r2].
    { exfalso. specialize (F (key x)). cbn [filter] in F. rewrite sameKey_refl in F.
      discriminate. }
    assert (T : Relations_1.Transitive (keyLe key)) by (unfold keyLe; intros a b c; lia).
    pose proof (Sorted_extends T S1) as A1. pose proof (Sorted_extends T S2) as A2.
    assert (Hk : key x = key y).
    { assert (Hy : In y (x :: r1)).
      { pose proof (in_sameKey_filter y (y :: r2) (or_introl eq_refl)) as Hin.
        rewrite <- F in Hin. now apply filter_In in Hin. }
      assert (Hx : In x (y :: r2)).
      { pose proof (in_sameKey_filter x (x :: r1) (or_introl eq_refl)) as Hin.
        rewrite F in Hin. now apply filter_In in Hin. }
      destruct Hy as [<-|Hy]; [reflexivity|]. destruct Hx as [->|Hx]; [reflexivity|].
      rewrite Forall_forall in A1, A2. specialize (A1 y Hy). specialize (A2 x Hx).
      unfold keyLe in *. lia. }
    assert (Hxy : forall k, sameKey key k y = sameKey key k x).
    { intros k. unfold sameKey. now rewrite Hk. }
    pose proof (F (key x)) as Fx. cbn [filter] in Fx.
    rewrite Hxy, sameKey_refl in Fx. injection Fx as <- Fr.
    f_equal. apply IH; [now apply Sorted_inv in S1 | now apply Sorted_inv in S2 |].
    intros k. specialize (F k). cbn [filter] in F.
    destruct (sameKey key k x); [now injection F | exact F].
Qed.

End StableSort.

(** A list sorted by a relation is sorted by any weaker one. *)
Lemma Sorted_weaken {A : Type} (R R' : A -> A -> Prop) (l : list A) :
  (forall a b, R a b -> R' a b) -> Sorted R l -> Sorted R' l.
Proof.
  intros HR. induction 1 as [|a l' _ IH Hd]; constructor; [exact IH|].
  destruct Hd; constructor. now apply HR.
Qed.

Section Relational.
Context {A B : Type} (R : A -> B -> Prop) (ka : A -> Z) (kb : B -> Z).
Hypothesis key_agree : forall a b, R a b -> ka a = kb b.

Lemma insertBy_Forall2 (x : A) (y : B) (l1 : list A) (l2 : list B) :
  R x y -> Forall2 R l1 l2 ->
  Forall2 R (insertBy (cmpKey ka) x l1) (insertBy (cmpKey kb) y l2).
Proof.
  intros Hxy. induction 1 as [|a b l1 l2 Hab H12 IH]; cbn; [constructor; [exact Hxy | constructor]|].
  unfold cmpKey at 1 3. rewrite (key_agree _ _ Hxy), (key_agree _ _ Hab).
  destruct (kb y - kb b <=? 0); [constructor; [exact Hxy | constructor; assumption] | constructor; assumption].
Qed.

Lemma sortBy_Forall2 (l1 : list A) (l2 : list B) :
  Forall2 R l1 l2 -> Forall2 R (sortBy (cmpKey ka) l1) (sortBy (cmpKey kb) l2).
Proof. induction 1; cbn; [constructor | now apply insertBy_Forall2]. Qed.

Lemma filter_Forall2 (f : A -> bool) (g : B -> bool) (l1 : list A) (l2 : list B) :
  (forall a b, R a b -> f a = g b) -> Forall2 R l1 l2 -> Forall2 R (filter f l1) (filter g l2).
Proof.
  intros Hfg. induction 1 as [|a b l1 l2 Hab _ IH]; cbn; [constructor|].
  rewrite (Hfg _ _ Hab). destruct (g b); [constructor|]; assumption.
Qed.
End Relational.

Section ProcessorFacts.
Context `{E : ScoringEngine}.

Lemma compareScored_cmpKey (so : SortOption) (a b : ScoredMarket) :
  compareScored so a b = cmpKey (sortKey so) a b.
Proof. unfold compareScored, cmpKey, sortKey. destruct so; lia. Qed.

(** The output is the key sort of the filtered list. *)
Lemma processedMarkets_keySort clock so ft l ms :
  processedMarkets clock so ft l ms
  = sortBy (cmpKey (sortKey so)) (filter (keepItem ft) (scoreAll clock l ms)).
Proof. apply sortBy_ext. apply compareScored_cmpKey. Qed.

Lemma keyLe_scoreOrdered (so : SortOption) (a b : ScoredMarket) :
  keyLe (sortKey so) a b <-> scoreOrdered so a b.
Proof. unfold keyLe, sortKey, scoreOrdered. destruct so; lia. Qed.

(** Filtering by score is filtering by the sort key. *)
Lemma score_filter_sameKey (so : SortOption) (s : Z) (l : list ScoredMarket) :
  filter (fun x => score (scoring x) =? s) l
  = filter (sameKey (sortKey so) (match so with scoreDesc => - s | scoreAsc => s end)) l.
Proof.
  apply filter_ext. intros x. unfold sameKey, sortKey.
  destruct so; [|reflexivity].
  destruct (Z.eqb_spec (score (scoring x)) s), (Z.eqb_spec (- score (scoring x)) (- s));
    reflexivity || lia.
Qed.

Lemma keepItem_spec (ft : FilterOption) (x : ScoredMarket) :
  keepItem ft x = true <-> (forall t, ft = FilterTier t -> tier (scoring x) = t).
Proof.
  destruct ft as [|t]; cbn.
  - split; [intros _ t H; discriminate H | reflexivity].
  - destruct (tier_eqb_spec (tier (scoring x)) t) as [Ht|Ht]; split.
    + intros _ t' [= <-]. exact Ht.
    + reflexivity.
    + intros H. discriminate H.
    + intros H. exfalso. apply Ht, H. reflexivity.
Qed.

Lemma scoreAllFrom_length clock i l ms : List.length (scoreAllFrom clock i l ms) = List.length ms.
Proof. revert i. induction ms; intros i; cbn; congruence. Qed.
End ProcessorFacts.

(** ** Theorems *)

Section ProcessorTheorems.
Context `{E : ScoringEngine}.

(** C5 (filter).  A scored market is listed exactly when it is one of
    the scored input markets and, unless the filter is [All], its tier is
    the selected tier. *)
Theorem processed_members (clock : nat -> Z) (so : SortOption) (ft : FilterOption)
    (l : Language) (ms : list MarketData) (x : ScoredMarket) :
  In x (processedMarkets clock so ft l ms) <->
  In x (scoreAll clock l ms) /\ (forall t, ft = FilterTier t -> tier (scoring x) = t).
Proof.
  rewrite <- keepItem_spec, <- filter_In. unfold processedMarkets. cbv zeta.
  split; apply Permutation_in; [|symmetry]; apply sortBy_perm.
Qed.

(** With the filter [All] every market is listed:
    the output is as long as the input (an empty input gives an empty
    output). *)
Theorem processed_all_length (clock : nat -> Z) (so : SortOption) (l : Language)
    (ms : list MarketData) :
  List.length (processedMarkets clock so FilterAll l ms) = List.length ms.
Proof.
  unfold processedMarkets. cbv zeta. rewrite (Permutation_length (sortBy_perm _ _)).
  change (keepItem FilterAll) with (fun _ : ScoredMarket => true).
  rewrite filter_true. apply scoreAllFrom_length.
Qed.

(** C6 (sorted).  The output is ordered by score: non-increasing for
    [scoreDesc], non-decreasing for [scoreAsc]. *)
Theorem processed_sorted (clock : nat -> Z) (so : SortOption) (ft : FilterOption)
    (l : Language) (ms : list MarketData) :
  Sorted (scoreOrdered so) (processedMarkets clock so ft l ms).
Proof.
  rewrite processedMarkets_keySort. eapply Sorted_weaken; [|apply sortBy_sorted].
  intros a b. apply keyLe_scoreOrdered.
Qed.

(** The output is a permutation of the filtered list
    of scored markets: sorting loses and duplicates nothing. *)
Theorem processed_permutation (clock : nat -> Z) (so : SortOption) (ft : FilterOption)
    (l : Language) (ms : list MarketData) :
  Permutation (processedMarkets clock so ft l ms) (filter (keepItem ft) (scoreAll clock l ms)).
Proof. apply sortBy_perm. Qed.

(** C7 (stable).  Markets with equal scores keep their input order: for
    every score [s], the markets of score [s] appear in the output in the
    order of the filtered input. *)
Theorem processed_stable (clock : nat -> Z) (so : SortOption) (ft : FilterOption)
    (l : Language) (ms : list MarketData) (s : Z) :
  filter (fun x => score (scoring x) =? s) (processedMarkets clock so ft l ms)
  = filter (fun x => score (scoring x) =? s) (filter (keepItem ft) (scoreAll clock l ms)).
Proof.
  rewrite processedMarkets_keySort, !(score_filter_sameKey so s). apply sortBy_stable.
Qed.

(** C8 (any stable sort).  A list ordered by score in the chosen
    direction whose markets of each score are in the order of the filtered
    input is the output of [processedMarkets]: the result does not depend
    on which stable sorting algorithm the runtime uses. *)
Theorem processed_unique (clock : nat -> Z) (so : SortOption) (ft : FilterOption)
    (l : Language) (ms : list MarketData) (out : list ScoredMarket) :
  Sorted (scoreOrdered so) out ->
  (forall s, filter (fun x => score (scoring x) =? s) out
             = filter (fun x => score (scoring x) =? s) (filter (keepItem ft) (scoreAll clock l ms))) ->
  out = processedMarkets clock so ft l ms.
Proof.
  intros Hs Hf. rewrite processedMarkets_keySort.
  apply (sorted_stable_unique (sortKey so)).
  - eapply Sorted_weaken; [|exact Hs]. intros a b. apply keyLe_scoreOrdered.
  - apply sortBy_sorted.
  - intros k. rewrite sortBy_stable.
    set (s := match so with scoreDesc => - k | scoreAsc => k end).
    assert (Hk : k = match so with scoreDesc => - s | scoreAsc => s end)
      by (unfold s; destruct so; lia).
    rewrite Hk, <- !(score_filter_sameKey so s). apply Hf.
Qed.

(** C12 (locale).  Changing the language changes neither which markets
    are listed, nor their order, scores or tiers. *)
Theorem processed_locale_independent (clock : nat -> Z) (so : SortOption) (ft : FilterOption)
    (l l' : Language) (ms : list MarketData) :
  map (fun x => (market x, score (scoring x), tier (scoring x))) (processedMarkets clock so ft l ms)
  = map (fun x => (market x, score (scoring x), tier (scoring x))) (processedMarkets clock so ft l' ms).
Proof.
  set (R := fun x y : ScoredMarket =>
              market x = market y /\ score (scoring x) = score (scoring y) /\
              tier (scoring x) = tier (scoring y)).
  assert (HR : Forall2 R (processedMarkets clock so ft l ms) (processedMarkets clock so ft l' ms)).
  { rewrite !processedMarkets_keySort.
    apply (sortBy_Forall2 R); [intros a b (_ & Hs & _); unfold sortKey; now rewrite Hs|].
    apply filter_Forall2; [intros a b (_ & _ & Ht); unfold keepItem; now rewrite Ht|].
    unfold scoreAll. generalize 0%nat. induction ms as [|m ms IH]; intros i; cbn; constructor; [|apply IH].
    unfold R; cbn. rewrite !scoreMarket_tier, (scoreMarket_locale m l l'). auto. }
  induction HR as [|x y xs ys (Hm & Hs & Ht) _ IH]; cbn; [reflexivity|].
  now rewrite Hm, Hs, Ht, IH.
Qed.

End ProcessorTheorems.

(** C20 (score guide).  The guide above the list assigns every score from
    40 to 59 to [Avoid], while the engine puts these scores in the tier
    [Hold], which the guide never shows. *)
Theorem score_guide_diverges (s : Z) :
  40 <= s <= 59 -> guideTier s = Some Avoid /\ tierOf s = Hold.
Proof.
  intros H. unfold guideTier, tierOf, determineTier. cbn [find scoreGuide].
  js_cases; cbn; split; reflexivity || lia.
Qed.

Lemma score_guide_diverges_witness :
  (40 <= 50 <= 59) /\ (guideTier 50 = Some Avoid /\ tierOf 50 = Hold).
Proof. split; [lia | apply score_guide_diverges; lia]. Defined.

Lemma processed_unique_witness :
  let m1 := mkMarketData "1" "" "" "" (ValidDate (45 * MS_PER_DAY)) 25 15 [20; 15]%Q "" "" (Some 8%Q) in
  let m2 := mkMarketData "2" "" "" "" (ValidDate (90 * MS_PER_DAY)) 10 (145 # 10)%Q [14; 15]%Q "" "" (Some 18%Q) in
  let out := [mkScoredMarket m2 (calculateInvestmentScore m2 en 0);
              mkScoredMarket m1 (calculateInvestmentScore m1 en 0)] in
  (Sorted (scoreOrdered scoreDesc) out /\
   (forall s, filter (fun x => score (scoring x) =? s) out
              = filter (fun x => score (scoring x) =? s)
                  (filter (keepItem FilterAll) (scoreAll (fun _ => 0) en [m1; m2])))) /\
  out = processedMarkets (fun _ => 0) scoreDesc FilterAll en [m1; m2].
Proof.
  intros m1 m2 out. unfold out.
  assert (E1 : score (calculateInvestmentScore m1 en 0) = 5) by (vm_compute; reflexivity).
  assert (E2 : score (calculateInvestmentScore m2 en 0) = 100) by (vm_compute; reflexivity).
  assert (HS : Sorted (scoreOrdered scoreDesc) out).
  { repeat constructor. unfold scoreOrdered. cbn [scoring]. rewrite E1, E2. lia. }
  assert (HF : forall s, filter (fun x => score (scoring x) =? s) out
              = filter (fun x => score (scoring x) =? s)
                  (filter (keepItem FilterAll) (scoreAll (fun _ => 0) en [m1; m2]))).
  { intros s. unfold out.
    cbn [filter scoreAll scoreAllFrom keepItem scoring scoreMarket calculateInvestmentScore_engine].
    rewrite E1, E2.
    destruct (Z.eqb_spec 100 s), (Z.eqb_spec 5 s); subst; reflexivity || lia. }
  split; [split; assumption|]. apply processed_unique; assumption.
Defined.
