(* ===== verification/MockData.v ===== *)
(** * MockData: [MOCK_MARKETS] of [src/services/mockData.ts] and the scenarios

    The five demonstration markets, whose expiry dates are computed when
    the module is loaded ([addDays] reads [new Date()] at that moment,
    [created] below).  The dashboard scores them later, at clock readings
    [now] within the same day.  [addDays] moves the calendar date with
    [setDate]; the model adds whole days of milliseconds, which agrees
    with the local calendar except across a daylight-saving change.

    Theorems: the score and tier of each mock market (scenarios A, B and
    C of the specification are markets 1, 2 and 4), the order in which
    the dashboard lists them, and the disagreements between the scores and
    the texts shown beside them (tier descriptions, the score guide of
    [App.tsx]). *)

From Stdlib Require Import QArith Qminmax Lqa ZArith Lia List String.
From S2P Require Import Prelude Types Translations Engine Scoring Collection.
Import ListNotations.

Local Open Scope string_scope.
Local Open Scope Q_scope.

(** [addDays(days)]: the load time plus [days] days. *)
Definition addDays (created : Z) (days : Z) : JsDate :=
  ValidDate (created + days * MS_PER_DAY)%Z.

(** [MOCK_MARKETS], built at the load time [created]. *)
Definition MOCK_MARKETS (created : Z) : list MarketData := [
  {| id := "1"; name := "Ether.fi eETH (26 Dec 2024)"; protocol := "Ether.fi"; symbol := "eETH";
     expiry := addDays created 120; impliedAPY := 12.5; underlyingAPY := 18.2;
     historicalUnderlyingAPY := [17.0; 17.2; 17.5; 17.8; 18.0; 18.1; 18.2];
     imageUrl := "https://picsum.photos/id/1/200/200";
     marketUrl := "https://app.pendle.finance/trade/markets"; leverage := Some 15.2 |};
  {| id := "2"; name := "Ethena USDe (24 Oct 2024)"; protocol := "Ethena"; symbol := "USDe";
     expiry := addDays created 45; impliedAPY := 25.0; underlyingAPY := 15.0;
     historicalUnderlyingAPY := [20.0; 19.0; 18.5; 17.0; 16.0; 15.5; 15.0];
     imageUrl := "https://picsum.photos/id/2/200/200";
     marketUrl := "https://app.pendle.finance/trade/markets"; leverage := Some 8.5 |};
  {| id := "3"; name := "Renzo ezETH (26 Dec 2024)"; protocol := "Renzo"; symbol := "ezETH";
     expiry := addDays created 120; impliedAPY := 14.0; underlyingAPY := 16.5;
     historicalUnderlyingAPY := [16.0; 16.1; 16.0; 16.2; 16.3; 16.4; 16.5];
     imageUrl := "https://picsum.photos/id/3/200/200";
     marketUrl := "https://app.pendle.finance/trade/markets"; leverage := Some 12.1 |};
  {| id := "4"; name := "Kelp DAO rsETH (Short Term)"; protocol := "Kelp DAO"; symbol := "rsETH";
     expiry := addDays created 15; impliedAPY := 8.0; underlyingAPY := 12.0;
     historicalUnderlyingAPY := [11.0; 11.2; 11.5; 11.8; 11.9; 12.0; 12.0];
     imageUrl := "https://picsum.photos/id/4/200/200";
     marketUrl := "https://app.pendle.finance/trade/markets"; leverage := Some 35.0 |};
  {| id := "5"; name := "Puffer pufETH (High Volatility)"; protocol := "Puffer"; symbol := "pufETH";
     expiry := addDays created 90; impliedAPY := 10.0; underlyingAPY := 14.5;
     historicalUnderlyingAPY := [14.5; 14.0; 13.5; 13.0; 13.5; 14.0; 14.5];
     imageUrl := "https://picsum.photos/id/5/200/200";
     marketUrl := "https://app.pendle.finance/trade/markets"; leverage := Some 18.4 |}
].

(** The clock readings of one rendering all fall within a day of the
    load time. *)
Definition sameDay (created : Z) (clock : nat -> Z) : Prop :=
  forall i, (created <= clock i < created + MS_PER_DAY)%Z.

(** [processedMarkets] of [App]: the collection processor over
    [MOCK_MARKETS], the only list the dashboard shows. *)
Definition appProcessedMarkets (created : Z) (clock : nat -> Z) (sortOrder : SortOption)
    (filterTier : FilterOption) (language : Language) : list ScoredMarket :=
  processedMarkets clock sortOrder filterTier language (MOCK_MARKETS created).

(** The default of [nth] on the mock list (never reached below). *)
Definition noMarket : MarketData := mkMarketData "" "" "" "" InvalidDate 0 0 [] "" "" (Some 0).

(** ** Lemmas *)

(** A date [d] days after the load time is [d] days away during the day
    of the load. *)
Lemma daysToMaturity_addDays (created d now : Z) :
  (created <= now < created + MS_PER_DAY)%Z ->
  daysToMaturityOf (addDays created d) now = Some d.
Proof.
  intros H. unfold addDays, daysToMaturityOf. cbn [getTime]. f_equal.
  assert (D : (0 < MS_PER_DAY)%Z) by (unfold MS_PER_DAY; lia).
  pose proof (jsCeilDiv_lt_iff (created + d * MS_PER_DAY - now) MS_PER_DAY (d + 1) D) as U.
  pose proof (jsCeilDiv_lt_iff (created + d * MS_PER_DAY - now) MS_PER_DAY d D) as L.
  assert (A1 : (created + d * MS_PER_DAY - now <= (d + 1 - 1) * MS_PER_DAY)%Z) by lia.
  assert (A2 : ~ (created + d * MS_PER_DAY - now <= (d - 1) * MS_PER_DAY)%Z) by lia.
  apply U in A1. rewrite <- L in A2. lia.
Qed.

(** Scored mock markets, related to the ones of time 0: same id, same
    scoring. *)
Definition mockRel (x y : ScoredMarket) : Prop :=
  id (market x) = id (market y) /\ scoring x = scoring y.

(** Scoring the mock markets during the day of the load gives the results
    of the markets loaded and scored at time 0. *)
Lemma scoreAll_mock (created : Z) (clock : nat -> Z) (l : Language) :
  sameDay created clock ->
  Forall2 mockRel (scoreAll clock l (MOCK_MARKETS created))
                  (scoreAll (fun _ => 0%Z) l (MOCK_MARKETS 0)).
Proof.
  intros Hc. assert (H0 : (0 <= 0 < 0 + MS_PER_DAY)%Z) by (unfold MS_PER_DAY; lia).
  unfold scoreAll, MOCK_MARKETS. cbn [scoreAllFrom].
  repeat constructor; cbn [scoring scoreMarket calculateInvestmentScore_engine];
    apply calculateInvestmentScore_inputs; try reflexivity; cbn [expiry];
    rewrite !daysToMaturity_addDays by (apply Hc || exact H0); reflexivity.
Qed.

Lemma processed_mock (created : Z) (clock : nat -> Z) (so : SortOption) (ft : FilterOption)
    (l : Language) :
  sameDay created clock ->
  Forall2 mockRel (processedMarkets clock so ft l (MOCK_MARKETS created))
                  (processedMarkets (fun _ => 0%Z) so ft l (MOCK_MARKETS 0)).
Proof.
  intros Hc. rewrite !processedMarkets_keySort.
  apply (sortBy_Forall2 mockRel); [intros a b [_ Hs]; unfold sortKey; now rewrite Hs|].
  apply filter_Forall2; [intros a b [_ Hs]; unfold keepItem; now rewrite Hs|].
  now apply scoreAll_mock.
Qed.

Lemma mockRel_map {B : Type} (f : string -> ScoringResult -> B) (xs ys : list ScoredMarket) :
  Forall2 mockRel xs ys ->
  map (fun x => f (id (market x)) (scoring x)) xs = map (fun x => f (id (market x)) (scoring x)) ys.
Proof. induction 1 as [|x y xs ys [Hi Hs] _ IH]; cbn; [reflexivity|]. now rewrite Hi, Hs, IH. Qed.

(** Any mock market, loaded at [created] and scored that day, gets the
    result of the same market loaded and scored at time 0. *)
Lemma mock_at_load (created now : Z) (l : Language) (k : nat) :
  (created <= now < created + MS_PER_DAY)%Z ->
  calculateInvestmentScore (nth k (MOCK_MARKETS created) noMarket) l now
  = calculateInvestmentScore (nth k (MOCK_MARKETS 0) noMarket) l 0.
Proof.
  intros H. assert (H0 : (0 <= 0 < 0 + MS_PER_DAY)%Z) by (unfold MS_PER_DAY; lia).
  apply calculateInvestmentScore_inputs; destruct k as [|[|[|[|[|k]]]]]; try reflexivity;
    cbn [nth MOCK_MARKETS expiry]; try (destruct k; reflexivity);
    now rewrite !daysToMaturity_addDays.
Qed.

Lemma mockRel_ids (xs ys : list ScoredMarket) :
  Forall2 mockRel xs ys -> map (fun x => id (market x)) xs = map (fun x => id (market x)) ys.
Proof. induction 1 as [|x y xs ys [Hi _] _ IH]; cbn; [reflexivity|]. now rewrite Hi, IH. Qed.

(** ** Theorems *)

(** Scored on the day they are loaded, the five mock
    markets get the scores 100, 5, 85, 71 and 93 and the tiers Strong Buy,
    Avoid, Strong Buy, Buy and Strong Buy: scenario A (market 1, clamped
    from 117.8), scenario B (market 2) and scenario C (market 4, the
    maturity penalty outweighed) of the specification. *)
Theorem mock_results (created : Z) (clock : nat -> Z) (l : Language) :
  sameDay created clock ->
  map (fun x => (id (market x), score (scoring x), tier (scoring x)))
      (scoreAll clock l (MOCK_MARKETS created))
  = [("1", 100%Z, StrongBuy); ("2", 5%Z, Avoid); ("3", 85%Z, StrongBuy);
     ("4", 71%Z, Buy); ("5", 93%Z, StrongBuy)].
Proof.
  intros Hc.
  rewrite (mockRel_map (fun i r => (i, score r, tier r)) _ _ (scoreAll_mock created clock l Hc)).
  destruct l; vm_compute; reflexivity.
Qed.

Lemma mock_results_witness :
  sameDay 1000 (fun _ => 3600000)%Z /\
  map (fun x => (id (market x), score (scoring x), tier (scoring x)))
      (scoreAll (fun _ => 3600000)%Z ko (MOCK_MARKETS 1000))
  = [("1", 100%Z, StrongBuy); ("2", 5%Z, Avoid); ("3", 85%Z, StrongBuy);
     ("4", 71%Z, Buy); ("5", 93%Z, StrongBuy)].
Proof.
  assert (Hc : sameDay 1000 (fun _ => 3600000)%Z) by (intros i; unfold MS_PER_DAY; lia).
  split; [exact Hc | now apply mock_results].
Defined.

(** C17 (dashboard order).  On the day of the load the dashboard lists the
    mock markets as 1, 5, 3, 4, 2 by highest score and 2, 4, 3, 5, 1 by
    lowest; the Strong Buy filter keeps 1, 5, 3 in that order and the Hold
    filter keeps none (the "no markets match" case). *)
Theorem mock_dashboard_order (created : Z) (clock : nat -> Z) (l : Language) :
  sameDay created clock ->
  let ids so ft := map (fun x => id (market x)) (appProcessedMarkets created clock so ft l) in
  ids scoreDesc FilterAll = ["1"; "5"; "3"; "4"; "2"] /\
  ids scoreAsc FilterAll = ["2"; "4"; "3"; "5"; "1"] /\
  ids scoreDesc (FilterTier StrongBuy) = ["1"; "5"; "3"] /\
  ids scoreAsc (FilterTier Hold) = [].
Proof.
  intros Hc. cbv zeta beta. unfold appProcessedMarkets.
  rewrite !(mockRel_ids _ _ (processed_mock created clock _ _ l Hc)).
  destruct l; vm_compute; repeat split.
Qed.

Lemma mock_dashboard_order_witness :
  sameDay 0 (fun i => Z.of_nat (Nat.min i 9) * 1000)%Z /\
  (let ids so ft := map (fun x => id (market x))
                      (appProcessedMarkets 0 (fun i => Z.of_nat (Nat.min i 9) * 1000)%Z so ft en) in
   ids scoreDesc FilterAll = ["1"; "5"; "3"; "4"; "2"] /\
   ids scoreAsc FilterAll = ["2"; "4"; "3"; "5"; "1"] /\
   ids scoreDesc (FilterTier StrongBuy) = ["1"; "5"; "3"] /\
   ids scoreAsc (FilterTier Hold) = []).
Proof.
  assert (Hc : sameDay 0 (fun i => Z.of_nat (Nat.min i 9) * 1000)%Z)
    by (intros i; unfold MS_PER_DAY; lia).
  split; [exact Hc | now apply mock_dashboard_order].
Defined.

(** C21 (tier description).  The description of the Strong Buy tier reads
    "Spread > 3% & Rising Trend", yet on the day of the load mock market 3
    is Strong Buy with a spread of 2.5 and mock market 5 is Strong Buy with
    a trend that is not rising (its first and last values are equal). *)
Theorem strong_buy_description_diverges (created now : Z) (l : Language) :
  (created <= now < created + MS_PER_DAY)%Z ->
  let m3 := nth 2 (MOCK_MARKETS created) noMarket in
  let m5 := nth 4 (MOCK_MARKETS created) noMarket in
  strongBuy (tierDescs en) = "Spread > 3% & Rising Trend" /\
  tier (calculateInvestmentScore m3 l now) = StrongBuy /\
  underlyingAPY m3 - impliedAPY m3 < 3 /\
  tier (calculateInvestmentScore m5 l now) = StrongBuy /\
  ~ 0 < trendFactor (breakdown (calculateInvestmentScore m5 l now)).
Proof.
  intros H. cbv zeta. rewrite !(mock_at_load created now l) by exact H.
  split; [reflexivity|].
  destruct l; vm_compute; repeat split; try reflexivity; discriminate.
Qed.

Lemma strong_buy_description_diverges_witness :
  (0 <= 60000 < 0 + MS_PER_DAY)%Z /\
  tier (calculateInvestmentScore (nth 2 (MOCK_MARKETS 0) noMarket) en 60000) = StrongBuy.
Proof.
  assert (H : (0 <= 60000 < 0 + MS_PER_DAY)%Z) by (unfold MS_PER_DAY; lia).
  split; [exact H | apply (strong_buy_description_diverges 0 60000 en H)].
Defined.
