(* ===== verification/Gemini.v ===== *)
(** * Gemini: the narrative generator of [src/services/geminiService.ts]

    [getMarketAnalysis(market, score, language)] asks the generative model
    for a one-sentence description and a verdict, and falls back to the
    local template [getDefaultAnalysis] on every failure.  Its body is one
    [try] block whose failures are thrown exceptions; the model writes the
    block in ExtLib's error monad [sum GeminiError] ([raise] for [throw],
    [catch] for the [catch] clause), so the promise it returns is
    [inr result] when it resolves and [inl e] when it would reject.

    The call to the model is I/O: its outcome is an argument
    ([GenerateOutcome]: it throws, or resolves to a response whose [text]
    may be undefined).  [JSON.parse] is the section variable [jsonParse]
    ([None] when it throws); a parsed field is a string or absent, and
    [||] falls back on the absent or empty string.  The prompt text is
    built character for character ([prompt]), numbers printed with
    [String(x)] ([JsNumber.jsNumberToString]). *)

From Stdlib Require Import QArith ZArith String List Lia Ascii.
From Stdlib Require Import DecimalString.
From ExtLib Require Import Structures.Monad Structures.MonadExc Data.Monads.EitherMonad.
From S2P Require Import Prelude JsNumber Types Scoring.
Import ListNotations MonadNotation.

Local Open Scope string_scope.
Local Open Scope monad_scope.

(** The exceptions thrown in the [try] block. *)
Inductive GeminiError : Type :=
| NoApiKey        (** [throw new Error("No API Key")] *)
| RequestFailed   (** [generateContent] rejects (network, quota, ...) *)
| ParseFailed.    (** [JSON.parse] throws *)

(** What [await ai.models.generateContent(...)] does. *)
Inductive GenerateOutcome : Type :=
| GenerateThrows
| GenerateText (text : option string).

(** The fields of the parsed object that the code reads. *)
Record GeminiJson : Type := mkGeminiJson {
  jsonDescription : option string;
  jsonAiVerdict : option string
}.

(** [!process.env.API_KEY]: undefined or empty. *)
Definition missingKey (apiKey : option string) : bool :=
  match apiKey with
  | None => true
  | Some k => String.eqb k ""
  end.

(** [v || fallback] on a string field. *)
Definition orElse (v : option string) (fallback : string) : string :=
  match v with
  | Some s => if String.eqb s "" then fallback else s
  | None => fallback
  end.

(** [getDefaultAnalysis(market, score, language)] *)
Definition getDefaultAnalysis (market : MarketData) (score : Z) (language : Language)
    : AnalysisResult :=
  let spread := jsToFixed (underlyingAPY market - impliedAPY market) 2 in
  match language with
  | ko => {| description := protocol market ++ "은(는) " ++ symbol market ++ " 자산을 포함합니다.";
             aiVerdict := "계산된 점수는 " ++ decimalOfZ score ++ "점입니다. 기초 APY와 내재 APY의 차이는 "
                          ++ spread ++ "%입니다." |}
  | en => {| description := protocol market ++ " involves " ++ symbol market ++ " assets.";
             aiVerdict := "Calculated score is " ++ decimalOfZ score
                          ++ ". The spread between Underlying and Implied APY is " ++ spread ++ "%." |}
  end.

(** ** The prompt *)

(** The double quote character and the newline. *)
Definition quoteChar : string := String (ascii_of_nat 34) EmptyString.
Definition newline : string := String (ascii_of_nat 10) EmptyString.

(** [langInstruction] *)
Definition langInstruction (language : Language) : string :=
  match language with
  | ko => "Provide the response in Korean."
  | en => "Provide the response in English."
  end.

(** [String(x)] of every element, or [None] if one of them is not modelled. *)
Fixpoint numbersText (xs : list Q) : option (list string) :=
  match xs with
  | [] => Some []
  | x :: xs' =>
      match jsNumberToString x, numbersText xs' with
      | Some s, Some ss => Some (s :: ss)
      | _, _ => None
      end
  end.

(** The template literal [prompt], line by line; the day count reads the
    clock again ([now]), with the formula of [scoringLogic.ts]. *)
Definition prompt (market : MarketData) (score : Z) (language : Language) (now : Z) : option string :=
  match jsNumberToString (impliedAPY market), jsNumberToString (underlyingAPY market),
        numbersText (historicalUnderlyingAPY market) with
  | Some i, Some u, Some hs =>
      let q := quoteChar in
      Some (String.concat newline [
        "";
        "      Act as a DeFi analyst for Pendle Finance.";
        "      Analyze the following Yield Token (YT) market opportunity:";
        "      ";
        "      Project: " ++ protocol market ++ " (" ++ name market ++ ")";
        "      Symbol: " ++ symbol market;
        "      Implied APY (Market Price of Yield): " ++ i ++ "%";
        "      Underlying APY (Real Yield): " ++ u ++ "%";
        "      Days to Maturity: " ++ jsNumToString (daysToMaturityOf (expiry market) now) ++ " days";
        "      7-Day APY Trend: " ++ String.concat ", " hs;
        "      Calculated Investment Score: " ++ decimalOfZ score ++ "/100";
        "";
        "      " ++ langInstruction language;
        "      ";
        "      Provide a JSON response with two fields:";
        "      1. " ++ q ++ "description" ++ q ++ ": A 1-sentence explanation of what this protocol does.";
        "      2. " ++ q ++ "aiVerdict" ++ q ++ ": A concise 2-sentence strategic comment on why the score is "
          ++ decimalOfZ score ++ ". Mention the spread between Underlying and Implied APY, and the maturity risk/benefit.";
        "";
        "      Do not include markdown formatting like ```json. Just return the raw JSON string.";
        "    "])
  | _, _, _ => None
  end.

Section WithParser.
Variable jsonParse : string -> option GeminiJson.

(** The body of the [try] block. *)
Definition analysisRequest (apiKey : option string) (outcome : GenerateOutcome)
    (market : MarketData) (score : Z) (language : Language) : sum GeminiError AnalysisResult :=
  if missingKey apiKey then raise NoApiKey
  else
    text <- match outcome with
            | GenerateThrows => raise RequestFailed
            | GenerateText t => ret t
            end ;;
    match text with
    | None => ret (getDefaultAnalysis market score language)
    | Some t =>
        if String.eqb t "" then ret (getDefaultAnalysis market score language)
        else
          match jsonParse t with
          | None => raise ParseFailed
          | Some json =>
              ret {| description := orElse (jsonDescription json) ("Protocol for " ++ symbol market);
                     aiVerdict := orElse (jsonAiVerdict json)
                       ("Score based on APY spread of "
                        ++ jsToFixed (underlyingAPY market - impliedAPY market) 2 ++ "%.") |}
          end
    end.

(** [getMarketAnalysis]: the [try] block with its [catch] clause. *)
Definition getMarketAnalysis (apiKey : option string) (outcome : GenerateOutcome)
    (market : MarketData) (score : Z) (language : Language) : sum GeminiError AnalysisResult :=
  catch (analysisRequest apiKey outcome market score language)
        (fun _ => ret (getDefaultAnalysis market score language)).

End WithParser.

(** ** Lemmas *)

Lemma missingKey_false (k : string) : k <> "" -> missingKey (Some k) = false.
Proof. intros H. cbn. now apply String.eqb_neq. Qed.

(** The [catch] clause: a thrown exception becomes the fallback. *)
Lemma getMarketAnalysis_catch (jsonParse : string -> option GeminiJson) k o m s l :
  getMarketAnalysis jsonParse k o m s l =
  match analysisRequest jsonParse k o m s l with
  | inl _ => inr (getDefaultAnalysis m s l)
  | inr r => inr r
  end.
Proof. unfold getMarketAnalysis. cbn. now destruct (analysisRequest _ _ _ _ _ _). Qed.

(** ** Theorems *)

(** C23 (never rejects).  The promise of [getMarketAnalysis] always
    resolves, and whenever the [try] block throws (no key, a failed
    request, unparsable JSON) it resolves to the local fallback. *)
Theorem getMarketAnalysis_never_rejects (jsonParse : string -> option GeminiJson)
    (apiKey : option string) (outcome : GenerateOutcome) (m : MarketData) (s : Z) (l : Language) :
  (exists r, getMarketAnalysis jsonParse apiKey outcome m s l = inr r) /\
  (forall e, analysisRequest jsonParse apiKey outcome m s l = inl e ->
             getMarketAnalysis jsonParse apiKey outcome m s l = inr (getDefaultAnalysis m s l)).
Proof.
  rewrite getMarketAnalysis_catch. split.
  - destruct (analysisRequest _ _ _ _ _ _); eauto.
  - intros e ->. reflexivity.
Qed.

(** C24 (missing key).  With no API key (undefined or empty) the result
    is the fallback, whatever the model would have answered. *)
Theorem missing_key_gives_fallback (jsonParse : string -> option GeminiJson)
    (apiKey : option string) (outcome : GenerateOutcome) (m : MarketData) (s : Z) (l : Language) :
  missingKey apiKey = true ->
  getMarketAnalysis jsonParse apiKey outcome m s l = inr (getDefaultAnalysis m s l).
Proof. intros H. rewrite getMarketAnalysis_catch. unfold analysisRequest. now rewrite H. Qed.

Lemma missing_key_gives_fallback_witness :
  missingKey (Some "") = true /\
  getMarketAnalysis (fun _ => None) (Some "") (GenerateText (Some "{}")) (mkMarketData "2" "Ethena USDe" "Ethena" "USDe" InvalidDate 25 15 [] "" "" (Some 8)) 42 ko
  = inr (getDefaultAnalysis (mkMarketData "2" "Ethena USDe" "Ethena" "USDe" InvalidDate 25 15 [] "" "" (Some 8)) 42 ko).
Proof. split; [reflexivity | apply missing_key_gives_fallback; reflexivity]. Defined.

(** C25 (model answer passed through).  With a key, a non-empty response
    text that parses to an object with non-empty [description] and
    [aiVerdict] strings, the result is exactly these two strings. *)
Theorem model_answer_passed_through (jsonParse : string -> option GeminiJson)
    (k t d v : string) (m : MarketData) (s : Z) (l : Language) :
  k <> "" -> t <> "" -> d <> "" -> v <> "" ->
  jsonParse t = Some (mkGeminiJson (Some d) (Some v)) ->
  getMarketAnalysis jsonParse (Some k) (GenerateText (Some t)) m s l
  = inr (mkAnalysisResult d v).
Proof.
  intros Hk Ht Hd Hv Hp. rewrite getMarketAnalysis_catch. unfold analysisRequest.
  rewrite missingKey_false by exact Hk. cbn.
  rewrite (proj2 (String.eqb_neq t "") Ht), Hp. cbn.
  rewrite (proj2 (String.eqb_neq d "") Hd), (proj2 (String.eqb_neq v "") Hv). reflexivity.
Qed.

Lemma model_answer_passed_through_witness :
  let parse := fun t : string => if String.eqb t "ok" then Some (mkGeminiJson (Some "d") (Some "v")) else None in
  ("k" <> "" /\ "ok" <> "" /\ "d" <> "" /\ "v" <> "" /\
   parse "ok" = Some (mkGeminiJson (Some "d") (Some "v"))) /\
  getMarketAnalysis parse (Some "k") (GenerateText (Some "ok"))
    (mkMarketData "1" "Ether.fi eETH" "Ether.fi" "eETH" InvalidDate 12 18 [] "" "" (Some 15)) 100 en
  = inr (mkAnalysisResult "d" "v").
Proof.
  cbv zeta. split; [repeat split; try discriminate; reflexivity |].
  apply model_answer_passed_through; try discriminate; reflexivity.
Defined.

(** C26 (English fallback in Korean).  When the parsed answer has no
    verdict, the verdict shown is the English sentence "Score based on APY
    spread of ...%." even when the language is Korean. *)
Theorem korean_missing_verdict_is_english (jsonParse : string -> option GeminiJson)
    (k t : string) (d : option string) (m : MarketData) (s : Z) :
  k <> "" -> t <> "" -> jsonParse t = Some (mkGeminiJson d None) ->
  exists r, getMarketAnalysis jsonParse (Some k) (GenerateText (Some t)) m s ko = inr r /\
            aiVerdict r = "Score based on APY spread of "
                          ++ jsToFixed (underlyingAPY m - impliedAPY m) 2 ++ "%.".
Proof.
  intros Hk Ht Hp. rewrite getMarketAnalysis_catch. unfold analysisRequest.
  rewrite missingKey_false by exact Hk. cbn.
  rewrite (proj2 (String.eqb_neq t "") Ht), Hp. cbn. eexists. split; reflexivity.
Qed.

Lemma korean_missing_verdict_is_english_witness :
  let parse := fun _ : string => Some (mkGeminiJson (Some "설명") None) in
  ("k" <> "" /\ "{}" <> "" /\ parse "{}" = Some (mkGeminiJson (Some "설명") None)) /\
  exists r, getMarketAnalysis parse (Some "k") (GenerateText (Some "{}"))
              (mkMarketData "2" "Ethena USDe" "Ethena" "USDe" InvalidDate 25 15 [] "" "" (Some 8)) 5 ko = inr r /\
            aiVerdict r = "Score based on APY spread of " ++ jsToFixed (15 - 25) 2 ++ "%.".
Proof.
  cbv zeta. split; [repeat split; try discriminate; reflexivity |].
  apply (korean_missing_verdict_is_english _ _ _ (Some "설명")); try discriminate; reflexivity.
Defined.

(** The fallback verdict starts with the
    localised lead-in followed by the decimal digits of the score, which
    read back as the score. *)
Theorem fallback_states_score (m : MarketData) (s : Z) (l : Language) :
  exists lead rest,
    aiVerdict (getDefaultAnalysis m s l) = lead ++ decimalOfZ s ++ rest /\
    readDecimal (decimalOfZ s) = Some s /\
    lead = match l with en => "Calculated score is " | ko => "계산된 점수는 " end.
Proof.
  destruct l; cbn [getDefaultAnalysis aiVerdict]; do 2 eexists;
    (split; [reflexivity | split; [apply decimalOfZ_roundtrip | reflexivity]]).
Qed.
