(* ===== verification/Presentation.v ===== *)
(** * Presentation: [src/components/ScoreBadge.tsx] and the values
    [src/components/MarketCard.tsx] derives for display

    [ScoreBadge] draws the score as a ring: its stroke colour comes from
    score thresholds of its own and its visible arc from
    [strokeDashoffset].  [MarketCard] shows, besides the scoring result, a
    day count computed again from a second clock reading, the spread with
    its sign and colour, the translated tier, a "Rising Trend" badge and
    the trend line colour (both from [breakdown.trendFactor > 0]) and a
    highlighted verdict box for scores of 60 or more.  [scoreBadge] and
    [cardView] collect everything the two components render from their
    props (class names, SVG paths and the chart drawing aside; the date
    printed with [toLocaleDateString] is locale-dependent and left out).
    [Math.PI] is the double nearest to pi, an exact rational.

    Theorems: the ring colour is a faithful encoding of the tier, the arc
    stays within the circle and grows with the score, and each derived
    card value agrees with the scoring result it stands for, except the
    day count, which can disagree with the one the score used. *)

From Stdlib Require Import QArith Qminmax Lqa ZArith Lia List String.
From S2P Require Import Prelude JsNumber Types Translations Engine Scoring.
Import ListNotations.

Local Open Scope Q_scope.

(** ** ScoreBadge *)

(** [const radius = 30; const stroke = 6;] *)
Definition radius : Q := 30.
Definition stroke : Q := 6.

(** [const normalizedRadius = radius - stroke * 2;] *)
Definition normalizedRadius : Q := radius - stroke * 2.

(** [Math.PI]: the IEEE double [0x400921FB54442D18]. *)
Definition MATH_PI : Q := 884279719003555 # 281474976710656.

(** [const circumference = normalizedRadius * 2 * Math.PI;] *)
Definition circumference : Q := normalizedRadius * 2 * MATH_PI.

(** [const strokeDashoffset = circumference - (score / 100) * circumference;] *)
Definition strokeDashoffset (score : Z) : Q :=
  circumference - (inject_Z score / 100) * circumference.

(** [let strokeColor = '#ef4444'; if (score >= 80) ... else if (score >= 60)
    ... else if (score >= 40) ...] *)
Definition strokeColor (score : Z) : string :=
  if (80 <=? score)%Z then "#34d399"%string
  else if (60 <=? score)%Z then "#60a5fa"%string
  else if (40 <=? score)%Z then "#facc15"%string
  else "#ef4444"%string.

(** What [ScoreBadge] renders: the size of the [<svg>], the two circles
    (track and arc) and the two labels. *)
Record BadgeView : Type := mkBadgeView {
  svgSize : Q;                (** [height] and [width]: [radius * 2] *)
  trackRadius : Q;            (** [r] of both circles: [normalizedRadius] *)
  centre : Q;                 (** [cx] and [cy]: [radius] *)
  ringColor : string;         (** [stroke={strokeColor}] *)
  dashArray : Q * Q;          (** [circumference + ' ' + circumference] *)
  dashOffset : Q;             (** [style={{ strokeDashoffset }}] *)
  scoreLabel : string;        (** [{score}] *)
  tierLabel : string;         (** [{tier}] *)
  tierClass : string          (** [colorClass] in the label's class list *)
}.

(** [<ScoreBadge score tier colorClass />] *)
Definition scoreBadge (score : Z) (tier colorClass : string) : BadgeView :=
  {| svgSize := radius * 2; trackRadius := normalizedRadius; centre := radius;
     ringColor := strokeColor score; dashArray := (circumference, circumference);
     dashOffset := strokeDashoffset score; scoreLabel := decimalOfZ score;
     tierLabel := tier; tierClass := colorClass |}.

(** ** MarketCard *)

(** [const daysToMaturity = Math.ceil((market.expiry.getTime() - new
    Date().getTime()) / (1000 * 60 * 60 * 24));], with its own clock
    reading [now]. *)
Definition cardDaysToMaturity (market : MarketData) (now : Z) : option Z :=
  match getTime (expiry market) with
  | Some t => Some (jsCeilDiv (t - now) MS_PER_DAY)
  | None => None
  end.

(** [const isPositiveSpread = market.underlyingAPY > market.impliedAPY;] *)
Definition isPositiveSpread (market : MarketData) : bool :=
  qltb (impliedAPY market) (underlyingAPY market).

(** [const displayTier = translations[language].tiers[scoring.tier];] *)
Definition displayTier (language : Language) (scoring : ScoringResult) : string :=
  tiers language (tier scoring).

(** [{isPositiveSpread ? '+' : ''}{(market.underlyingAPY - market.impliedAPY).toFixed(2)}%] *)
Definition spreadText (market : MarketData) : string :=
  ((if isPositiveSpread market then "+" else "") ++
   jsToFixed (underlyingAPY market - impliedAPY market) 2 ++ "%")%string.

(** [scoring.breakdown.trendFactor > 0 && <span>{t.risingTrend}</span>] *)
Definition showsRisingBadge (scoring : ScoringResult) : bool :=
  qltb 0 (trendFactor (breakdown scoring)).

(** [stroke={scoring.breakdown.trendFactor > 0 ? '#34d399' : '#ef4444'}] *)
Definition trendLineColor (scoring : ScoringResult) : string :=
  if qltb 0 (trendFactor (breakdown scoring)) then "#34d399"%string else "#ef4444"%string.

(** [scoring.score >= 60 ? 'border-emerald-500 ...' : 'border-slate-600 ...'] *)
Definition verdictHighlighted (scoring : ScoringResult) : bool := (60 <=? score scoring)%Z.

(** [String(n)] of a number that may be [NaN]; [None] where
    [jsNumberToString] does not model the text. *)
Definition numberText (n : option Q) : option string :=
  match n with
  | None => Some "NaN"%string
  | Some x => jsNumberToString x
  end.

(** [{market.leverage}x {t.leverage}] *)
Definition leverageBadge (market : MarketData) (language : Language) : option string :=
  option_map (fun s => s ++ "x " ++ cLeverage (cardStrings language))%string (numberText (leverage market)).

(** [({daysToMaturity} {t.daysLeft})] after the expiry date. *)
Definition daysLeftText (market : MarketData) (language : Language) (now : Z) : string :=
  ("(" ++ jsNumToString (cardDaysToMaturity market now) ++ " " ++ daysLeft (cardStrings language) ++ ")")%string.

(** [{market.impliedAPY.toFixed(2)}%] and [{market.underlyingAPY.toFixed(2)}%] *)
Definition apyText (apy : Q) : string := (jsToFixed apy 2 ++ "%")%string.

(** [market.historicalUnderlyingAPY.map((val, i) => ({ day: i, val }))] *)
Definition chartData (history : list Q) : list (nat * Q) := combine (seq 0 (List.length history)) history.

(** What [MarketCard] renders from its props, apart from the analysis
    fetched in its effect ([CardFetch]) and the locale-dependent expiry
    date. *)
Record CardView : Type := mkCardView {
  leverageLabel : option string;
  symbolLabel : string;
  protocolLabel : string;
  daysLabel : string;
  badge : BadgeView;
  impliedLabel : string;
  underlyingLabel : string;
  spreadLabel : string;
  spreadPositive : bool;
  chart : list (nat * Q);
  risingBadge : option string;
  lineColor : string;
  highlighted : bool;
  tradeHref : string;
  tradeLabel : string
}.

(** The render of [MarketCard] at clock reading [now]. *)
Definition cardView (market : MarketData) (scoring : ScoringResult) (language : Language)
    (now : Z) : CardView :=
  let t := cardStrings language in
  {| leverageLabel := leverageBadge market language;
     symbolLabel := symbol market; protocolLabel := protocol market;
     daysLabel := daysLeftText market language now;
     badge := scoreBadge (score scoring) (displayTier language scoring) (color scoring);
     impliedLabel := apyText (impliedAPY market); underlyingLabel := apyText (underlyingAPY market);
     spreadLabel := spreadText market; spreadPositive := isPositiveSpread market;
     chart := chartData (historicalUnderlyingAPY market);
     risingBadge := if showsRisingBadge scoring then Some (risingTrend t) else None;
     lineColor := trendLineColor scoring; highlighted := verdictHighlighted scoring;
     tradeHref := marketUrl market; tradeLabel := trade t |}.

(** ** Lemmas *)

(** The two analysis strings that differ only in the trend word differ. *)
Lemma analysisString_rising_inj (l : Language) (d : Q) (days : option Z) :
  analysisString l d true days <> analysisString l d false days.
Proof.
  unfold analysisString. intros H. repeat apply string_app_cancel_l in H.
  destruct l; discriminate H.
Qed.

Lemma result_tier (m : MarketData) (l : Language) (now : Z) :
  tier (calculateInvestmentScore m l now) = tierOf (score (calculateInvestmentScore m l now)).
Proof. rewrite calculateInvestmentScore_unfold. reflexivity. Qed.

Lemma spreadContribution_pos_iff (d : Q) : 0 < Spec.spreadContribution d <-> 0 < d.
Proof.
  unfold Spec.spreadContribution.
  destruct (Q.min_spec_le (d * 4) 30) as [[? ?]|[? ?]];
  destruct (Q.max_spec_le (d * 4) (-40)) as [[? ?]|[? ?]];
  js_cases; split; intros; lra.
Qed.

(** ** Theorems *)

(** C28 (ring colour).  Two scores get the same ring colour exactly when
    they get the same tier: the badge's own thresholds agree with the
    tier table, and the four colours are distinct. *)
Theorem strokeColor_encodes_tier (s s' : Z) :
  tierOf s = tierOf s' <-> strokeColor s = strokeColor s'.
Proof.
  unfold tierOf, determineTier, strokeColor.
  js_cases; cbn; split; intros Hc; first [reflexivity | discriminate Hc | lia].
Qed.

(** For scores in [[0, 100]] the dash offset lies
    between 0 and the circumference and shrinks as the score grows, so a
    higher score draws a longer arc. *)
Theorem strokeDashoffset_bounds (s s' : Z) :
  (0 <= s <= s')%Z -> (s' <= 100)%Z ->
  0 <= strokeDashoffset s' <= strokeDashoffset s /\ strokeDashoffset s <= circumference.
Proof.
  intros [H0 H1] H2.
  assert (A : 0 <= inject_Z s <= inject_Z s' /\ inject_Z s' <= 100).
  { rewrite <- !Zle_Qle. change 0 with (inject_Z 0). change 100 with (inject_Z 100).
    rewrite <- !Zle_Qle. lia. }
  unfold strokeDashoffset, circumference, normalizedRadius, radius, stroke, MATH_PI.
  change (inject_Z s / 100) with (inject_Z s * (1 # 100)).
  change (inject_Z s' / 100) with (inject_Z s' * (1 # 100)). lra.
Qed.

Lemma strokeDashoffset_bounds_witness :
  ((0 <= 71 <= 93)%Z /\ (93 <= 100)%Z) /\
  (0 <= strokeDashoffset 93 <= strokeDashoffset 71 /\ strokeDashoffset 71 <= circumference).
Proof. split; [lia | apply strokeDashoffset_bounds; lia]. Defined.

(** The card shows the "Rising Trend" badge (and a
    green trend line) exactly when the analysis string of the same result
    calls the trend rising. *)
Theorem rising_badge_matches_analysis (m : MarketData) (l : Language) (now : Z) :
  let r := calculateInvestmentScore m l now in
  (showsRisingBadge r = true <->
   analysis r = analysisString l (underlyingAPY m - impliedAPY m) true (daysToMaturityOf (expiry m) now)) /\
  (trendLineColor r = "#34d399"%string <-> showsRisingBadge r = true).
Proof.
  cbv zeta. rewrite result_analysis. unfold showsRisingBadge, trendLineColor.
  destruct (qltb 0 _); split; split; intros H; try reflexivity; try discriminate H.
  exfalso. exact (analysisString_rising_inj _ _ _ (eq_sym H)).
Qed.

(** The verdict box is highlighted exactly for
    the results of tier Strong Buy or Buy. *)
Theorem verdict_highlight_iff_buy (m : MarketData) (l : Language) (now : Z) :
  let r := calculateInvestmentScore m l now in
  verdictHighlighted r = true <-> (tier r = StrongBuy \/ tier r = Buy).
Proof.
  cbv zeta. rewrite result_tier. unfold verdictHighlighted, tierOf, determineTier.
  js_cases; cbn; split; intros Hc; auto; try discriminate Hc; try lia;
    destruct Hc as [Hc|Hc]; discriminate Hc.
Qed.

(** The card colours the spread green exactly when
    the scoring engine credits a positive spread factor. *)
Theorem positive_spread_matches_factor (m : MarketData) (l : Language) (now : Z) :
  isPositiveSpread m = true <-> 0 < spreadFactor (breakdown (calculateInvestmentScore m l now)).
Proof.
  destruct (result_factors m l now) as [_ [Hs _]]. rewrite Hs, spreadContribution_pos_iff.
  unfold isPositiveSpread. destruct (qltb_spec (impliedAPY m) (underlyingAPY m));
    split; intros; try reflexivity; try discriminate; lra.
Qed.

(** C33 (two clock readings).  The card computes its day count from a
    second reading of the clock, [delay] milliseconds (less than a day)
    after the one the score used: for every market with a valid expiry
    the card's count is one less than the score's exactly when a day
    boundary of the countdown falls between the two readings, that is when
    the remainder of [expiry - now] modulo a day is positive and at most
    [delay]; otherwise the two counts agree. *)
Theorem card_days_disagree_with_score (m : MarketData) (e now delay : Z) :
  expiry m = ValidDate e -> (0 <= delay < MS_PER_DAY)%Z ->
  exists d, daysToMaturityOf (expiry m) now = Some d /\
    cardDaysToMaturity m (now + delay) =
      Some (if (0 <? (e - now) mod MS_PER_DAY) && ((e - now) mod MS_PER_DAY <=? delay) then d - 1 else d)%Z.
Proof.
  intros He Hd. unfold daysToMaturityOf, cardDaysToMaturity. rewrite He. cbn [getTime].
  eexists; split; [reflexivity|]. f_equal.
  pose proof (Z.div_mod (e - now) MS_PER_DAY ltac:(discriminate)) as Dm.
  pose proof (Z.mod_pos_bound (e - now) MS_PER_DAY eq_refl) as Mb.
  set (q := ((e - now) / MS_PER_DAY)%Z) in *. set (r := ((e - now) mod MS_PER_DAY)%Z) in *.
  destruct (Z.ltb_spec 0 r), (Z.leb_spec r delay); cbn [andb];
    [ rewrite (jsCeilDiv_eq (e - now) _ (q + 1)), (jsCeilDiv_eq (e - (now + delay)) _ q)
    | rewrite (jsCeilDiv_eq (e - now) _ (q + 1)), (jsCeilDiv_eq (e - (now + delay)) _ (q + 1))
    | rewrite (jsCeilDiv_eq (e - now) _ q), (jsCeilDiv_eq (e - (now + delay)) _ q)
    | rewrite (jsCeilDiv_eq (e - now) _ q), (jsCeilDiv_eq (e - (now + delay)) _ q) ];
    unfold MS_PER_DAY in *; lia.
Qed.

(** A market expiring 29 days and 1 ms after the scoring instant is
    scored with 30 days (no maturity penalty), yet one millisecond later
    the card shows 29 days left. *)
Lemma card_days_disagree_with_score_witness :
  let m := mkMarketData "x" "" "" "" (ValidDate (29 * MS_PER_DAY + 1)) 10 12 [] "" "" (Some 1) in
  (expiry m = ValidDate (29 * MS_PER_DAY + 1) /\ (0 <= 1 < MS_PER_DAY)%Z) /\
  (daysToMaturityOf (expiry m) 0 = Some 30%Z /\
   maturityFactor (breakdown (calculateInvestmentScore m en 0)) == 5 /\
   cardDaysToMaturity m 1 = Some 29%Z) /\
  exists d, daysToMaturityOf (expiry m) 0 = Some d /\
    cardDaysToMaturity m (0 + 1) =
      Some (if (0 <? (29 * MS_PER_DAY + 1 - 0) mod MS_PER_DAY) && ((29 * MS_PER_DAY + 1 - 0) mod MS_PER_DAY <=? 1)
            then d - 1 else d)%Z.
Proof.
  intros m. assert (H : expiry m = ValidDate (29 * MS_PER_DAY + 1)) by reflexivity.
  assert (B : (0 <= 1 < MS_PER_DAY)%Z) by (unfold MS_PER_DAY; lia).
  split; [exact (conj H B)|]. split; [split; [|split]; vm_compute; reflexivity|].
  exact (card_days_disagree_with_score m _ 0 1 H B).
Defined.
