(* ===== verification/CardFetch.v ===== *)
(** * CardFetch: the analysis fetch of [src/components/MarketCard.tsx]

    Each card keeps two pieces of React state, [aiData] and [loadingAi].
    Its effect runs on mount and whenever [market], [scoring.score] or
    [language] change; each run sets [loadingAi] to true and starts a call
    of [getMarketAnalysis]; when a call resolves its continuation sets
    [aiData] to the result and [loadingAi] to false.  Nothing cancels or
    discards an earlier call, so calls started by successive runs are in
    flight together and resolve in any order.

    The model makes the interleaving explicit: the state lists the calls
    in flight in the order they started, an event is a run of the effect
    or the resolution of one call in flight ([cardStep], undefined for a
    call that is not in flight), and [runCard] replays a sequence of
    events.  What a call settles to is the section variable [resolve]
    ([Some data] when the promise fulfils, [None] when it rejects; the
    network decides which).  A rejected call ends [fetchAI] at its [await]
    with neither setter run.  [geminiResolve] instantiates [resolve] with
    [Gemini.getMarketAnalysis], whose promise never rejects.

    Theorems: when no call rejects, the loading flag is only set while a
    call is in flight (an invariant of every reachable state, by induction
    on the steps; a rejected call leaves the skeleton on for good);
    when calls resolve in the order they started, the card ends showing the
    result for its latest dependencies; with another order it can end
    showing a stale result, and the loading flag can be cleared while a
    call is still in flight. *)

From Stdlib Require Import QArith ZArith List String Lia.
From S2P Require Import Prelude Types Translations Gemini.
Import ListNotations.

(** The dependencies one run of the effect passes to [getMarketAnalysis]. *)
Record Request : Type := mkRequest {
  reqMarket : MarketData;
  reqScore : Z;
  reqLanguage : Language
}.

(** [aiData], [loadingAi] and the calls in flight, oldest first. *)
Record CardState : Type := mkCardState {
  aiData : option AnalysisResult;
  loadingAi : bool;
  inflight : list Request
}.

(** [useState<AnalysisResult | null>(null)], [useState(false)]. *)
Definition initialCard : CardState := {| aiData := None; loadingAi := false; inflight := [] |}.

(** What can happen next. *)
Inductive CardEvent : Type :=
| EffectRuns (req : Request)   (** the effect runs: [setLoadingAi(true)], a call starts *)
| CallResolves (i : nat).      (** the [i]-th call in flight resolves *)

(** The list without its [i]-th element. *)
Fixpoint removeAt {A : Type} (i : nat) (l : list A) : list A :=
  match i, l with
  | _, [] => []
  | O, _ :: t => t
  | S i', h :: t => h :: removeAt i' t
  end.

Section WithResolve.
Variable resolve : Request -> option AnalysisResult.

(** One step of the card: [fetchAI] up to its [await], or the code after
    the [await] of one call ([setAiData(data); setLoadingAi(false)]). *)
Definition cardStep (st : CardState) (ev : CardEvent) : option CardState :=
  match ev with
  | EffectRuns req =>
      Some {| aiData := aiData st; loadingAi := true; inflight := inflight st ++ [req] |}
  | CallResolves i =>
      match nth_error (inflight st) i with
      | None => None
      | Some req =>
          match resolve req with
          | Some data =>
              Some {| aiData := Some data; loadingAi := false;
                      inflight := removeAt i (inflight st) |}
          | None =>
              Some {| aiData := aiData st; loadingAi := loadingAi st;
                      inflight := removeAt i (inflight st) |}
          end
      end
  end.

(** A sequence of events from a state. *)
Fixpoint runCard (st : CardState) (evs : list CardEvent) : option CardState :=
  match evs with
  | [] => Some st
  | ev :: evs' =>
      match cardStep st ev with
      | None => None
      | Some st' => runCard st' evs'
      end
  end.

(** The states a card can reach. *)
Inductive reachable : CardState -> Prop :=
| reach_init : reachable initialCard
| reach_step st ev st' : reachable st -> cardStep st ev = Some st' -> reachable st'.

End WithResolve.

(** The calls of the card go to [getMarketAnalysis]: its promise fulfils
    with the [inr] value and rejects on an [inl] one.  The model's answer
    to each call is [outcomeOf]. *)
Definition geminiResolve (jsonParse : string -> option GeminiJson) (apiKey : option string)
    (outcomeOf : Request -> GenerateOutcome) (req : Request) : option AnalysisResult :=
  match getMarketAnalysis jsonParse apiKey (outcomeOf req)
          (reqMarket req) (reqScore req) (reqLanguage req) with
  | inr data => Some data
  | inl _ => None
  end.

(** The description line of the card: a skeleton ([None]) while loading,
    else [aiData?.description] ([Some None] renders nothing). *)
Definition descriptionShown (st : CardState) : option (option string) :=
  if loadingAi st then None else Some (option_map description (aiData st)).

(** The verdict line of the card: [t.generating] while loading, else
    [aiData?.aiVerdict] ([None] renders nothing). *)
Definition verdictShown (st : CardState) (language : Language) : option string :=
  if loadingAi st then Some (generating (cardStrings language)) else option_map aiVerdict (aiData st).

(** ** Lemmas *)

(** The card invariant: the loading flag is set only while a call is in flight. *)
Definition cardInv (st : CardState) : Prop := loadingAi st = true -> inflight st <> [].

Lemma runCard_app (resolve : Request -> option AnalysisResult) st evs1 evs2 :
  runCard resolve st (evs1 ++ evs2) =
  match runCard resolve st evs1 with Some st' => runCard resolve st' evs2 | None => None end.
Proof.
  revert st. induction evs1 as [|ev evs IH]; intros st; cbn; [reflexivity|].
  destruct (cardStep resolve st ev); [apply IH | reflexivity].
Qed.

Lemma runCard_reachable (resolve : Request -> option AnalysisResult) st evs st' :
  reachable resolve st -> runCard resolve st evs = Some st' -> reachable resolve st'.
Proof.
  revert st. induction evs as [|ev evs IH]; intros st Hr E; cbn in E.
  - now injection E as <-.
  - destruct (cardStep resolve st ev) as [s1|] eqn:Es; [|discriminate].
    exact (IH s1 (reach_step _ _ _ _ Hr Es) E).
Qed.

(** Running the effect for several dependencies in a row. *)
Lemma runCard_effects (resolve : Request -> option AnalysisResult) st r reqs :
  runCard resolve st (map EffectRuns (r :: reqs)) =
  Some {| aiData := aiData st; loadingAi := true; inflight := inflight st ++ r :: reqs |}.
Proof.
  revert st r. induction reqs as [|h t IH]; intros st r; [reflexivity|].
  change (map EffectRuns (r :: h :: t)) with (EffectRuns r :: map EffectRuns (h :: t)).
  cbn [runCard cardStep]. rewrite IH. cbn. now rewrite <- app_assoc.
Qed.

Section Invariant.
Variable resolve : Request -> option AnalysisResult.
Hypothesis resolve_fulfils : forall req, resolve req <> None.

Lemma cardStep_inv st ev st' : cardInv st -> cardStep resolve st ev = Some st' -> cardInv st'.
Proof.
  unfold cardInv. destruct ev as [req|i]; cbn; intros _ E.
  - injection E as <-. cbn. intros _ H. exact (app_cons_not_nil _ _ _ (eq_sym H)).
  - destruct (nth_error (inflight st) i) as [req|]; [|discriminate].
    destruct (resolve req) eqn:Er; [|exfalso; exact (resolve_fulfils req Er)].
    injection E as <-. discriminate.
Qed.

Lemma reachable_inv st : reachable resolve st -> cardInv st.
Proof.
  induction 1 as [|st ev st' _ IH E]; [discriminate|].
  exact (cardStep_inv st ev st' IH E).
Qed.

End Invariant.

(** Resolving the oldest call repeatedly, when the newest one fulfils. *)
Lemma runCard_resolve_oldest (resolve : Request -> option AnalysisResult) r d :
  resolve r = Some d ->
  forall rs a b,
  runCard resolve {| aiData := a; loadingAi := b; inflight := rs ++ [r] |}
    (repeat (CallResolves 0) (S (List.length rs)))
  = Some {| aiData := Some d; loadingAi := false; inflight := [] |}.
Proof.
  intros Hr rs. induction rs as [|h t IH]; intros a b.
  - cbn. now rewrite Hr.
  - change ((h :: t) ++ [r]) with (h :: (t ++ [r])).
    cbn [List.length repeat runCard cardStep inflight nth_error removeAt].
    destruct (resolve h); apply IH.
Qed.

Lemma geminiResolve_fulfils jsonParse apiKey outcomeOf req :
  geminiResolve jsonParse apiKey outcomeOf req <> None.
Proof.
  unfold geminiResolve. rewrite getMarketAnalysis_catch.
  destruct (analysisRequest _ _ _ _ _ _); discriminate.
Qed.

(** ** Theorems *)

Local Open Scope string_scope.

(** C34 (loading flag).  When no call of the card rejects (as for
    [getMarketAnalysis]), in every reachable state the skeleton is shown
    only while some call is in flight: [loadingAi] never stays on once all
    calls have settled. *)
Theorem loading_only_while_inflight (resolve : Request -> option AnalysisResult) (st : CardState) :
  (forall req, resolve req <> None) -> reachable resolve st ->
  loadingAi st = true -> inflight st <> [].
Proof. intros Hf Hr. exact (reachable_inv resolve Hf st Hr). Qed.

Lemma loading_only_while_inflight_witness :
  let req := mkRequest (mkMarketData "2" "Ethena USDe" "Ethena" "USDe" InvalidDate 25 15 [] "" "" (Some 8)) 5 en in
  let R := geminiResolve (fun _ => None) None (fun _ => GenerateThrows) in
  let st := {| aiData := None; loadingAi := true; inflight := [req] |} in
  (forall q, R q <> None) /\ reachable R st /\ loadingAi st = true /\ inflight st <> [].
Proof.
  cbv zeta. split; [intros q; apply geminiResolve_fulfils|].
  assert (Hr : reachable (geminiResolve (fun _ => None) None (fun _ => GenerateThrows))
     {| aiData := None; loadingAi := true;
        inflight := [mkRequest (mkMarketData "2" "Ethena USDe" "Ethena" "USDe" InvalidDate 25 15 [] "" "" (Some 8)) 5 en] |}).
  { apply (reach_step _ initialCard (EffectRuns (mkRequest (mkMarketData "2" "Ethena USDe" "Ethena" "USDe" InvalidDate 25 15 [] "" "" (Some 8)) 5 en))); [apply reach_init | reflexivity]. }
  split; [exact Hr|]. split; [reflexivity|].
  apply (loading_only_while_inflight _ _ (geminiResolve_fulfils _ _ _) Hr). reflexivity.
Defined.

(** C35 (in-order responses).  If the effect runs for dependencies
    [reqs ++ [r]] and the calls then resolve in the order they started,
    and the last call fulfils with [d], the card ends with [d] shown, the
    skeleton off and no call in flight, whatever the earlier calls did. *)
Theorem in_order_shows_latest (resolve : Request -> option AnalysisResult)
    (st0 : CardState) (reqs : list Request) (r : Request) (d : AnalysisResult) :
  inflight st0 = [] -> resolve r = Some d ->
  runCard resolve st0 (map EffectRuns (reqs ++ [r]) ++ repeat (CallResolves 0) (S (List.length reqs)))%list
  = Some {| aiData := Some d; loadingAi := false; inflight := [] |}.
Proof.
  intros H0 Hr. rewrite runCard_app.
  destruct reqs as [|q qs].
  - cbn. rewrite H0. cbn. now rewrite Hr.
  - rewrite <- app_comm_cons, runCard_effects, H0.
    change ([] ++ q :: qs ++ [r])%list with ((q :: qs) ++ [r])%list.
    exact (runCard_resolve_oldest resolve r d Hr (q :: qs) _ _).
Qed.

Lemma in_order_shows_latest_witness :
  let m := mkMarketData "2" "Ethena USDe" "Ethena" "USDe" InvalidDate 25 15 [] "" "" (Some 8) in
  let R := geminiResolve (fun _ => None) None (fun _ => GenerateThrows) in
  inflight initialCard = [] /\ R (mkRequest m 5 ko) = Some (getDefaultAnalysis m 5 ko) /\
  runCard R initialCard (map EffectRuns ([mkRequest m 5 en] ++ [mkRequest m 5 ko])%list
                          ++ repeat (CallResolves 0) 2)%list
  = Some {| aiData := Some (getDefaultAnalysis m 5 ko); loadingAi := false; inflight := [] |}.
Proof.
  cbv zeta. split; [reflexivity|]. split; [reflexivity|].
  apply in_order_shows_latest; reflexivity.
Defined.

(** C36 (stale response, spinner cleared early).  If the effect runs for
    [r1] and then for [r2] (a dependency changed, e.g. the language), the
    first call to settle clears the skeleton although the other is still in
    flight; and if the call for [r2] settles first, the card ends showing
    the result for the old dependencies [r1]: nothing discards the stale
    response. *)
Theorem stale_response_shown (resolve : Request -> option AnalysisResult)
    (r1 r2 : Request) (d1 d2 : AnalysisResult) :
  resolve r1 = Some d1 -> resolve r2 = Some d2 ->
  runCard resolve initialCard [EffectRuns r1; EffectRuns r2; CallResolves 0]
  = Some {| aiData := Some d1; loadingAi := false; inflight := [r2] |} /\
  runCard resolve initialCard [EffectRuns r1; EffectRuns r2; CallResolves 1; CallResolves 0]
  = Some {| aiData := Some d1; loadingAi := false; inflight := [] |}.
Proof. intros H1 H2. split; cbn; rewrite ?H1, ?H2; cbn; rewrite ?H1; reflexivity. Qed.

Lemma stale_response_shown_witness :
  let m := mkMarketData "2" "Ethena USDe" "Ethena" "USDe" InvalidDate 25 15 [] "" "" (Some 8) in
  let R := geminiResolve (fun _ => None) None (fun _ => GenerateThrows) in
  let d1 := getDefaultAnalysis m 5 en in
  let d2 := getDefaultAnalysis m 5 ko in
  (R (mkRequest m 5 en) = Some d1 /\ R (mkRequest m 5 ko) = Some d2) /\
  verdictShown {| aiData := Some d1; loadingAi := false; inflight := [] |} ko = Some (aiVerdict d1) /\
  aiVerdict d1 <> aiVerdict d2 /\
  runCard R initialCard [EffectRuns (mkRequest m 5 en); EffectRuns (mkRequest m 5 ko);
                         CallResolves 1; CallResolves 0]
  = Some {| aiData := Some d1; loadingAi := false; inflight := [] |}.
Proof.
  cbv zeta. split; [split; reflexivity|]. split; [reflexivity|]. split; [vm_compute; discriminate|].
  apply (stale_response_shown _ _ _ _ (getDefaultAnalysis (mkMarketData "2" "Ethena USDe" "Ethena" "USDe" InvalidDate 25 15 [] "" "" (Some 8)) 5 ko));
    reflexivity.
Defined.

