(* ===== verification/PendleApi.v ===== *)
(** * PendleApi: the market data provider of [src/services/pendleApi.ts]

    [fetchPendleMarkets()] asks the Pendle API for the active markets of
    each chain of [CHAINS] in parallel, maps each API record to a
    [MarketData] ([mapMarket]: APYs in percent, a leverage estimated from
    the time to maturity and clamped to [[1,50]], a synthetic seven-day
    history, fallbacks for protocol, symbol and image), keeps the records
    whose APYs are not negative and falls back to [MOCK_MARKETS] when none
    is left or when anything throws.

    As in [Gemini], the [try]/[catch] blocks are written in ExtLib's error
    monad.  The network is an argument: [responses chainId] says how the
    request of that chain ends.  [Date.now()] and the seven
    [Math.random()] draws made while mapping a record are the [Draws] of
    that record ([draws chainId i] for the [i]-th record of a chain).
    The API record keeps the fields the code reads; [m.name] and
    [m.address] are taken to be strings and the other fields strings or
    absent, as in the API's schema (a record violating it, for which
    [m.name.split] would throw, is not modelled).  [parseFloat] is modelled
    on the strings [toFixed] produces. *)

From Stdlib Require Import QArith Qabs Qround Qminmax Lqa ZArith Lia List String Ascii.
From ExtLib Require Import Structures.Monad Structures.MonadExc Data.Monads.EitherMonad.
From S2P Require Import Prelude JsNumber Types Translations Scoring MockData Gemini Presentation.
Import ListNotations MonadNotation.

Local Open Scope monad_scope.

(** ** Numbers and strings *)

(** [s.split(' ')[0]] *)
Fixpoint firstWord (s : string) : string :=
  match s with
  | EmptyString => EmptyString
  | String c r => if Ascii.eqb c " "%char then EmptyString else String c (firstWord r)
  end.

(** [s.replace(/^PT-/, '')] *)
Definition stripPT (s : string) : string :=
  match s with
  | String "P"%char (String "T"%char (String "-"%char r)) => r
  | _ => s
  end.

(** [(v || 0) * 100] on an APY field of the API. *)
Definition percentOf (v : option Q) : Q :=
  (match v with Some x => x | None => 0 end) * 100.

(** ** The API record and its mapping *)

(** The fields of one element of [data.results] that the mapping reads. *)
Record ApiMarket : Type := mkApiMarket {
  address : string;                   (** [m.address] *)
  apiName : string;                   (** [m.name] *)
  apiProtocol : option string;        (** [m.protocol] *)
  apiImpliedApy : option Q;           (** [m.impliedApy] *)
  apiUnderlyingApy : option Q;        (** [m.underlyingApy] *)
  apiExpiry : JsDate;                 (** [new Date(m.expiry)] *)
  ptSymbol : option string;           (** [m.pt?.symbol] *)
  accountingSymbol : option string;   (** [m.accountingAsset?.symbol] *)
  inputLogo : option string;          (** [m.inputToken?.logos?.[0]] *)
  underlyingLogo : option string;     (** [m.underlyingAsset?.logos?.[0]] *)
  accountingLogo : option string      (** [m.accountingAsset?.logos?.[0]] *)
}.

(** What the mapping of one record reads from the environment. *)
Record Draws : Type := mkDraws {
  nowMs : Z;          (** [Date.now()] *)
  randoms : list Q    (** the seven [Math.random()] values, in call order *)
}.

(** [estimatedLeverage]: [1 / yearsToMaturity] with the day count at
    least 1, then clamped to [[1,50]]; [NaN] for an invalid expiry. *)
Definition estimateLeverage (expiry : JsDate) (now : Z) : option Q :=
  match getTime expiry with
  | None => None
  | Some t =>
      let daysToMaturity := Qmax 1 (inject_Z (t - now) / inject_Z MS_PER_DAY) in
      let yearsToMaturity := daysToMaturity / 365 in
      let estimatedLeverage := 1 / yearsToMaturity in
      let estimatedLeverage := if qltb 50 estimatedLeverage then 50 else estimatedLeverage in
      let estimatedLeverage := if qltb estimatedLeverage 1 then 1 else estimatedLeverage in
      Some estimatedLeverage
  end.

(** [parseFloat(estimatedLeverage.toFixed(1))] ([NaN.toFixed(1)] is ["NaN"]). *)
Definition leverageField (lev : option Q) : option Q :=
  parseFloat (match lev with Some l => jsToFixed l 1 | None => "NaN"%string end).

(** [mockHistory]: seven values around [underlyingAPY] with a noise in
    [[-1,1)] and a bias of [0.1] per day, upward when the spread is positive. *)
Definition mockHistory (impliedAPY underlyingAPY : Q) (rs : list Q) : list Q :=
  map (fun i =>
         let noise := (nth i rs 0 - (1 # 2)) * 2 in
         let trendBias := if qltb 0 (underlyingAPY - impliedAPY) then 1 # 10 else - (1 # 10) in
         underlyingAPY + noise - inject_Z (3 - Z.of_nat i) * trendBias)
      (seq 0 7).

(** The callback of [(data.results || []).map(...)]. *)
Definition mapMarket (chainId : Z) (dr : Draws) (m : ApiMarket) : MarketData :=
  let impliedAPY := percentOf (apiImpliedApy m) in
  let underlyingAPY := percentOf (apiUnderlyingApy m) in
  let protocolName := orElse (apiProtocol m) (orElse (Some (firstWord (apiName m))) "Unknown") in
  let sym := orElse (option_map stripPT (ptSymbol m)) (orElse (accountingSymbol m) (apiName m)) in
  let url := ("https://app.pendle.finance/trade/markets/" ++ address m
              ++ "/swap?view=yt&chain=" ++ decimalOfZ chainId)%string in
  let img := orElse (inputLogo m) (orElse (underlyingLogo m) (orElse (accountingLogo m)
               "https://cryptologos.cc/logos/ethereum-eth-logo.png")) in
  {| id := address m; name := apiName m; protocol := protocolName; symbol := sym;
     expiry := apiExpiry m; impliedAPY := impliedAPY; underlyingAPY := underlyingAPY;
     historicalUnderlyingAPY := mockHistory impliedAPY underlyingAPY (randoms dr);
     imageUrl := img; marketUrl := url;
     leverage := leverageField (estimateLeverage (apiExpiry m) (nowMs dr)) |}.

(** [Array.prototype.map] with the position of each element. *)
Fixpoint mapIdx {A B : Type} (f : nat -> A -> B) (i : nat) (l : list A) : list B :=
  match l with
  | [] => []
  | x :: t => f i x :: mapIdx f (S i) t
  end.

(** ** The requests *)

(** [// Chain IDs: 1 = Ethereum, 42161 = Arbitrum] *)
Definition CHAINS : list Z := [1; 42161]%Z.

(** How the request of one chain ends. *)
Inductive ChainResponse : Type :=
| FetchRejects                              (** [await fetch(...)] throws *)
| NotOk                                     (** [!response.ok] *)
| JsonRejects                               (** [await response.json()] throws *)
| Body (results : option (list ApiMarket)). (** [data.results], possibly absent *)

(** The exceptions of the inner [try] block. *)
Inductive FetchError : Type :=
| NetworkError
| JsonError.

(** The inner [try] block for one chain. *)
Definition chainRequest (chainId : Z) (draws : nat -> Draws) (resp : ChainResponse)
    : sum FetchError (list MarketData) :=
  match resp with
  | FetchRejects => raise NetworkError
  | NotOk => ret []
  | JsonRejects => raise JsonError
  | Body results =>
      ret (mapIdx (fun i m => mapMarket chainId (draws i) m) 0
             (match results with Some l => l | None => [] end))
  end.

(** The async callback of [CHAINS.map]: the inner [catch] returns [[]]. *)
Definition chainMarkets (chainId : Z) (draws : nat -> Draws) (resp : ChainResponse)
    : sum FetchError (list MarketData) :=
  catch (chainRequest chainId draws resp) (fun _ => ret []).

(** [Promise.all]: the values in the order of the promises, or the first rejection. *)
Fixpoint promiseAll {E A : Type} (ps : list (sum E A)) : sum E (list A) :=
  match ps with
  | [] => ret []
  | p :: ps' => x <- p ;; xs <- promiseAll ps' ;; ret (x :: xs)
  end.

(** [m.impliedAPY >= 0 && m.underlyingAPY >= 0] *)
Definition isValidMarket (m : MarketData) : bool :=
  qleb 0 (impliedAPY m) && qleb 0 (underlyingAPY m).

(** The outer [try] block. *)
Definition fetchRequest (created : Z) (responses : Z -> ChainResponse)
    (draws : Z -> nat -> Draws) : sum FetchError (list MarketData) :=
  results <- promiseAll (map (fun c => chainMarkets c (draws c) (responses c)) CHAINS) ;;
  let allMarkets := List.concat results in
  let validMarkets := filter isValidMarket allMarkets in
  ret (if (0 <? Z.of_nat (List.length validMarkets))%Z then validMarkets else MOCK_MARKETS created).

(** [fetchPendleMarkets()]; [created] is the instant [mockData.ts] was loaded. *)
Definition fetchPendleMarkets (created : Z) (responses : Z -> ChainResponse)
    (draws : Z -> nat -> Draws) : sum FetchError (list MarketData) :=
  catch (fetchRequest created responses draws) (fun _ => ret (MOCK_MARKETS created)).

(** What one chain contributes when its request fulfils. *)
Definition chainList (chainId : Z) (draws : nat -> Draws) (resp : ChainResponse) : list MarketData :=
  match resp with
  | Body results =>
      mapIdx (fun i m => mapMarket chainId (draws i) m) 0
        (match results with Some l => l | None => [] end)
  | _ => []
  end.

(** ** Lemmas *)

(** The inner [catch] makes every chain's promise fulfil. *)
Lemma chainMarkets_value (c : Z) (d : nat -> Draws) (resp : ChainResponse) :
  chainMarkets c d resp = inr (chainList c d resp).
Proof. destruct resp; reflexivity. Qed.

(** [fetchPendleMarkets]: the valid markets of both chains, in chain
    order, or the mock list when there is none. *)
Lemma fetchPendleMarkets_value (created : Z) (responses : Z -> ChainResponse)
    (draws : Z -> nat -> Draws) :
  fetchPendleMarkets created responses draws =
  inr (let validMarkets := filter isValidMarket
                             (chainList 1 (draws 1%Z) (responses 1%Z) ++
                              chainList 42161 (draws 42161%Z) (responses 42161%Z)) in
       if (0 <? Z.of_nat (List.length validMarkets))%Z then validMarkets else MOCK_MARKETS created).
Proof.
  unfold fetchPendleMarkets, fetchRequest. cbn [CHAINS map promiseAll].
  rewrite !chainMarkets_value. cbn. now rewrite app_nil_r.
Qed.

Lemma mock_markets_valid (created : Z) : Forall (fun m => isValidMarket m = true) (MOCK_MARKETS created).
Proof. repeat constructor. Qed.

Lemma estimateLeverage_bounds (e : JsDate) (now t : Z) :
  getTime e = Some t -> exists l, estimateLeverage e now = Some l /\ 1 <= l <= 50.
Proof. intros H. unfold estimateLeverage. rewrite H. eexists; split; [reflexivity|]. js_cases; lra. Qed.

(** The integer part of a number between two integers. *)
Lemma Qfloor_between (y : Q) (a b : Z) :
  inject_Z a <= y -> y < inject_Z (b + 1) -> (a <= Qfloor y <= b)%Z.
Proof.
  intros Ha Hb. split.
  - rewrite <- (Qfloor_Z a). now apply Qfloor_resp_le.
  - pose proof (Qfloor_le y) as L. assert (inject_Z (Qfloor y) < inject_Z (b + 1)) as M by lra.
    rewrite <- Zlt_Qlt in M. lia.
Qed.

(** [parseFloat(l.toFixed(1))] of a clamped estimate: a number of tenths
    between 1 and 50. *)
Lemma leverageField_tenths (l0 : Q) :
  1 <= l0 <= 50 ->
  exists l n, leverageField (Some l0) = Some l /\ l == inject_Z n / 10 /\ (10 <= n <= 500)%Z.
Proof.
  intros B. unfold leverageField. destruct (jsToFixed_parse_value l0 1) as (v & Hv & Ev).
  exists v, (Qfloor (Qabs l0 * inject_Z (10 ^ Z.of_nat 1) + (1 # 2))). split; [exact Hv|].
  rewrite (Qabs_pos l0) in * by lra. change (inject_Z (10 ^ Z.of_nat 1)) with 10 in *. split.
  - rewrite Ev. destruct (qltb_spec l0 0); [lra|]. ring.
  - apply Qfloor_between; [change (inject_Z 10) with 10 | change (inject_Z (500 + 1)) with 501]; lra.
Qed.

(** The two clamps of [estimateLeverage] as [Math.max(1, Math.min(50, e))]. *)
Lemma clamp_qminmax (e : Q) :
  (if qltb (if qltb 50 e then 50 else e) 1 then 1 else if qltb 50 e then 50 else e) == Qmax 1 (Qmin 50 e).
Proof.
  unfold Qmax, Qmin, GenericMinMax.gmax, GenericMinMax.gmin.
  destruct (Qcompare_spec 50 e); cbv iota;
  match goal with |- context [Qcompare ?a ?b] => destruct (Qcompare_spec a b) end;
  destruct (qltb_spec 50 e); js_cases; lra.
Qed.

(** [estimateLeverage] in closed form: [365] over the day count, clamped to [[1,50]]. *)
Lemma estimateLeverage_value (e : JsDate) (now t : Z) :
  getTime e = Some t ->
  exists l, estimateLeverage e now = Some l /\
    l == Qmax 1 (Qmin 50 (365 / Qmax 1 (inject_Z (t - now) / inject_Z MS_PER_DAY))).
Proof.
  intros H. unfold estimateLeverage. rewrite H. eexists; split; [reflexivity|].
  set (d := Qmax 1 _). assert (Hd : 1 <= d) by apply Q.le_max_l.
  assert (E : 1 / (d / 365) == 365 / d) by (field; lra).
  cbv zeta. rewrite clamp_qminmax, E. reflexivity.
Qed.

(** A response that carries no API record. *)
Definition yieldsNoRecord (resp : ChainResponse) : bool :=
  match resp with
  | Body (Some (_ :: _)) => false
  | _ => true
  end.

Lemma chainList_empty (c : Z) (d : nat -> Draws) (resp : ChainResponse) :
  yieldsNoRecord resp = true -> chainList c d resp = [].
Proof. destruct resp as [| | |[[|]|]]; cbn; congruence. Qed.

(** ** Theorems *)

(** C13 (provider result).  [fetchPendleMarkets] always resolves, to a
    non-empty list in which every market has non-negative APYs, whatever
    the network does. *)
Theorem fetch_result_nonempty_valid (created : Z) (responses : Z -> ChainResponse)
    (draws : Z -> nat -> Draws) :
  exists r, fetchPendleMarkets created responses draws = inr r /\ r <> [] /\
            Forall (fun m => isValidMarket m = true) r.
Proof.
  rewrite fetchPendleMarkets_value. cbv zeta. eexists; split; [reflexivity|].
  set (valid := filter isValidMarket _).
  destruct (Z.ltb_spec 0 (Z.of_nat (List.length valid))) as [Hl|_].
  - split; [intros E; rewrite E in Hl; cbn in Hl; lia|].
    apply Forall_forall. intros m Hm. exact (proj2 (proj1 (filter_In _ _ _) Hm)).
  - split; [discriminate | apply mock_markets_valid].
Qed.

(** C27 (mock fallback).  When no chain returns an API record (the
    request throws, answers with an error status, has unreadable JSON or
    no [results]), the provider returns [MOCK_MARKETS]. *)
Theorem all_chains_fail_gives_mock (created : Z) (responses : Z -> ChainResponse)
    (draws : Z -> nat -> Draws) :
  (forall c, In c CHAINS -> yieldsNoRecord (responses c) = true) ->
  fetchPendleMarkets created responses draws = inr (MOCK_MARKETS created).
Proof.
  intros H. rewrite fetchPendleMarkets_value.
  rewrite !chainList_empty by (apply H; cbn; auto). reflexivity.
Qed.

Lemma all_chains_fail_gives_mock_witness :
  let responses := fun c : Z => if Z.eqb c 1 then FetchRejects else Body None in
  (forall c, In c CHAINS -> yieldsNoRecord (responses c) = true) /\
  fetchPendleMarkets 0 responses (fun _ _ => mkDraws 0 []) = inr (MOCK_MARKETS 0).
Proof.
  cbv zeta. assert (H : forall c, In c CHAINS -> yieldsNoRecord (if Z.eqb c 1 then FetchRejects else Body None) = true).
  { intros c _. destruct (Z.eqb c 1); reflexivity. }
  split; [exact H | exact (all_chains_fail_gives_mock 0 _ _ H)].
Defined.

Local Open Scope string_scope.

(** C30 (leverage).  A market with a valid expiry gets a leverage with
    one decimal between 1 and 50 ([parseFloat(l.toFixed(1))] of the
    clamped estimate): the clamp is to 50, not the 100 of the comment. *)
Theorem leverage_bounds (chainId : Z) (dr : Draws) (m : ApiMarket) (t : Z) :
  getTime (apiExpiry m) = Some t ->
  exists l n, leverage (mapMarket chainId dr m) = Some l /\ l == inject_Z n / 10 /\ (10 <= n <= 500)%Z.
Proof.
  intros H. unfold mapMarket. cbn [leverage].
  destruct (estimateLeverage_bounds _ (nowMs dr) _ H) as (l0 & E & B). rewrite E.
  exact (leverageField_tenths l0 B).
Qed.

Lemma leverage_bounds_witness :
  let m := mkApiMarket "0xabc" "eETH 26DEC2024" None (Some (125 # 1000)) (Some (182 # 1000))
             (ValidDate (30 * MS_PER_DAY)) (Some "PT-eETH") None None None None in
  getTime (apiExpiry m) = Some (30 * MS_PER_DAY)%Z /\
  exists l n, leverage (mapMarket 1 (mkDraws 0 []) m) = Some l /\ l == inject_Z n / 10 /\ (10 <= n <= 500)%Z.
Proof. cbv zeta. split; [reflexivity|]. apply (leverage_bounds _ _ _ (30 * MS_PER_DAY)). reflexivity. Defined.

(** C29 (leverage value).  For an API record with a valid expiry, the
    market's leverage is the code's estimate [365 / max(1, days to
    maturity)], clamped to [[1,50]], rounded half up to one decimal (the
    value [parseFloat(estimate.toFixed(1))] reads back). *)
Theorem leverage_rounds_estimate (chainId : Z) (dr : Draws) (m : ApiMarket) (t : Z) :
  getTime (apiExpiry m) = Some t ->
  exists l, leverage (mapMarket chainId dr m) = Some l /\
    l == inject_Z (Qfloor (10 * Qmax 1 (Qmin 50 (365 / Qmax 1 (inject_Z (t - nowMs dr) / inject_Z MS_PER_DAY)))
                           + (1 # 2))) / 10.
Proof.
  intros H. unfold mapMarket. cbn [leverage].
  destruct (estimateLeverage_value _ (nowMs dr) _ H) as (l0 & E & V).
  destruct (estimateLeverage_bounds _ (nowMs dr) _ H) as (l1 & E1 & B). rewrite E in E1. injection E1 as <-.
  rewrite E. unfold leverageField. destruct (jsToFixed_parse_value l0 1) as (v & Hv & Ev).
  exists v. split; [exact Hv|]. rewrite Ev. destruct (qltb_spec l0 0); [lra|].
  rewrite Qabs_pos by lra. change (inject_Z (10 ^ Z.of_nat 1)) with 10.
  rewrite <- V, (Qmult_comm 10 l0). ring.
Qed.

Lemma leverage_rounds_estimate_witness :
  let m := mkApiMarket "0xabc" "eETH 26DEC2024" None (Some (125 # 1000)) (Some (182 # 1000))
             (ValidDate (30 * MS_PER_DAY)) (Some "PT-eETH") None None None None in
  getTime (apiExpiry m) = Some (30 * MS_PER_DAY)%Z /\
  leverage (mapMarket 1 (mkDraws 0 []) m) = Some (122 # 10) /\
  exists l, leverage (mapMarket 1 (mkDraws 0 []) m) = Some l /\
    l == inject_Z (Qfloor (10 * Qmax 1 (Qmin 50 (365 / Qmax 1 (inject_Z (30 * MS_PER_DAY - nowMs (mkDraws 0 []))
                                                             / inject_Z MS_PER_DAY))) + (1 # 2))) / 10.
Proof.
  intros m. split; [reflexivity|]. split; [vm_compute; reflexivity|].
  exact (leverage_rounds_estimate 1 (mkDraws 0 []) m (30 * MS_PER_DAY) eq_refl).
Defined.

(** C31 (invalid expiry kept).  An API record whose expiry does not parse
    but whose APYs are not negative passes the validity filter: the
    provider returns it with an invalid expiry and a [NaN] leverage. *)
Theorem invalid_expiry_kept_with_nan_leverage (created : Z) (responses : Z -> ChainResponse)
    (draws : Z -> nat -> Draws) (m : ApiMarket) (rest : list ApiMarket) :
  apiExpiry m = InvalidDate -> responses 1%Z = Body (Some (m :: rest)) ->
  0 <= percentOf (apiImpliedApy m) -> 0 <= percentOf (apiUnderlyingApy m) ->
  let mk := mapMarket 1 (draws 1%Z 0%nat) m in
  exists r, fetchPendleMarkets created responses draws = inr r /\ In mk r /\
            getTime (expiry mk) = None /\ leverage mk = None /\
            leverageBadge mk en = Some "NaNx Leverage".
Proof.
  intros He Hr Hi Hu mk. rewrite fetchPendleMarkets_value. cbv zeta. rewrite Hr.
  assert (Hv : isValidMarket mk = true).
  { unfold isValidMarket, mk, mapMarket. cbn [impliedAPY underlyingAPY].
    js_cases; first [reflexivity | lra]. }
  cbn [chainList mapIdx app filter]. fold mk. rewrite Hv.
  eexists; split; [reflexivity|]. cbn [List.length]. rewrite Nat2Z.inj_succ.
  match goal with |- context [(0 <? Z.succ ?k)%Z] => destruct (Z.ltb_spec 0 (Z.succ k)) as [_|C]; [|lia] end.
  split; [left; reflexivity|].
  assert (Hl : leverage mk = None) by (unfold mk, mapMarket; cbn [leverage]; now rewrite He).
  split; [unfold mk, mapMarket; cbn [expiry]; now rewrite He|]. split; [exact Hl|].
  unfold leverageBadge, numberText. now rewrite Hl.
Qed.

Lemma invalid_expiry_kept_with_nan_leverage_witness :
  let m := mkApiMarket "0xdef" "USDe 27MAR2025" (Some "Ethena") (Some (25 # 100)) (Some (15 # 100))
             InvalidDate None (Some "USDe") None None None in
  let responses := fun c : Z => if Z.eqb c 1 then Body (Some [m]) else NotOk in
  let draws := fun (_ : Z) (_ : nat) => mkDraws 0 [] in
  (apiExpiry m = InvalidDate /\ responses 1%Z = Body (Some [m]) /\
   0 <= percentOf (apiImpliedApy m) /\ 0 <= percentOf (apiUnderlyingApy m)) /\
  let mk := mapMarket 1 (draws 1%Z 0%nat) m in
  exists r, fetchPendleMarkets 0 responses draws = inr r /\ In mk r /\
            getTime (expiry mk) = None /\ leverage mk = None /\
            leverageBadge mk en = Some "NaNx Leverage".
Proof.
  intros m responses draws.
  assert (Hi : 0 <= percentOf (apiImpliedApy m)) by (apply Qle_bool_imp_le; reflexivity).
  assert (Hu : 0 <= percentOf (apiUnderlyingApy m)) by (apply Qle_bool_imp_le; reflexivity).
  split; [exact (conj eq_refl (conj eq_refl (conj Hi Hu)))|].
  exact (invalid_expiry_kept_with_nan_leverage 0 responses draws m [] eq_refl eq_refl Hi Hu).
Defined.

(** C32 (synthetic trend).  The history of a fetched market is made up:
    its trend factor is decided by the first and the last of the seven
    [Math.random()] draws, against a threshold of [0.3] set by the sign of
    the spread, so the same API data can score 30 points apart. *)
Theorem synthetic_trend_follows_random (chainId : Z) (dr : Draws) (m : ApiMarket)
    (l : Language) (now : Z) :
  let u := percentOf (apiUnderlyingApy m) in
  let i := percentOf (apiImpliedApy m) in
  let t := if qltb 0 (u - i) then - (3 # 10) else 3 # 10 in
  let d := nth 6 (randoms dr) 0 - nth 0 (randoms dr) 0 in
  trendFactor (breakdown (calculateInvestmentScore (mapMarket chainId dr m) l now))
  == (if qltb t d then 20 else if qltb d t then -10 else 0).
Proof.
  cbv zeta. destruct (result_factors (mapMarket chainId dr m) l now) as (_ & _ & T & _).
  rewrite T. unfold mapMarket. cbn [historicalUnderlyingAPY]. unfold mockHistory.
  cbn [seq map Spec.trendContribution last].
  repeat match goal with
  | |- context [inject_Z (3 - Z.of_nat ?k)] =>
      let v := eval vm_compute in (inject_Z (3 - Z.of_nat k)) in change (inject_Z (3 - Z.of_nat k)) with v
  end.
  destruct (qltb_spec 0 (percentOf (apiUnderlyingApy m) - percentOf (apiImpliedApy m)));
    js_cases; first [reflexivity | lra].
Qed.

