(* ===== verification/AppState.v ===== *)
(** * AppState: the selections of [src/App.tsx] as a state machine

    [App] keeps three pieces of state ([sortOrder], [filterTier],
    [language]); each control sets one of them.  React skips the render
    when the new value is the old one ([Object.is]); otherwise [App]
    renders again and [useMemo] compares the values of its dependency list
    [[sortOrder, filterTier, language]] with those of its last
    computation: when one differs it recomputes [processedMarkets], every
    element of the new array a fresh object [{...market, scoring}], and
    otherwise it returns the memoised array.  Each element is passed as the [market]
    prop of a [MarketCard] keyed by [item.id]; the card's effect runs on
    mount and whenever [market] (compared by identity), [scoring.score] or
    [language] changed, and each run is a call of [getMarketAnalysis]
    ([CardFetch]).

    The state records the selections, the memoised array with the
    identity of each object ([Item]), the dependency values of its last
    computation and the next fresh identity; a step
    ([appStep]) returns the new state and the requests the cards' effects
    start, in the order React runs them.  The clock readings of a
    recomputation are an argument, as in [Collection].  [appView] is
    what [App] renders in a state: header texts, filter buttons, the
    heading count, the score guide, the sort labels, and the grid of cards
    or the empty state with its clear-filters button. *)

From Stdlib Require Import QArith ZArith List String Lia Bool Permutation.
From S2P Require Import Prelude Types Translations Engine Scoring Collection MockData CardFetch.
Import ListNotations.

(** An element of the memoised array: a JavaScript object and its identity. *)
Record Item : Type := mkItem {
  objId : nat;
  item : ScoredMarket
}.

(** A dependency of the [useMemo] of [processedMarkets]: a piece of
    state it names. *)
Inductive MemoDep : Type :=
| DepSortOrder
| DepFilterTier
| DepLanguage.

(** The value a dependency has in a render. *)
Inductive DepValue : Type :=
| SortValue (s : SortOption)
| FilterValue (f : FilterOption)
| LanguageValue (l : Language).

(** The state of [App] and of its memo: the memoised array and the
    dependency values of its last computation. *)
Record AppState : Type := mkAppState {
  sortOrder : SortOption;
  filterTier : FilterOption;
  language : Language;
  rendered : list Item;
  nextObj : nat;
  memoDeps : list DepValue
}.

(** The controls of [App]. *)
Inductive AppEvent : Type :=
| SelectSort (s : SortOption)      (** the sort [<select>]: [setSortOrder] *)
| SelectFilter (f : FilterOption)  (** a filter button or "clear filters": [setFilterTier] *)
| ToggleLanguage.                  (** the language button: [toggleLanguage] *)

Definition sortOption_eqb (a b : SortOption) : bool :=
  match a, b with
  | scoreDesc, scoreDesc | scoreAsc, scoreAsc => true
  | _, _ => false
  end.

Definition filterOption_eqb (a b : FilterOption) : bool :=
  match a, b with
  | FilterAll, FilterAll => true
  | FilterTier t, FilterTier t' => tier_eqb t t'
  | _, _ => false
  end.

Definition language_eqb (a b : Language) : bool :=
  if language_eq_dec a b then true else false.

(** [[sortOrder, filterTier, language]], the dependency list of the [useMemo]. *)
Definition processedMarketsDeps : list MemoDep := [DepSortOrder; DepFilterTier; DepLanguage].

(** The value of a dependency for the selections of a render. *)
Definition depValue (so : SortOption) (ft : FilterOption) (l : Language) (d : MemoDep) : DepValue :=
  match d with
  | DepSortOrder => SortValue so
  | DepFilterTier => FilterValue ft
  | DepLanguage => LanguageValue l
  end.

(** [Object.is] on two dependency values (strings in the code). *)
Definition depValue_eqb (a b : DepValue) : bool :=
  match a, b with
  | SortValue s, SortValue s' => sortOption_eqb s s'
  | FilterValue f, FilterValue f' => filterOption_eqb f f'
  | LanguageValue l, LanguageValue l' => language_eqb l l'
  | _, _ => false
  end.

(** React's [areHookInputsEqual]: [Object.is] on each dependency in order,
    over the shorter of the two lists. *)
Fixpoint depsEqual (next prev : list DepValue) : bool :=
  match next, prev with
  | x :: next', y :: prev' => depValue_eqb x y && depsEqual next' prev'
  | _, _ => true
  end.

(** [setLanguage(prev => prev === 'en' ? 'ko' : 'en')] *)
Definition toggleLanguage (l : Language) : Language :=
  match l with
  | en => ko
  | ko => en
  end.

(** Fresh objects for the elements of a new array, numbered from [n]. *)
Fixpoint allocate (n : nat) (xs : list ScoredMarket) : list Item :=
  match xs with
  | [] => []
  | x :: xs' => mkItem n x :: allocate (S n) xs'
  end.

(** A render that recomputes the memo for the given selections. *)
Definition recompute (created : Z) (clock : nat -> Z) (n : nat)
    (so : SortOption) (ft : FilterOption) (l : Language) : AppState :=
  let xs := appProcessedMarkets created clock so ft l in
  {| sortOrder := so; filterTier := ft; language := l;
     rendered := allocate n xs; nextObj := n + List.length xs;
     memoDeps := map (depValue so ft l) processedMarketsDeps |}.

(** The first render: [useState('scoreDesc')], [useState('All')], [useState('en')]. *)
Definition initialApp (created : Z) (clock : nat -> Z) : AppState :=
  recompute created clock 0 scoreDesc FilterAll en.

(** [key={item.id}] *)
Definition cardKey (it : Item) : string := id (market (item it)).

(** The request of one card's effect. *)
Definition toRequest (l : Language) (it : Item) : Request :=
  mkRequest (market (item it)) (score (scoring (item it))) l.

(** The effects that run after a render: a card whose key is new mounts;
    a kept card re-runs when [market], [scoring.score] or [language]
    changed. *)
Definition effectsOf (old : list Item) (oldLang : Language) (new : list Item) (newLang : Language)
    : list Request :=
  flat_map (fun it =>
    match find (fun o => String.eqb (cardKey o) (cardKey it)) old with
    | Some o =>
        if Nat.eqb (objId o) (objId it) && Z.eqb (score (scoring (item o))) (score (scoring (item it)))
           && language_eqb oldLang newLang
        then [] else [toRequest newLang it]
    | None => [toRequest newLang it]
    end) new.

(** One event: the new selections; no render when the value is unchanged.
    A render recomputes the memo when a dependency changed and otherwise
    keeps the memoised array and its objects. *)
Definition appStep (created : Z) (clock : nat -> Z) (st : AppState) (ev : AppEvent)
    : AppState * list Request :=
  let '(so, ft, l, same) :=
    match ev with
    | SelectSort s => (s, filterTier st, language st, sortOption_eqb s (sortOrder st))
    | SelectFilter f => (sortOrder st, f, language st, filterOption_eqb f (filterTier st))
    | ToggleLanguage => (sortOrder st, filterTier st, toggleLanguage (language st), false)
    end in
  if same then (st, [])
  else
    let st' :=
      if depsEqual (map (depValue so ft l) processedMarketsDeps) (memoDeps st)
      then {| sortOrder := so; filterTier := ft; language := l; rendered := rendered st;
              nextObj := nextObj st; memoDeps := memoDeps st |}
      else recompute created clock (nextObj st) so ft l in
    (st', effectsOf (rendered st) (language st) (rendered st') l).

(** The states [App] reaches from its first render. *)
Inductive appReachable (created : Z) : AppState -> Prop :=
| app_init clock : appReachable created (initialApp created clock)
| app_step st clock ev : appReachable created st -> appReachable created (fst (appStep created clock st ev)).

(** ** The page *)

(** A filter button: its label, the filter it selects, whether it is highlighted. *)
Record FilterButton : Type := mkFilterButton {
  fbLabel : string;
  fbTarget : FilterOption;
  fbActive : bool
}.

(** The [All] button and [(['Strong Buy', 'Buy', 'Hold', 'Avoid'] as const).map(...)]. *)
Definition filterButtons (language : Language) (ft : FilterOption) : list FilterButton :=
  mkFilterButton (filterAll (controlStrings language)) FilterAll (filterOption_eqb FilterAll ft) ::
  map (fun t => mkFilterButton (tiers language t) (FilterTier t) (filterOption_eqb (FilterTier t) ft))
      [StrongBuy; Buy; Hold; Avoid].

(** [{language === 'en' ? '🇺🇸 EN' : '🇰🇷 KO'}] *)
Definition languageLabel (language : Language) : string :=
  match language with
  | en => "🇺🇸 EN"
  | ko => "🇰🇷 KO"
  end.

(** A box of the score guide: ["80 - 100 (Strong Buy)"] and its description. *)
Definition guideBox (language : Language) (lo hi : Z) (t : Tier) (desc : string) : string * string :=
  ((decimalOfZ lo ++ " - " ++ decimalOfZ hi ++ " (" ++ tiers language t ++ ")")%string, desc).

(** The market grid, or the empty state with its "clear filters" button
    (its label and the filter its [onClick] selects). *)
Inductive GridView : Type :=
| Grid (cards : list Item)
| EmptyGrid (message clearLabel : string) (clearTarget : FilterOption).

(** [processedMarkets.length > 0 ? (grid) : (empty state)]; the button's
    [onClick] is [() => setFilterTier('All')]. *)
Definition gridView (st : AppState) : GridView :=
  match rendered st with
  | [] => EmptyGrid (noMarkets (controlStrings (language st))) (clearFilters (controlStrings (language st)))
            FilterAll
  | cards => Grid cards
  end.

(** What [App] renders from its state. *)
Record AppView : Type := mkAppView {
  titleText : string;
  officialLink : string;
  languageButton : string;
  criteriaTitle : string;
  criteriaDesc : string;
  criteriaItems : list string;
  guideBoxes : list (string * string);
  heading : string;
  buttons : list FilterButton;
  sortValue : SortOption;
  sortLabels : string * string;
  grid : GridView;
  disclaimerText : string
}.

(** The render of [App] ([const t = translations[language]]). *)
Definition appView (st : AppState) : AppView :=
  let l := language st in
  let h := headerStrings l in
  let c := controlStrings l in
  let d := tierDescs l in
  {| titleText := appTitle h; officialLink := officialApp h; languageButton := languageLabel l;
     criteriaTitle := scoreCriteriaTitle h; criteriaDesc := scoreCriteriaDesc h;
     criteriaItems := criteria l;
     guideBoxes := [guideBox l 80 100 StrongBuy (strongBuy d); guideBox l 60 79 Buy (buy d);
                    guideBox l 0 59 Avoid (avoid d)];
     heading := (activeOpp c ++ " (" ++ decimalOfZ (Z.of_nat (List.length (rendered st))) ++ ")")%string;
     buttons := filterButtons l (filterTier st);
     sortValue := sortOrder st; sortLabels := (sortHigh c, sortLow c);
     grid := gridView st; disclaimerText := disclaimer c |}.

(** ** Lemmas *)

Lemma allocate_items (n : nat) (xs : list ScoredMarket) : map item (allocate n xs) = xs.
Proof. revert n. induction xs as [|x xs IH]; intros n; cbn; [reflexivity|]. now rewrite IH. Qed.

Lemma allocate_ids (n : nat) (xs : list ScoredMarket) :
  Forall (fun it => n <= objId it < n + List.length xs)%nat (allocate n xs).
Proof.
  revert n. induction xs as [|x xs IH]; intros n; cbn; constructor; [cbn; lia|].
  eapply Forall_impl; [|apply (IH (S n))]. cbn. intros it H. lia.
Qed.

Lemma sortOption_eqb_refl (s : SortOption) : sortOption_eqb s s = true.
Proof. now destruct s. Qed.

Lemma filterOption_eqb_refl (f : FilterOption) : filterOption_eqb f f = true.
Proof. destruct f as [|t]; [reflexivity|]. cbn. now destruct (tier_eqb_spec t t). Qed.

Lemma sortOption_eqb_eq (a b : SortOption) : sortOption_eqb a b = true -> a = b.
Proof. destruct a, b; easy. Qed.

Lemma filterOption_eqb_eq (a b : FilterOption) : filterOption_eqb a b = true -> a = b.
Proof. destruct a as [|t], b as [|t']; cbn; try easy. now destruct (tier_eqb_spec t t') as [->|]. Qed.

Lemma language_eqb_eq (a b : Language) : language_eqb a b = true -> a = b.
Proof. unfold language_eqb. now destruct (language_eq_dec a b). Qed.

(** The dependency list names every selection the memo reads: equal
    dependency values mean equal selections. *)
Lemma deps_complete so ft l so' ft' l' :
  depsEqual (map (depValue so ft l) processedMarketsDeps) (map (depValue so' ft' l') processedMarketsDeps) = true ->
  so = so' /\ ft = ft' /\ l = l'.
Proof.
  cbn. rewrite !andb_true_iff. intros (Hs & Hf & Hl & _).
  apply sortOption_eqb_eq in Hs. apply filterOption_eqb_eq in Hf. apply language_eqb_eq in Hl. auto.
Qed.

(** The invariant of [App]: the memo holds [processedMarkets] for the
    current selections (for the clock readings of its last computation),
    its recorded dependency values are those of the current selections,
    and every object in it is older than the next fresh identity. *)
Definition appInv (created : Z) (st : AppState) : Prop :=
  (exists clock, map item (rendered st) =
                 appProcessedMarkets created clock (sortOrder st) (filterTier st) (language st)) /\
  memoDeps st = map (depValue (sortOrder st) (filterTier st) (language st)) processedMarketsDeps /\
  Forall (fun it => objId it < nextObj st)%nat (rendered st).

Lemma recompute_inv (created : Z) (clock : nat -> Z) (n : nat) so ft l :
  appInv created (recompute created clock n so ft l).
Proof.
  split; [exists clock; apply allocate_items|]. split; [reflexivity|].
  eapply Forall_impl; [|apply allocate_ids]. cbn. intros it H. lia.
Qed.

(** A render whose selections differ from the memo's recomputes it. *)
Lemma changed_selection_recomputes (created : Z) (st : AppState) so ft l :
  appInv created st -> ~ (so = sortOrder st /\ ft = filterTier st /\ l = language st) ->
  depsEqual (map (depValue so ft l) processedMarketsDeps) (memoDeps st) = false.
Proof.
  intros (_ & Hd & _) Hne. rewrite Hd.
  destruct (depsEqual _ _) eqn:E; [|reflexivity]. exfalso. exact (Hne (deps_complete _ _ _ _ _ _ E)).
Qed.

Lemma toggleLanguage_neq (l : Language) : toggleLanguage l <> l.
Proof. now destruct l. Qed.

(** From a state of the invariant, a step either keeps the state or
    recomputes the memo for the new selections, allocating from [nextObj]. *)
Lemma appStep_cases (created : Z) (clock : nat -> Z) (st : AppState) (ev : AppEvent) :
  appInv created st ->
  appStep created clock st ev = (st, []) \/
  exists so ft l, fst (appStep created clock st ev) = recompute created clock (nextObj st) so ft l.
Proof.
  intros I. unfold appStep. destruct ev as [s|f|].
  - destruct (sortOption_eqb s (sortOrder st)) eqn:E; [now left|]. right.
    rewrite (changed_selection_recomputes created st); [do 3 eexists; reflexivity|exact I|].
    intros (-> & _). now rewrite sortOption_eqb_refl in E.
  - destruct (filterOption_eqb f (filterTier st)) eqn:E; [now left|]. right.
    rewrite (changed_selection_recomputes created st); [do 3 eexists; reflexivity|exact I|].
    intros (_ & -> & _). now rewrite filterOption_eqb_refl in E.
  - right. rewrite (changed_selection_recomputes created st); [do 3 eexists; reflexivity|exact I|].
    intros (_ & _ & H). exact (toggleLanguage_neq _ H).
Qed.

Lemma appStep_inv (created : Z) (clock : nat -> Z) (st : AppState) (ev : AppEvent) :
  appInv created st -> appInv created (fst (appStep created clock st ev)).
Proof.
  intros H. destruct (appStep_cases created clock st ev H) as [E|(so & ft & l & E)];
    rewrite E; [exact H | apply recompute_inv].
Qed.

(** A filter button's click leaves its filter selected. *)
Lemma appStep_filter (created : Z) (clock : nat -> Z) (st : AppState) (f : FilterOption) :
  filterTier (fst (appStep created clock st (SelectFilter f))) = f.
Proof.
  unfold appStep. destruct (filterOption_eqb f (filterTier st)) eqn:E.
  - symmetry. now apply filterOption_eqb_eq.
  - match goal with |- context [depsEqual ?a ?b] => now destruct (depsEqual a b) end.
Qed.

Lemma appReachable_inv (created : Z) (st : AppState) : appReachable created st -> appInv created st.
Proof. induction 1; [apply recompute_inv | now apply appStep_inv]. Qed.

(** When every new object is fresh, every displayed card runs its effect. *)
Lemma effectsOf_fresh (old new : list Item) (ol nl : Language) (n : nat) :
  Forall (fun o => objId o < n)%nat old -> Forall (fun it => n <= objId it)%nat new ->
  effectsOf old ol new nl = map (toRequest nl) new.
Proof.
  intros Ho. induction new as [|it new IH]; intros Hn; [reflexivity|].
  inversion Hn as [|? ? Hit Hrest]; subst. cbn [effectsOf flat_map map] in *.
  rewrite <- IH by exact Hrest.
  destruct (find _ old) as [o|] eqn:F; [|reflexivity].
  apply find_some in F as [Io _]. rewrite Forall_forall in Ho. specialize (Ho o Io).
  destruct (Nat.eqb_spec (objId o) (objId it)); [lia|]. reflexivity.
Qed.

(** Selecting the value already selected does not render. *)
Lemma same_selection_noop (created : Z) (clock : nat -> Z) (st : AppState) :
  appStep created clock st (SelectSort (sortOrder st)) = (st, []) /\
  appStep created clock st (SelectFilter (filterTier st)) = (st, []).
Proof. unfold appStep. now rewrite sortOption_eqb_refl, filterOption_eqb_refl. Qed.

(** ** Theorems *)

(** C14 (memo consistency).  In every state [App] reaches, the memoised
    array is [processedMarkets] of the mock markets for the current
    sort order, filter and language: the dependency list
    [[sortOrder, filterTier, language]] of the [useMemo] is complete. *)
Theorem memo_matches_selections (created : Z) (st : AppState) :
  appReachable created st ->
  exists clock, map item (rendered st) =
                appProcessedMarkets created clock (sortOrder st) (filterTier st) (language st).
Proof. intros H. exact (proj1 (appReachable_inv created st H)). Qed.

Lemma memo_matches_selections_witness :
  let st := fst (appStep 0 (fun _ => 0%Z) (initialApp 0 (fun _ => 0%Z)) (SelectFilter (FilterTier StrongBuy))) in
  appReachable 0 st /\
  exists clock, map item (rendered st) =
                appProcessedMarkets 0 clock (sortOrder st) (filterTier st) (language st).
Proof.
  cbv zeta.
  assert (H : appReachable 0 (fst (appStep 0 (fun _ => 0%Z) (initialApp 0 (fun _ => 0%Z))
                                      (SelectFilter (FilterTier StrongBuy))))).
  { apply app_step. apply app_init. }
  exact (conj H (memo_matches_selections 0 _ H)).
Defined.

(** C37 (every render refetches).  Changing only the sort order starts a
    new [getMarketAnalysis] call for every card on screen, although no
    card's market data, score or language changed: the memo hands each
    card a fresh object as its [market] prop. *)
Theorem sort_change_refetches_every_card (created : Z) (clock : nat -> Z) (st : AppState)
    (s : SortOption) :
  appReachable created st -> sortOption_eqb s (sortOrder st) = false ->
  let '(st', reqs) := appStep created clock st (SelectSort s) in
  reqs = map (toRequest (language st)) (rendered st') /\
  map item (rendered st') = appProcessedMarkets created clock s (filterTier st) (language st).
Proof.
  intros H Hs. pose proof (appReachable_inv created st H) as I. destruct I as (_ & _ & Hold).
  unfold appStep. rewrite Hs, (changed_selection_recomputes created st) by
    (exact (appReachable_inv created st H) || (intros (-> & _); now rewrite sortOption_eqb_refl in Hs)).
  cbn [fst snd]. split; [|apply allocate_items].
  apply (effectsOf_fresh _ _ _ _ (nextObj st) Hold).
  eapply Forall_impl; [|apply allocate_ids]. cbn. intros it I. lia.
Qed.

Lemma sort_change_refetches_every_card_witness :
  let st := initialApp 0 (fun _ => 0%Z) in
  (appReachable 0 st /\ sortOption_eqb scoreAsc (sortOrder st) = false) /\
  List.length (snd (appStep 0 (fun _ => 0%Z) st (SelectSort scoreAsc))) = 5%nat /\
  let '(st', reqs) := appStep 0 (fun _ => 0%Z) st (SelectSort scoreAsc) in
  reqs = map (toRequest (language st)) (rendered st') /\
  map item (rendered st') = appProcessedMarkets 0 (fun _ => 0%Z) scoreAsc (filterTier st) (language st).
Proof.
  cbv zeta. assert (H : appReachable 0 (initialApp 0 (fun _ => 0%Z))) by apply app_init.
  split; [split; [exact H | reflexivity]|]. split; [vm_compute; reflexivity|].
  exact (sort_change_refetches_every_card 0 (fun _ => 0%Z) _ scoreAsc H eq_refl).
Defined.

Lemma allocate_length (n : nat) (xs : list ScoredMarket) : List.length (allocate n xs) = List.length xs.
Proof. revert n. induction xs as [|x xs IH]; intros n; cbn; [reflexivity|]. now rewrite IH. Qed.

(** With the filter [All] the memo lists the five mock markets. *)
Lemma rendered_all_length (created : Z) (st : AppState) :
  appInv created st -> filterTier st = FilterAll -> List.length (rendered st) = 5%nat.
Proof.
  intros [(clock & E) _] Hf. rewrite <- (length_map item), E, Hf.
  unfold appProcessedMarkets. now rewrite processed_all_length.
Qed.

(** In either language the filter bar has
    one button per filter option ([All] and the four tiers) and exactly
    the button of the current filter is highlighted. *)
Theorem exactly_one_filter_active (language : Language) (ft : FilterOption) :
  map fbTarget (filterButtons language ft) =
    [FilterAll; FilterTier StrongBuy; FilterTier Buy; FilterTier Hold; FilterTier Avoid] /\
  map fbTarget (filter fbActive (filterButtons language ft)) = [ft].
Proof.
  split; [reflexivity|]. destruct ft as [|[]]; reflexivity.
Qed.

(** C15 (clear filters).  Whenever [App] shows the empty state, a click
    on its "clear filters" button (the event its [onClick] sends) selects
    [All] and brings back the grid of all five markets. *)
Theorem clear_filters_recovers (created : Z) (clock : nat -> Z) (st : AppState)
    (msg lbl : string) (target : FilterOption) :
  appReachable created st -> gridView st = EmptyGrid msg lbl target ->
  let st' := fst (appStep created clock st (SelectFilter target)) in
  filterTier st' = FilterAll /\ List.length (rendered st') = 5%nat /\
  exists cards, gridView st' = Grid cards.
Proof.
  intros H Hg st'. pose proof (appReachable_inv created st H) as I.
  assert (Ht : target = FilterAll) by (unfold gridView in Hg; destruct (rendered st); congruence).
  subst target.
  assert (I' : appInv created st') by (apply appStep_inv; exact I).
  assert (F' : filterTier st' = FilterAll) by apply appStep_filter.
  pose proof (rendered_all_length created st' I' F') as L.
  split; [exact F'|]. split; [exact L|].
  unfold gridView. destruct (rendered st'); [discriminate L | eexists; reflexivity].
Qed.

Lemma clear_filters_recovers_witness :
  let st := fst (appStep 0 (fun _ => 0%Z) (initialApp 0 (fun _ => 0%Z)) (SelectFilter (FilterTier Hold))) in
  (appReachable 0 st /\ gridView st = EmptyGrid "No markets match the selected filter." "Clear Filters" FilterAll) /\
  let st' := fst (appStep 0 (fun _ => 0%Z) st (SelectFilter FilterAll)) in
  filterTier st' = FilterAll /\ List.length (rendered st') = 5%nat /\
  exists cards, gridView st' = Grid cards.
Proof.
  intros st.
  assert (H : appReachable 0 st) by (apply app_step, app_init).
  assert (G : gridView st = EmptyGrid "No markets match the selected filter." "Clear Filters" FilterAll)
    by (vm_compute; reflexivity).
  exact (conj (conj H G) (clear_filters_recovers 0 (fun _ => 0%Z) st _ _ _ H G)).
Defined.

(** A filter button's click keeps the language. *)
Lemma appStep_language_filter (created : Z) (clock : nat -> Z) (st : AppState) (f : FilterOption) :
  language (fst (appStep created clock st (SelectFilter f))) = language st.
Proof.
  unfold appStep. destruct (filterOption_eqb f (filterTier st)); [reflexivity|].
  match goal with |- context [depsEqual ?a ?b] => now destruct (depsEqual a b) end.
Qed.

(** Every card of a state of the invariant has the tier its filter selects. *)
Lemma rendered_tier (created : Z) (st : AppState) (it : Item) (t : Tier) :
  appInv created st -> filterTier st = FilterTier t -> In it (rendered st) -> tier (scoring (item it)) = t.
Proof.
  intros [(clock & E) _] Hf Hi. apply (in_map item) in Hi.
  rewrite E in Hi. unfold appProcessedMarkets, processedMarkets in Hi. cbv zeta in Hi.
  apply (Permutation_in _ (sortBy_perm _ _)), filter_In, proj2 in Hi.
  rewrite Hf in Hi. cbn in Hi. now destruct (tier_eqb_spec (tier (scoring (item it))) t).
Qed.

(** C16 (filter buttons).  A click on any filter button of the page
    leaves exactly that button highlighted, and when it is a tier's button
    every card on screen shows that tier under the button's label. *)
Theorem filter_button_shows_its_tier (created : Z) (clock : nat -> Z) (st : AppState) (b : FilterButton) :
  appReachable created st -> In b (buttons (appView st)) ->
  let st' := fst (appStep created clock st (SelectFilter (fbTarget b))) in
  map fbLabel (filter fbActive (buttons (appView st'))) = [fbLabel b] /\
  forall it t, In it (rendered st') -> fbTarget b = FilterTier t ->
    tiers (language st') (tier (scoring (item it))) = fbLabel b.
Proof.
  intros H Hb st'. pose proof (appStep_inv created clock st (SelectFilter (fbTarget b)) (appReachable_inv created st H)) as I'.
  assert (Hf : filterTier st' = fbTarget b) by apply appStep_filter.
  assert (Hl : language st' = language st) by apply appStep_language_filter.
  cbn [appView buttons] in *. rewrite Hf, Hl. split.
  - destruct Hb as [<-|[<-|[<-|[<-|[<-|[]]]]]]; reflexivity.
  - intros it t Hi Ht. rewrite (rendered_tier created st' it t I') by congruence.
    destruct Hb as [<-|[<-|[<-|[<-|[<-|[]]]]]]; cbn in Ht |- *; first [discriminate Ht | injection Ht as <-; reflexivity].
Qed.

Lemma filter_button_shows_its_tier_witness :
  let st := initialApp 0 (fun _ => 0%Z) in
  let b := mkFilterButton "Buy" (FilterTier Buy) false in
  (appReachable 0 st /\ In b (buttons (appView st))) /\
  let st' := fst (appStep 0 (fun _ => 0%Z) st (SelectFilter (fbTarget b))) in
  List.length (rendered st') = 1%nat /\
  map fbLabel (filter fbActive (buttons (appView st'))) = [fbLabel b] /\
  forall it t, In it (rendered st') -> fbTarget b = FilterTier t ->
    tiers (language st') (tier (scoring (item it))) = fbLabel b.
Proof.
  intros st b.
  assert (H : appReachable 0 st) by apply app_init.
  assert (B : In b (buttons (appView st))) by (cbn; tauto).
  split; [exact (conj H B)|]. split; [vm_compute; reflexivity|].
  exact (filter_button_shows_its_tier 0 (fun _ => 0%Z) st b H B).
Defined.
